(** * Measurement-analysis core of the RFC 2544 / FRER test scripts

    A shallow embedding of the algorithmic parts of the Python scripts
    - [advanced_rfc2544_test.py]   (percentile, latency statistics, rate search),
    - [latency_only_test.py]       (the same percentile and statistics),
    - [comprehensive_network_test.py] (the second rate search),
    - [rfc2544_extended_test.py]   (back-to-back burst search),
    - [frer_reliability_test.py]   (sequence analysis of a capture, sending of
      replicated frames, the path redundancy test),
    - [frer_comparison_analysis.py] (dual-path minimum selection, statistics,
      the simulation and the table of improvements),
    - [quick_test.py]              (nearest-rank percentiles),
    and the properties of these functions; further, of
    [advanced_rfc2544_test.py], the reading of the reports of iperf3 and the
    summary of the suite, of [comprehensive_network_test.py] the latency
    statistics, and of [rfc2544_extended_test.py] the frame loss rate test.

    Numbers.  The scripts compute with Python's [int] and [float].  Every
    function below is written once, over an interface [Num] of the arithmetic
    the scripts use, and is read at two instances:
    - [QNum], exact rational arithmetic, for the statements that hold for
      all inputs;
    - [F64], IEEE 754 binary64 (the kernel's primitive floats, the same
      format and rounding as a Python [float]), for evaluating the code at
      concrete inputs exactly as Python does, and for the two rate
      searches, whose reachable states are few enough to evaluate them all.

    Effects.  A Python exception is a value [Raise e] of the type [py];
    external measurement tools (iperf3, ping, scapy) are oracles passed as
    arguments. *)

From Stdlib Require Import ZArith QArith Qround Lia Lqa List Bool Floats Sorted Permutation.
From Stdlib.Strings Require Import Byte String.
From stdpp Require Import gmap pretty.
Import ListNotations.

Local Open Scope Z_scope.

(* ===================================================================== *)
(** ** Python values and exceptions *)
(* ===================================================================== *)

Module Py.

(** The exceptions the modelled code can raise. *)
Inductive exn : Type :=
| IndexError        (* list index out of range *)
| StatisticsError   (* statistics.median / mean / stdev on too few data *)
| ValueError        (* int(nan), min() or max() of an empty list *)
| OverflowError.    (* int(inf) *)

(** A computation that returns a value or raises. *)
Inductive py (A : Type) : Type :=
| Ret (a : A)
| Raise (e : exn).
Arguments Ret {A} a.
Arguments Raise {A} e.

Definition bind {A B : Type} (m : py A) (k : A -> py B) : py B :=
  match m with
  | Ret a => k a
  | Raise e => Raise e
  end.

(** [l[i]] for a Python list and a Python int: a negative index counts
    from the end, an index outside [-len, len) raises [IndexError]. *)
Definition index {A : Type} (l : list A) (i : Z) : py A :=
  let n := Z.of_nat (List.length l) in
  let j := if i <? 0 then i + n else i in
  if (j <? 0) || (n <=? j) then Raise IndexError
  else match List.nth_error l (Z.to_nat j) with
       | Some a => Ret a
       | None => Raise IndexError
       end.

(** [zip(xs, ys)]: pairs up to the shorter argument. *)
Fixpoint zip {A B : Type} (xs : list A) (ys : list B) : list (A * B) :=
  match xs, ys with
  | x :: xs', y :: ys' => (x, y) :: zip xs' ys'
  | _, _ => []
  end.

End Py.

Import Py.

(** The monad of raising computations, with stdpp's [x ← m; k]. *)
#[export] Instance py_ret : MRet py := @Py.Ret.
#[export] Instance py_bind : MBind py := fun A B k m => Py.bind m k.

(* ===================================================================== *)
(** ** The arithmetic interface *)
(* ===================================================================== *)

(** What the scripts use of Python numbers: conversion from [int], the four
    operations, [<], and [int(x)] (truncation toward zero, which raises on
    an infinity or a NaN). *)
Class Num (A : Type) : Type := {
  nofZ  : Z -> A;
  nadd  : A -> A -> A;
  nsub  : A -> A -> A;
  nmul  : A -> A -> A;
  ndiv  : A -> A -> A;
  nltb  : A -> A -> bool;
  ntrunc : A -> py Z
}.

Declare Scope num_scope.
Delimit Scope num_scope with num.
Infix "+" := nadd : num_scope.
Infix "-" := nsub : num_scope.
Infix "*" := nmul : num_scope.
Infix "/" := ndiv : num_scope.
Infix "<?" := nltb : num_scope.

(** A decimal literal [n/d] of the source, such as [99.9] ([999/10]) or
    [0.001] ([1/1000]): the quotient of two integers, exact in [Q] and
    correctly rounded in binary64 (as Python reads the literal). *)
Definition nlit {A : Type} `{Num A} (n d : Z) : A := (nofZ n / nofZ d)%num.

(** *** Exact rationals *)

Definition Qltb (x y : Q) : bool :=
  (Qnum x * Z.pos (Qden y) <? Qnum y * Z.pos (Qden x))%Z.

Definition Qtrunc (x : Q) : Z := Z.quot (Qnum x) (Z.pos (Qden x)).

#[export] Instance QNum : Num Q := {
  nofZ := inject_Z;
  nadd := Qplus;
  nsub := Qminus;
  nmul := Qmult;
  ndiv := Qdiv;
  nltb := Qltb;
  ntrunc := fun x => Ret (Qtrunc x)
}.

(** *** IEEE 754 binary64 *)

Definition float_of_Z (z : Z) : float :=
  if (z <? 0)%Z then PrimFloat.opp (PrimFloat.of_uint63 (Uint63.of_Z (- z)))
  else PrimFloat.of_uint63 (Uint63.of_Z z).

(** [int(x)] on a float: the integer part of a finite value. *)
Definition float_trunc (x : float) : py Z :=
  match Prim2SF x with
  | S754_zero _ => Ret 0
  | S754_finite s m e =>
      let a := if (0 <=? e)%Z then Z.pos m * 2 ^ e else Z.pos m / 2 ^ (- e) in
      Ret (if s then - a else a)
  | S754_infinity _ => Raise OverflowError
  | S754_nan => Raise ValueError
  end.

#[export] Instance F64 : Num float := {
  nofZ := float_of_Z;
  nadd := PrimFloat.add;
  nsub := PrimFloat.sub;
  nmul := PrimFloat.mul;
  ndiv := PrimFloat.div;
  nltb := PrimFloat.ltb;
  ntrunc := float_trunc
}.

(* ===================================================================== *)
(** ** PercentileStatsEngine *)
(* ===================================================================== *)

(** The results of [statistics.mean] and [statistics.stdev] (Python's
    standard library, not code of the scripts) on data long enough for them
    not to raise.  No property below depends on what they compute. *)
Class StatisticsLib (A : Type) : Type := {
  mean_value : list A -> A;
  stdev_value : list A -> A
}.

Section Statistics.

Context {A : Type} `{Num A} `{StatisticsLib A}.

(** [sorted(data)]: a stable sort that compares with [<] only. *)
Fixpoint insert_sorted (x : A) (l : list A) : list A :=
  match l with
  | [] => [x]
  | y :: l' => if (y <? x)%num then y :: insert_sorted x l' else x :: l
  end.

Fixpoint sorted (data : list A) : list A :=
  match data with
  | [] => []
  | x :: data' => insert_sorted x (sorted data')
  end.

(** [RFC2544Test.percentile] (advanced_rfc2544_test.py), also the local
    [percentile] of latency_only_test.py and of [calculate_stats]
    (frer_comparison_analysis.py): the three bodies are the same. *)
Definition percentile (data : list A) (percent : A) : py A :=
  let sorted_data := sorted data in
  let len := Z.of_nat (List.length sorted_data) in
  let index := (nofZ (len - 1) * percent / nofZ 100)%num in
  floor ← ntrunc index;
  let ceil := (floor + 1)%Z in
  if (len <=? ceil)%Z then Py.index sorted_data floor
  else
    let fraction := (index - nofZ floor)%num in
    lo ← Py.index sorted_data floor;
    hi ← Py.index sorted_data ceil;
    Ret (lo * (nofZ 1 - fraction) + hi * fraction)%num.

(** The builtins [min(data)] and [max(data)]: the first least (greatest)
    element, found with [<]; [ValueError] on an empty list. *)
Definition py_min (data : list A) : py A :=
  match data with
  | [] => Raise ValueError
  | x :: rest => Ret (fold_left (fun cur item => if (item <? cur)%num then item else cur) rest x)
  end.

Definition py_max (data : list A) : py A :=
  match data with
  | [] => Raise ValueError
  | x :: rest => Ret (fold_left (fun cur item => if (cur <? item)%num then item else cur) rest x)
  end.

(** [statistics.median(data)] of Python's standard library. *)
Definition statistics_median (data : list A) : py A :=
  let data := sorted data in
  let n := Z.of_nat (List.length data) in
  if (n =? 0)%Z then Raise StatisticsError
  else if (n mod 2 =? 1)%Z then Py.index data (n / 2)
  else
    let i := (n / 2)%Z in
    lo ← Py.index data (i - 1);
    hi ← Py.index data i;
    Ret ((lo + hi) / nofZ 2)%num.

(** [statistics.mean] and [statistics.stdev] of Python's standard library
    raise [StatisticsError] below one, respectively two, data points.
    Their numeric results are those of the library ([StatisticsLib]). *)
Definition statistics_mean (data : list A) : py A :=
  if (Z.of_nat (List.length data) <? 1)%Z then Raise StatisticsError
  else Ret (mean_value data).

Definition statistics_stdev (data : list A) : py A :=
  if (Z.of_nat (List.length data) <? 2)%Z then Raise StatisticsError
  else Ret (stdev_value data).

(** The statistics dictionary both scripts build; [tag] is
    ["frame_size"] in [test_latency_icmp] and ["label"] in
    [calculate_stats]. *)
Record stats (T : Type) : Type := {
  tag : T;
  count : Z;
  min : A;
  max : A;
  avg : A;
  median : A;
  stddev : A;
  p50 : A;
  p90 : A;
  p95 : A;
  p99 : A;
  p99_9 : A;
  jitter : A
}.

(** [RFC2544Test.test_latency_icmp] (advanced_rfc2544_test.py) and
    [test_latency_icmp] (latency_only_test.py), from the point where ping
    has run: [ping_output] is [None] when ping exits with a non-zero code,
    and otherwise the latencies parsed from its [time=] lines.  The
    function returns [None] without data. *)
Definition test_latency_icmp (ping_output : option (list A)) (frame_size : Z)
  : py (option (stats Z)) :=
  match ping_output with
  | None => Ret None
  | Some latencies =>
      if (Z.of_nat (List.length latencies) =? 0)%Z then Ret None
      else
        let len := Z.of_nat (List.length latencies) in
        v_min ← py_min latencies;
        v_max ← py_max latencies;
        v_avg ← statistics_mean latencies;
        v_median ← statistics_median latencies;
        v_stddev ← (if (1 <? len)%Z then statistics_stdev latencies else Ret (nofZ 0));
        v_p50 ← statistics_median latencies;
        v_p90 ← percentile latencies (nofZ 90);
        v_p95 ← percentile latencies (nofZ 95);
        v_p99 ← percentile latencies (nofZ 99);
        v_p99_9 ← percentile latencies (nlit 999 10);
        v_jitter ← (if (1 <? len)%Z then statistics_stdev latencies else Ret (nofZ 0));
        Ret (Some {| tag := frame_size; count := len; min := v_min; max := v_max;
                     avg := v_avg; median := v_median; stddev := v_stddev;
                     p50 := v_p50; p90 := v_p90; p95 := v_p95; p99 := v_p99;
                     p99_9 := v_p99_9; jitter := v_jitter |})
  end.

(** [calculate_stats] (frer_comparison_analysis.py): the dictionary entries
    are evaluated in order, and [statistics.stdev] is called unguarded. *)
Definition calculate_stats (latencies : list A) (label : string)
  : py (stats string) :=
  v_min ← py_min latencies;
  v_max ← py_max latencies;
  v_avg ← statistics_mean latencies;
  v_median ← statistics_median latencies;
  v_stddev ← statistics_stdev latencies;
  v_p50 ← percentile latencies (nofZ 50);
  v_p90 ← percentile latencies (nofZ 90);
  v_p95 ← percentile latencies (nofZ 95);
  v_p99 ← percentile latencies (nofZ 99);
  v_p99_9 ← percentile latencies (nlit 999 10);
  v_jitter ← statistics_stdev latencies;
  Ret {| tag := label; count := Z.of_nat (List.length latencies);
         min := v_min; max := v_max; avg := v_avg; median := v_median;
         stddev := v_stddev; p50 := v_p50; p90 := v_p90; p95 := v_p95;
         p99 := v_p99; p99_9 := v_p99_9; jitter := v_jitter |}.

(** [calculate_frer_latencies] (frer_comparison_analysis.py):
    [[min(p1, p2) for p1, p2 in zip(path1, path2)]]; the builtin
    [min(p1, p2)] is [p2] when [p2 < p1] and [p1] otherwise. *)
Definition calculate_frer_latencies (path1 path2 : list A) : list A :=
  List.map (fun '(p1, p2) => if (p2 <? p1)%num then p2 else p1) (Py.zip path1 path2).

End Statistics.

Arguments stats A T : clear implicits.
Arguments tag {A T} _.
Arguments count {A T} _.
Arguments min {A T} _.
Arguments max {A T} _.
Arguments avg {A T} _.
Arguments median {A T} _.
Arguments stddev {A T} _.
Arguments p50 {A T} _.
Arguments p90 {A T} _.
Arguments p95 {A T} _.
Arguments p99 {A T} _.
Arguments p99_9 {A T} _.
Arguments jitter {A T} _.


(* ===================================================================== *)
(** ** RateSearchEngine *)
(* ===================================================================== *)

Section RateSearch.

Context {A : Type} `{Num A}.

(** One run of iperf3 is an oracle: called at iteration [i] with a target
    rate it gives [None] (no usable result) or [Some loss], the
    ["loss_percent"] of the report.  Taking the iteration as an argument
    lets the oracle answer differently each time it is asked. *)
Definition probe : Type := Z -> A -> option A.

(** *** [RFC2544Test.binary_search_throughput] (advanced_rfc2544_test.py) *)

Record search_state : Type := {
  min_mbps : A;
  max_mbps : A;
  best_throughput : A;
  iterations : Z
}.

Definition tolerance : A := nlit 1 100.            (* 0.01 *)
Definition zero_loss_threshold : A := nlit 1 1000. (* 0.001 *)
Definition max_iterations : Z := 20.

Definition search_init : search_state :=
  {| min_mbps := nofZ 1; max_mbps := nofZ 1000;
     best_throughput := nofZ 0; iterations := 0 |}.

(** The test of the [while]. *)
Definition search_continues (st : search_state) : bool :=
  (tolerance <? (max_mbps st - min_mbps st) / max_mbps st)%num
  && (iterations st <? max_iterations)%Z.

(** The body of the [while]. *)
Definition search_iteration (test_throughput_iperf3 : probe) (st : search_state)
  : search_state :=
  let iterations' := (iterations st + 1)%Z in
  let current_mbps := ((min_mbps st + max_mbps st) / nofZ 2)%num in
  match test_throughput_iperf3 iterations' current_mbps with
  | None =>
      {| min_mbps := min_mbps st; max_mbps := current_mbps;
         best_throughput := best_throughput st; iterations := iterations' |}
  | Some loss_percent =>
      if (loss_percent <? zero_loss_threshold)%num then
        {| min_mbps := current_mbps; max_mbps := max_mbps st;
           best_throughput := current_mbps; iterations := iterations' |}
      else
        {| min_mbps := min_mbps st; max_mbps := current_mbps;
           best_throughput := best_throughput st; iterations := iterations' |}
  end.

(** The [while] loop, unrolled at most [fuel] times. *)
Fixpoint search_loop (fuel : nat) (test_throughput_iperf3 : probe)
  (st : search_state) : search_state :=
  match fuel with
  | O => st
  | S fuel' =>
      if search_continues st
      then search_loop fuel' test_throughput_iperf3 (search_iteration test_throughput_iperf3 st)
      else st
  end.

(** The loop runs while [iterations < max_iterations], so [max_iterations]
    unrollings are all it can use ([search_loop_fuel] below). *)
Definition search_final (test_throughput_iperf3 : probe) : search_state :=
  search_loop (Z.to_nat max_iterations) test_throughput_iperf3 search_init.

Definition binary_search_throughput (test_throughput_iperf3 : probe) : A :=
  best_throughput (search_final test_throughput_iperf3).

(** *** [NetworkTester.test_rfc2544_throughput]
    (comprehensive_network_test.py), for one frame size *)

(** An entry of the ["iterations"] list. *)
Inductive iteration_record : Type :=
| Measured (target_rate loss_percent : A)
| Errored (target_rate : A).

Record throughput_state : Type := {
  min_rate : A;
  max_rate : A;
  best_rate : A;
  iteration_log : list iteration_record
}.

Definition throughput_init : throughput_state :=
  {| min_rate := nofZ 1; max_rate := nofZ 1000; best_rate := nofZ 0;
     iteration_log := [] |}.

(** [for iteration in range(10)]: [iperf3 iteration test_rate] is [None]
    when the output of the command does not parse (the [except] branch),
    which leaves the rates as they are. *)
Fixpoint throughput_loop (range : list Z) (iperf3 : probe) (st : throughput_state)
  : throughput_state :=
  match range with
  | [] => st
  | iteration :: range' =>
      let test_rate := ((min_rate st + max_rate st) / nofZ 2)%num in
      match iperf3 iteration test_rate with
      | Some loss_percent =>
          let log' := iteration_log st ++ [Measured test_rate loss_percent] in
          let st' :=
            if (loss_percent <? nlit 1 1000)%num then
              {| min_rate := test_rate; max_rate := max_rate st;
                 best_rate := test_rate; iteration_log := log' |}
            else
              {| min_rate := min_rate st; max_rate := test_rate;
                 best_rate := best_rate st; iteration_log := log' |} in
          if ((max_rate st' - min_rate st') / max_rate st' <? nlit 1 100)%num
          then st'                                   (* break *)
          else throughput_loop range' iperf3 st'
      | None =>
          throughput_loop range' iperf3
            {| min_rate := min_rate st; max_rate := max_rate st;
               best_rate := best_rate st;
               iteration_log := iteration_log st ++ [Errored test_rate] |}
      end
  end.

Definition test_rfc2544_throughput (iperf3 : probe) : throughput_state :=
  throughput_loop (List.map Z.of_nat (List.seq 0 10)) iperf3 throughput_init.

End RateSearch.

(* ===================================================================== *)
(** ** BurstCapacityEngine *)
(* ===================================================================== *)

Section BurstSearch.

Context {A : Type} `{Num A} `{StatisticsLib A}.

(** Sending one burst and pinging afterwards is an oracle: in trial [t]
    (counted from 0) with a burst size it gives [None] when the [try]
    block raises, or [Some loss_rate] with the packet loss ping reports
    (100.0 when its output has no such line). *)
Definition burst_probe : Type := Z -> Z -> option A.

Definition test_bursts : list Z := [100; 500; 1000; 2000; 5000; 10000].

(** The inner [for burst_size in test_bursts] with its two [break]s;
    [best_burst] is the variable of the enclosing function. *)
Fixpoint scan_bursts (send_burst : Z -> option A) (bursts : list Z) (best_burst : Z) : Z :=
  match bursts with
  | [] => best_burst
  | burst_size :: bursts' =>
      match send_burst burst_size with
      | Some loss_rate =>
          if (loss_rate <? nofZ 1)%num
          then scan_bursts send_burst bursts' (Z.max best_burst burst_size)
          else best_burst                            (* break *)
      | None => best_burst                           (* except: break *)
      end
  end.

(** The outer [for trial in range(self.num_trials)]: [best_burst] is set
    before the loop and never reset; each trial appends
    [{"trial": trial + 1, "max_burst": best_burst}]. *)
Fixpoint run_trials (send_burst : burst_probe) (range : list Z)
  (best_burst : Z) (trials : list (Z * Z)) : list (Z * Z) :=
  match range with
  | [] => trials
  | trial :: range' =>
      let best_burst' := scan_bursts (send_burst trial) test_bursts best_burst in
      run_trials send_burst range' best_burst' (trials ++ [(trial + 1, best_burst')])
  end.

(** [min] over a non-empty list of ints. *)
Definition min_list (x : Z) (rest : list Z) : Z := fold_left Z.min rest x.

Record burst_result : Type := {
  frame_size : Z;
  trials : list (Z * Z);
  max_burst_no_loss : Z;
  avg_burst : option A;
  std_burst : option A
}.

(** [RFC2544ExtendedTest.back_to_back_test] (rfc2544_extended_test.py);
    [num_trials] is [self.num_trials], 3 unless changed. *)
Definition back_to_back_test (num_trials : nat) (send_burst : burst_probe)
  (frame_size : Z) : burst_result :=
  let trials := run_trials send_burst (List.map Z.of_nat (List.seq 0 num_trials)) 0 [] in
  match List.map snd trials with
  | [] =>
      {| frame_size := frame_size; trials := trials; max_burst_no_loss := 0;
         avg_burst := None; std_burst := None |}
  | b :: rest as max_bursts =>
      {| frame_size := frame_size; trials := trials;
         max_burst_no_loss := min_list b rest;
         avg_burst := Some (mean_value (List.map nofZ max_bursts));
         std_burst := Some (if (1 <? Z.of_nat (List.length max_bursts))%Z
                            then stdev_value (List.map nofZ max_bursts)
                            else nofZ 0) |}
  end.

End BurstSearch.

(* ===================================================================== *)
(** ** SequenceAnalyzer *)
(* ===================================================================== *)

Section SequenceAnalysis.

Context {A : Type} `{Num A}.

(** A captured packet, as far as [analyze_pcap] looks at it: the bytes of
    its [Raw] layer, or [None] when it has none ([Raw in pkt] is false). *)
Definition packet : Type := option (list byte).

(** An unsigned big-endian integer, as the [H] and [I] fields of
    [struct.unpack("!HHI", ...)] read it. *)
Definition be_uint (bs : list byte) : Z :=
  fold_left (fun acc b => acc * 256 + Z.of_N (Byte.to_N b))%Z bs 0%Z.

(** [struct.unpack("!HHI", payload[0:8])] on an 8-byte slice. *)
Definition unpack_HHI (bs : list byte) : Z * Z * Z :=
  (be_uint (firstn 2 bs), be_uint (firstn 2 (skipn 2 bs)),
   be_uint (firstn 4 (skipn 4 bs))).

(** The guard [len(payload) >= 8 and payload[0:2] == b'\xf1\xc1'] and the
    unpacking under it: the (ethertype, stream_id, seq_num) of a tagged
    packet, [None] for a packet that is skipped. *)
Definition frer_tag (pkt : packet) : option (Z * Z * Z) :=
  match pkt with
  | None => None
  | Some payload =>
      if (8 <=? Z.of_nat (List.length payload))%Z then
        match payload with
        | xf1 :: xc1 :: _ => Some (unpack_HHI (firstn 8 payload))
        | _ => None
        end
      else None
  end.

(** The variables of the loop; [unique_seq] is a Python [set] of ints. *)
Record seq_state : Type := {
  duplicates : Z;
  unique_seq : gset Z;
  out_of_order : Z;
  prev_seq : Z
}.

Definition seq_init : seq_state :=
  {| duplicates := 0; unique_seq := ∅; out_of_order := 0; prev_seq := -1 |}.

(** The body of [for pkt in packets]. *)
Definition analyze_packet (st : seq_state) (pkt : packet) : seq_state :=
  match frer_tag pkt with
  | None => st
  | Some (ethertype, stream_id, seq_num) =>
      let is_dup := bool_decide (seq_num ∈ unique_seq st) in
      {| duplicates := if is_dup then (duplicates st + 1)%Z else duplicates st;
         unique_seq := if is_dup then unique_seq st else {[ seq_num ]} ∪ unique_seq st;
         out_of_order := if (seq_num <? prev_seq st)%Z
                         then (out_of_order st + 1)%Z else out_of_order st;
         prev_seq := seq_num |}
  end.

Definition analyze_packets (packets : list packet) : seq_state :=
  fold_left analyze_packet packets seq_init.

(** The dictionary [analysis]. *)
Record analysis : Type := {
  total_packets : Z;
  unique_packets : Z;
  an_duplicates : Z;
  an_out_of_order : Z;
  replication_ratio : A;
  elimination_efficiency : A
}.

(** [FRERTest.analyze_pcap] (frer_reliability_test.py); [capture] is
    [None] when the file is missing or [rdpcap] raises, and the function
    then returns [None]. *)
Definition analyze_pcap (capture : option (list packet)) : option analysis :=
  match capture with
  | None => None
  | Some packets =>
      let total_packets := Z.of_nat (List.length packets) in
      let st := analyze_packets packets in
      let unique_packets := Z.of_nat (size (unique_seq st)) in
      let replication_ratio :=
        if (0 <? unique_packets)%Z
        then (nofZ (duplicates st) / nofZ unique_packets * nofZ 100)%num
        else nofZ 0 in
      Some {| total_packets := total_packets;
              unique_packets := unique_packets;
              an_duplicates := duplicates st;
              an_out_of_order := out_of_order st;
              replication_ratio := replication_ratio;
              elimination_efficiency :=
                if (0 <? total_packets)%Z
                then (nofZ (duplicates st) / nofZ total_packets * nofZ 100)%num
                else nofZ 0 |}
  end.

End SequenceAnalysis.

(** [FRERTest.create_frer_packet] (frer_reliability_test.py), as far as the
    capture shows it: the [Raw] bytes are
    [struct.pack("!HHI", 0xF1C1, stream_id, seq_num)] followed by the test
    payload, here [rest]. *)
Definition byte_of_Z (z : Z) : byte :=
  match Byte.of_N (Z.to_N (z mod 256)) with
  | Some b => b
  | None => x00
  end.

Fixpoint be_bytes (width : nat) (z : Z) : list byte :=
  match width with
  | O => []
  | S width' => be_bytes width' (z / 256) ++ [byte_of_Z z]
  end.

Definition pack_HHI (ethertype stream_id seq_num : Z) : list byte :=
  be_bytes 2 ethertype ++ be_bytes 2 stream_id ++ be_bytes 4 seq_num.

Definition create_frer_packet (seq_num stream_id : Z) (rest : list byte) : packet :=
  Some (pack_HHI 0xF1C1 stream_id seq_num ++ rest).

(* ===================================================================== *)
(** ** The specification's wording *)
(* ===================================================================== *)

(** The percentile as the specification describes it, over exact
    rationals: sort the samples ascending; [index = (n-1) * p / 100];
    [floor = ⌊index⌋], [ceil = floor + 1]; [sorted[floor]] when [ceil ≥ n],
    and otherwise [sorted[floor]*(1-frac) + sorted[ceil]*frac] with
    [frac = index - floor].  List positions are read with a total [nth]. *)
Definition percentile_spec (samples : list Q) (p : Q) : Q :=
  let sorted_samples := sorted samples in
  let n := Z.of_nat (List.length sorted_samples) in
  let index := (inject_Z (n - 1) * p / 100)%Q in
  let floor := Qfloor index in
  let ceil := (floor + 1)%Z in
  let at_ (i : Z) := List.nth (Z.to_nat i) sorted_samples 0%Q in
  if (ceil >=? n)%Z then at_ floor
  else
    let frac := (index - inject_Z floor)%Q in
    (at_ floor * (1 - frac) + at_ ceil * frac)%Q.

(** The same interpolation at a position [x] of a list [s]. *)
Definition interpolate (s : list Q) (x : Q) : Q :=
  let floor := Qfloor x in
  let ceil := (floor + 1)%Z in
  let at_ (i : Z) := List.nth (Z.to_nat i) s 0%Q in
  if (ceil >=? Z.of_nat (List.length s))%Z then at_ floor
  else
    let frac := (x - inject_Z floor)%Q in
    (at_ floor * (1 - frac) + at_ ceil * frac)%Q.

(** A list of rationals in ascending order. *)
Definition ascending (l : list Q) : Prop :=
  forall (i j : nat) (a b : Q),
    (i <= j)%nat -> nth_error l i = Some a -> nth_error l j = Some b -> (a <= b)%Q.

(** The value a computation returns satisfies [P]; false if it raises. *)
Definition returns {A : Type} (m : py A) (P : A -> Prop) : Prop :=
  match m with
  | Ret a => P a
  | Raise _ => False
  end.

(** The order the specification states between the entries of a
    statistics dictionary, in exact arithmetic. *)
Definition percentiles_ordered {T : Type} (s : stats Q T) : Prop :=
  (min s <= p50 s)%Q /\ (p50 s <= p90 s)%Q /\ (p90 s <= p95 s)%Q /\
  (p95 s <= p99 s)%Q /\ (p99 s <= p99_9 s)%Q /\ (p99_9 s <= max s)%Q.


(** The burst search as the specification describes it.  One trial scans
    the candidates in order and stops at the first whose probe fails or
    loses at least the threshold (1%); its result is the last candidate
    that passed before, 0 if none did. *)
Fixpoint trial_result_spec {A : Type} `{Num A} (send_burst : Z -> option A)
  (candidates : list Z) (last_passing : Z) : Z :=
  match candidates with
  | [] => last_passing
  | size :: candidates' =>
      match send_burst size with
      | Some loss => if (loss <? nofZ 1)%num
                     then trial_result_spec send_burst candidates' size
                     else last_passing
      | None => last_passing
      end
  end.

(** The trials are independent runs; the report is their minimum. *)
Definition max_burst_no_loss_spec {A : Type} `{Num A} (num_trials : nat)
  (send_burst : burst_probe) : Z :=
  match List.map (fun trial => trial_result_spec (send_burst trial) test_bursts 0)
          (List.map Z.of_nat (List.seq 0 num_trials)) with
  | [] => 0
  | r :: results => min_list r results
  end.

(** A probe for three trials: the first loses nothing up to 1000 frames and
    2% at 2000; the second and third lose 5% at the first burst of 100. *)
Definition lossy_after_first_trial {A : Type} `{Num A} : burst_probe :=
  fun trial burst_size =>
    if (trial =? 0)%Z
    then Some (if (burst_size <=? 1000)%Z then nofZ 0 else nofZ 2)
    else Some (nofZ 5).

(** One turn of the [while] of [binary_search_throughput]: the body under
    its test. *)
Definition search_turn {A : Type} `{Num A} (test_throughput_iperf3 : probe)
  (st : search_state) : search_state :=
  if search_continues st then search_iteration test_throughput_iperf3 st else st.


(** What holds of the variables of either rate search at all times, in
    exact arithmetic: the bounds stay ordered within [1, 1000], and
    [best] is 0 (no rate has passed yet) or the lower bound itself. *)
Definition window_ok (low high best : Q) : Prop :=
  (1 <= low)%Q /\ (low <= high)%Q /\ (high <= 1000)%Q /\ (best = 0%Q \/ best = low).

(** The state of [binary_search_throughput] after [m] runs of the loop
    body. *)
Definition search_after {A : Type} `{Num A} (m : nat) (p : probe) : search_state :=
  Nat.iter m (search_iteration p) search_init.

(** The stopping condition as the specification words it:
    [(high-low)/high < tolerance] or the iteration count has reached
    [max_iterations]. *)
Definition search_stops (st : search_state (A:=Q)) : Prop :=
  ((max_mbps st - min_mbps st) / max_mbps st < tolerance)%Q
  \/ iterations st = max_iterations.

(** A probe that never fails. *)
Definition never_fails {A : Type} (p : Z -> A -> option A) : Prop :=
  forall (i : Z) (rate : A), p i rate <> None.

(** After [m] halvings the bounds are [1 + 999*a/2^m] and
    [1 + 999*(a+1)/2^m] for an integer [a]. *)
Definition dyadic_window (m : nat) (low high : Q) : Prop :=
  exists a : Z,
    (low * inject_Z (2 ^ Z.of_nat m) == inject_Z (2 ^ Z.of_nat m + 999 * a))%Q
    /\ (high * inject_Z (2 ^ Z.of_nat m) == inject_Z (2 ^ Z.of_nat m + 999 * (a + 1)))%Q.

(** The two outcomes of an iteration of [binary_search_throughput]: the
    probe passed (the lower bound and [best_throughput] move to the
    midpoint) or it did not (the upper bound moves to the midpoint). *)
Definition raise_low {A : Type} `{Num A} (st : search_state) : search_state :=
  let current_mbps := ((min_mbps st + max_mbps st) / nofZ 2)%num in
  {| min_mbps := current_mbps; max_mbps := max_mbps st;
     best_throughput := current_mbps; iterations := (iterations st + 1)%Z |}.

Definition lower_high {A : Type} `{Num A} (st : search_state) : search_state :=
  let current_mbps := ((min_mbps st + max_mbps st) / nofZ 2)%num in
  {| min_mbps := min_mbps st; max_mbps := current_mbps;
     best_throughput := best_throughput st; iterations := (iterations st + 1)%Z |}.

(** [check] holds of every state the loop can reach from [st] within
    [fuel] iterations, whatever the probe answers. *)
Fixpoint search_tree {A : Type} `{Num A} (fuel : nat) (check : search_state -> bool)
  (st : search_state) : bool :=
  check st
  && match fuel with
     | O => true
     | S fuel' =>
         if search_continues st
         then search_tree fuel' check (raise_low st) && search_tree fuel' check (lower_high st)
         else true
     end.

(** The checks on a binary64 state, with the comparisons of IEEE 754 (false
    on a NaN): the order of the variables; the two successors halve the
    window and do not lower [best_throughput]; the test of the [while]
    fails exactly when the stopping condition of the specification holds. *)
Definition window_ok_b (st : search_state (A:=float)) : bool :=
  PrimFloat.leb 1 (min_mbps st) && PrimFloat.leb (min_mbps st) (max_mbps st)
  && PrimFloat.leb (max_mbps st) 1000
  && (PrimFloat.eqb (best_throughput st) 0
      || PrimFloat.eqb (best_throughput st) (min_mbps st))
  && PrimFloat.leb (best_throughput st) (min_mbps st)
  && PrimFloat.leb (best_throughput st) (best_throughput st).

Definition successors_ok_b (st : search_state (A:=float)) : bool :=
  let half := PrimFloat.div (PrimFloat.sub (max_mbps st) (min_mbps st)) 2 in
  PrimFloat.eqb (PrimFloat.sub (max_mbps (raise_low st)) (min_mbps (raise_low st))) half
  && PrimFloat.eqb (PrimFloat.sub (max_mbps (lower_high st)) (min_mbps (lower_high st))) half
  && PrimFloat.leb (best_throughput st) (best_throughput (raise_low st))
  && PrimFloat.leb (best_throughput st) (best_throughput (lower_high st)).

Definition search_stops_b (st : search_state (A:=float)) : bool :=
  PrimFloat.ltb (PrimFloat.div (PrimFloat.sub (max_mbps st) (min_mbps st)) (max_mbps st))
    tolerance
  || (iterations st =? max_iterations)%Z.

Definition binary64_checks (st : search_state (A:=float)) : bool :=
  window_ok_b st && successors_ok_b st
  && Bool.eqb (negb (search_continues st)) (search_stops_b st).

(** [check] holds of the rates of every state [test_rfc2544_throughput]
    can reach from the rates [low], [high], [best] within [n] iterations,
    whatever the probe answers: it passed, it lost too much, or it failed
    (the first two end the loop when the window is below the tolerance). *)
Fixpoint throughput_tree {A : Type} `{Num A} (n : nat) (check : A -> A -> A -> bool)
  (low high best : A) : bool :=
  check low high best
  && match n with
     | O => true
     | S n' =>
         let test_rate := ((low + high) / nofZ 2)%num in
         (if ((high - test_rate) / high <? nlit 1 100)%num
          then check test_rate high test_rate
          else throughput_tree n' check test_rate high test_rate)
         && (if ((test_rate - low) / test_rate <? nlit 1 100)%num
             then check low test_rate best
             else throughput_tree n' check low test_rate best)
         && throughput_tree n' check low high best
     end.

(** The check on binary64 rates: their order, and [best] is a number not
    above the next midpoint (so that it cannot decrease). *)
Definition rates_ok_b (low high best : float) : bool :=
  PrimFloat.leb 1 low && PrimFloat.leb low high && PrimFloat.leb high 1000
  && (PrimFloat.eqb best 0 || PrimFloat.eqb best low)
  && PrimFloat.leb best low && PrimFloat.leb best best
  && PrimFloat.leb best (PrimFloat.div (PrimFloat.add low high) 2).

(** Stand-ins for the statistics library where a closed example needs one;
    no statement looks at the values they give. *)
Definition unused_lib_Q : StatisticsLib Q :=
  {| mean_value := fun _ => 0%Q; stdev_value := fun _ => 0%Q |}.
Definition unused_lib_float : StatisticsLib float :=
  {| mean_value := fun _ => 0%float; stdev_value := fun _ => 0%float |}.

(* ===================================================================== *)
(** ** Sending replicated frames *)
(* ===================================================================== *)

(** [FRERTest] (frer_reliability_test.py): the side that sends.  The
    functions return [None] where the Python code raises. *)

Section FrameSending.

Context {A : Type} `{Num A}.

(** The fields of a [FRERTest] object that sending reads and writes; an
    interface is a name or [None]. *)
Record frer_test : Type := {
  primary_iface : option string;
  secondary_iface : option string;
  sequence_number : Z
}.

(** [if self.secondary_iface:]: a name other than the empty string. *)
Definition truthy (iface : option string) : bool :=
  match iface with
  | Some name => negb (String.eqb name "")
  | None => false
  end.

(** What sending meets outside the program: whether [get_if_hwaddr] finds
    the address of an interface (it raises otherwise); the bytes of
    [os.urandom(1000)] for the frame with a given sequence number; whether
    a call of [sendp] returns ([true]) or raises.  A call of [sendp] is
    named by the sequence number of its frame, by whether it is the call
    for the secondary path, and by its interface. *)
Record network : Type := {
  get_if_hwaddr : option string -> bool;
  urandom : Z -> list byte;
  sendp : Z -> bool -> option string -> bool
}.

Variable net : network.

(** [struct.pack("!HHI", ethertype, stream_id, seq_num)]; [None] stands
    for the [struct.error] of a field out of its range. *)
Definition struct_pack_HHI (ethertype stream_id seq_num : Z) : option (list byte) :=
  if (0 <=? ethertype) && (ethertype <? 2 ^ 16)
     && (0 <=? stream_id) && (stream_id <? 2 ^ 16)
     && (0 <=? seq_num) && (seq_num <? 2 ^ 32)
  then Some (pack_HHI ethertype stream_id seq_num)
  else None.

(** [b"FRER_TEST_" + str(seq_num).encode() + b"_" + os.urandom(1000)]. *)
Definition test_payload (seq_num : Z) : list byte :=
  list_byte_of_string "FRER_TEST_" ++ list_byte_of_string (pretty seq_num)
  ++ list_byte_of_string "_" ++ urandom net seq_num.

(** [FRERTest.create_frer_packet] with its default stream id 1, as a
    capture shows the frame: the tag followed by the payload. *)
Definition FRERTest_create_frer_packet (self : frer_test) (seq_num : Z) : option packet :=
  if get_if_hwaddr net (primary_iface self) then
    match struct_pack_HHI 0xF1C1 1 seq_num with
    | Some tag => Some (Some (tag ++ test_payload seq_num))
    | None => None
    end
  else None.

(** The variables of the loop of [send_replicated_frames], and the frames
    sent so far, each with the interface it left on ([wire]). *)
Record send_vars : Type := {
  sent_primary : Z;
  sent_secondary : Z;
  errors : Z;
  wire : list (option string * packet)
}.

(** The body of [for i in range(count)].  [create_frer_packet] is called
    outside the [try]; an exception of the second [sendp] is swallowed by
    the inner handler, one of the first counts as an error. *)
Definition send_frame (self : frer_test) (v : send_vars) : option (frer_test * send_vars) :=
  let seq_num := sequence_number self in
  let self' := {| primary_iface := primary_iface self;
                  secondary_iface := secondary_iface self;
                  sequence_number := seq_num + 1 |} in
  match FRERTest_create_frer_packet self' seq_num with
  | None => None
  | Some pkt =>
      if sendp net seq_num false (primary_iface self') then
        let v1 := {| sent_primary := sent_primary v + 1;
                     sent_secondary := sent_secondary v;
                     errors := errors v;
                     wire := wire v ++ [(primary_iface self', pkt)] |} in
        if truthy (secondary_iface self') then
          if sendp net seq_num true (secondary_iface self') then
            Some (self', {| sent_primary := sent_primary v1;
                            sent_secondary := sent_secondary v1 + 1;
                            errors := errors v1;
                            wire := wire v1 ++ [(secondary_iface self', pkt)] |})
          else Some (self', v1)
        else Some (self', v1)
      else
        Some (self', {| sent_primary := sent_primary v;
                        sent_secondary := sent_secondary v;
                        errors := errors v + 1;
                        wire := wire v |})
  end.

Fixpoint send_frames (n : nat) (self : frer_test) (v : send_vars)
  : option (frer_test * send_vars) :=
  match n with
  | O => Some (self, v)
  | S n' =>
      match send_frame self v with
      | Some (self', v') => send_frames n' self' v'
      | None => None
      end
  end.

(** The dictionary [stats] that [send_replicated_frames] returns. *)
Record send_stats : Type := {
  stat_count : Z;
  stat_sent_primary : Z;
  stat_sent_secondary : Z;
  stat_errors : Z;
  stat_duration : A;
  stat_rate_pps : A
}.

(** [FRERTest.send_replicated_frames]; [duration] is what the clock gives
    for [end_time - start_time].  The result is the object after the call,
    the statistics, and the frames sent. *)
Definition send_replicated_frames (self : frer_test) (count : Z) (duration : A)
  : option (frer_test * send_stats * list (option string * packet)) :=
  match send_frames (Z.to_nat count) self
          {| sent_primary := 0; sent_secondary := 0; errors := 0; wire := [] |} with
  | None => None
  | Some (self', v) =>
      Some (self',
            {| stat_count := count;
               stat_sent_primary := sent_primary v;
               stat_sent_secondary := sent_secondary v;
               stat_errors := errors v;
               stat_duration := duration;
               stat_rate_pps := if (nofZ 0 <? duration)%num
                                then (nofZ count / duration)%num else nofZ 0 |},
            wire v)
  end.





End FrameSending.



(** A network for closed examples: every interface has an address, and
    the secondary path fails on the frames with an odd sequence number. *)
Definition example_network : network :=
  {| get_if_hwaddr := fun _ => true; urandom := fun _ => [];
     sendp := fun seq_num secondary _ => negb secondary || Z.even seq_num |}.

Definition example_test (start : Z) : frer_test :=
  {| primary_iface := Some "enp2s0"%string; secondary_iface := Some "enp11s0"%string;
     sequence_number := start |}.

(* ===================================================================== *)
(** ** Nearest-rank percentiles of the latency tests *)
(* ===================================================================== *)

(** [NetworkTester.test_rfc2544_latency_detailed] (quick_test.py). *)
Module QuickTest.

Section Latency.

Context {A : Type} `{Num A} `{StatisticsLib A}.

(** The dictionary stored for one frame size. *)
Record latency_stats : Type := {
  frame_size : Z;
  count : Z;
  min_ms : A;
  max_ms : A;
  avg_ms : A;
  median_ms : A;
  stdev_ms : A;
  percentile_50 : A;
  percentile_95 : A;
  percentile_99 : A;
  percentile_999 : A
}.

(** [frame_size - 8 if frame_size > 8 else 56]. *)
Definition ping_size (frame_size : Z) : Z :=
  if 8 <? frame_size then frame_size - 8 else 56.

(** The dictionary for the latencies parsed from the output of ping;
    [None] when there are none ([if latencies:]) and no entry is stored. *)
Definition latency_stats_of (frame_size : Z) (latencies : list A)
  : py (option latency_stats) :=
  if Z.of_nat (List.length latencies) =? 0 then Ret None
  else
    let sorted_lat := sorted latencies in
    let len := Z.of_nat (List.length sorted_lat) in
    v_min ← py_min latencies;
    v_max ← py_max latencies;
    v_avg ← statistics_mean latencies;
    v_median ← statistics_median latencies;
    v_stdev ← (if 1 <? Z.of_nat (List.length latencies)
               then statistics_stdev latencies else Ret (nofZ 0));
    i50 ← ntrunc (nofZ len * nlit 50 100)%num;
    v_50 ← Py.index sorted_lat i50;
    i95 ← ntrunc (nofZ len * nlit 95 100)%num;
    v_95 ← Py.index sorted_lat i95;
    i99 ← ntrunc (nofZ len * nlit 99 100)%num;
    v_99 ← Py.index sorted_lat i99;
    v_999 ← (if 1000 <=? len
             then i999 ← ntrunc (nofZ len * nlit 999 1000)%num; Py.index sorted_lat i999
             else Py.index sorted_lat (-1));
    Ret (Some {| frame_size := frame_size; count := Z.of_nat (List.length latencies);
                 min_ms := v_min; max_ms := v_max; avg_ms := v_avg;
                 median_ms := v_median; stdev_ms := v_stdev;
                 percentile_50 := v_50; percentile_95 := v_95;
                 percentile_99 := v_99; percentile_999 := v_999 |}).

Definition frame_sizes : list Z := [64; 128; 256; 512; 1024; 1280; 1518].

(** [for frame_size in frame_sizes]: [ping s] is the list of latencies
    parsed from the output of ping run with the size [s].  The keys
    [f'frame_{frame_size}'] are distinct, so the dictionary [results] is
    the list of its entries in the order they were stored. *)
Fixpoint latency_loop (ping : Z -> list A) (sizes : list Z)
         (results : list (Z * latency_stats)) : py (list (Z * latency_stats)) :=
  match sizes with
  | [] => Ret results
  | frame_size :: sizes' =>
      entry ← latency_stats_of frame_size (ping (ping_size frame_size));
      latency_loop ping sizes'
        match entry with
        | Some stats => results ++ [(frame_size, stats)]
        | None => results
        end
  end.

Definition test_rfc2544_latency_detailed (ping : Z -> list A)
  : py (list (Z * latency_stats)) :=
  latency_loop ping frame_sizes [].

End Latency.

Arguments latency_stats A : clear implicits.

End QuickTest.

(** [NetworkTester.test_rfc2544_latency] (comprehensive_network_test.py). *)
Module Comprehensive.

Section Latency.

Context {A : Type} `{Num A} `{StatisticsLib A}.

(** The dictionary stored for one frame size. *)
Record latency_stats : Type := {
  frame_size : Z;
  count : Z;
  min_ms : A;
  max_ms : A;
  avg_ms : A;
  median_ms : A;
  stdev_ms : A;
  percentile_99 : A
}.

(** The dictionary for the latencies parsed from the output of ping;
    [None] when there are none. *)
Definition latency_stats_of (frame_size : Z) (latencies : list A)
  : py (option latency_stats) :=
  if Z.of_nat (List.length latencies) =? 0 then Ret None
  else
    v_min ← py_min latencies;
    v_max ← py_max latencies;
    v_avg ← statistics_mean latencies;
    v_median ← statistics_median latencies;
    v_stdev ← (if 1 <? Z.of_nat (List.length latencies)
               then statistics_stdev latencies else Ret (nofZ 0));
    v_99 ← (if 100 <? Z.of_nat (List.length latencies)
            then i99 ← ntrunc (nofZ (Z.of_nat (List.length latencies)) * nlit 99 100)%num;
                 Py.index (sorted latencies) i99
            else py_max latencies);
    Ret (Some {| frame_size := frame_size; count := Z.of_nat (List.length latencies);
                 min_ms := v_min; max_ms := v_max; avg_ms := v_avg;
                 median_ms := v_median; stdev_ms := v_stdev;
                 percentile_99 := v_99 |}).

(** [for frame_size in frame_sizes], with the same frame sizes and the
    same size of the ping as in quick_test.py. *)
Fixpoint latency_loop (ping : Z -> list A) (sizes : list Z)
         (results : list (Z * latency_stats)) : py (list (Z * latency_stats)) :=
  match sizes with
  | [] => Ret results
  | frame_size :: sizes' =>
      entry ← latency_stats_of frame_size (ping (QuickTest.ping_size frame_size));
      latency_loop ping sizes'
        match entry with
        | Some stats => results ++ [(frame_size, stats)]
        | None => results
        end
  end.

Definition test_rfc2544_latency (ping : Z -> list A) : py (list (Z * latency_stats)) :=
  latency_loop ping QuickTest.frame_sizes [].

End Latency.

Arguments latency_stats A : clear implicits.

End Comprehensive.

(** The indices [int(n * 0.50)], [int(n * 0.95)], [int(n * 0.99)] and
    [int(n * 0.999)] in binary64: they are computed without an exception,
    ascend, and lie in [0, n). *)
Definition ranks_in_range_b (n : Z) : bool :=
  match ntrunc (A:=float) (nofZ n * nlit 50 100)%num,
        ntrunc (A:=float) (nofZ n * nlit 95 100)%num,
        ntrunc (A:=float) (nofZ n * nlit 99 100)%num,
        ntrunc (A:=float) (nofZ n * nlit 999 1000)%num with
  | Ret i50, Ret i95, Ret i99, Ret i999 =>
      (0 <=? i50) && (i50 <=? i95) && (i95 <=? i99) && (i99 <=? i999) && (i999 <? n)
  | _, _, _, _ => false
  end.

(* ===================================================================== *)
(** ** The comparison of the two paths *)
(* ===================================================================== *)

Section Comparison.

Context {A : Type} `{Num A}.




(** One row of the table of [main]: the improvement when [p1_val > 0],
    and [None] for the cell ["N/A"]. *)
Definition improvement_cell (p1_val frer_val : A) : option A :=
  if (nofZ 0 <? p1_val)%num
  then Some ((p1_val - frer_val) / p1_val * nofZ 100)%num
  else None.

End Comparison.

(** The metrics of the table of [main] that are order statistics. *)
Definition order_metrics : list (stats Q string -> Q) :=
  [min; max; p50; p90; p95; p99; p99_9].


(* ===================================================================== *)
(** ** Reports of iperf3 and the summary of the suite *)
(* ===================================================================== *)

Section Iperf3Report.

Context {A : Type} `{Num A}.

(** What [json.loads] returns, as far as the scripts look at it.  An
    object keeps the members in the order of the text; a later member
    with the same name replaces an earlier one. *)
Inductive json : Type :=
| JNull
| JBool (b : bool)
| JNum (x : A)
| JStr (s : string)
| JArr (items : list json)
| JObj (members : list (string * json)).

(** The value of the member [key] of an object, the last one under this
    name. *)
Fixpoint member (key : string) (members : list (string * json)) : option json :=
  match members with
  | [] => None
  | (name, value) :: members' =>
      match member key members' with
      | Some later => Some later
      | None => if String.eqb name key then Some value else None
      end
  end.

(** [d.get(key, default)]; [None] stands for the [AttributeError] of a
    value that is not a dict. *)
Definition dict_get (d : json) (key : string) (default : json) : option json :=
  match d with
  | JObj members =>
      Some match member key members with
           | Some value => value
           | None => default
           end
  | _ => None
  end.

(** A JSON value used as a number ([True] and [False] are the ints 1 and
    0); [None] stands for the [TypeError] of any other value. *)
Definition json_number (j : json) : option A :=
  match j with
  | JNum x => Some x
  | JBool b => Some (nofZ (if b then 1 else 0))
  | _ => None
  end.

(** The dictionary [test_throughput_iperf3] returns. *)
Record iperf3_result : Type := {
  result_frame_size : Z;
  target_bandwidth_mbps : A;
  actual_bandwidth_mbps : A;
  packets_sent : json;
  packets_lost : json;
  loss_percent : json;
  jitter_ms : json;
  result_duration : Z
}.

(** [RFC2544Test.test_throughput_iperf3] (advanced_rfc2544_test.py) from
    the point where iperf3 has run: [returncode] is its exit code and
    [stdout] what [json.loads] makes of its output, [None] when that
    raises.  Every exception inside the [try] gives [None]. *)
Definition test_throughput_iperf3 (frame_size : Z) (bandwidth_mbps : A) (duration : Z)
  (returncode : Z) (stdout : option json) : option iperf3_result :=
  if negb (returncode =? 0) then None
  else
    data ← stdout;
    end_data ← dict_get data "end" (JObj []);
    sum_data ← dict_get end_data "sum" (JObj []);
    bits_per_second ← dict_get sum_data "bits_per_second" (JNum (nofZ 0));
    bits ← json_number bits_per_second;
    packets ← dict_get sum_data "packets" (JNum (nofZ 0));
    lost_packets ← dict_get sum_data "lost_packets" (JNum (nofZ 0));
    lost_percent ← dict_get sum_data "lost_percent" (JNum (nofZ 0));
    jitter ← dict_get sum_data "jitter_ms" (JNum (nofZ 0));
    Some {| result_frame_size := frame_size;
            target_bandwidth_mbps := bandwidth_mbps;
            actual_bandwidth_mbps := (bits / nofZ 1000000)%num;
            packets_sent := packets;
            packets_lost := lost_packets;
            loss_percent := lost_percent;
            jitter_ms := jitter;
            result_duration := duration |}.

(** One run of iperf3: its exit code and its parsed output. *)
Definition iperf3_run : Type := (Z * option json)%type.

(** The probe [p] of [binary_search_throughput] is what the search sees of
    the runs [iperf3]: at iteration [i] it calls [test_throughput_iperf3]
    with the rate and a duration of 10, and reads ["loss_percent"] of the
    result as a number. *)
Definition reads_reports (p : probe) (frame_size : Z) (iperf3 : Z -> A -> iperf3_run)
  : Prop :=
  forall (i : Z) (rate : A),
    match test_throughput_iperf3 frame_size rate 10
            (fst (iperf3 i rate)) (snd (iperf3 i rate)) with
    | None => p i rate = None
    | Some result =>
        exists loss : A, json_number (loss_percent result) = Some loss /\ p i rate = Some loss
    end.

(** A report without measurement: an object with no ["end"] member, or
    whose ["end"] is an object with no ["sum"] member. *)
Definition no_measurement (data : json) : Prop :=
  exists members : list (string * json),
    data = JObj members
    /\ (member "end" members = None
        \/ exists end_members : list (string * json),
             member "end" members = Some (JObj end_members)
             /\ member "sum" end_members = None).

End Iperf3Report.

Arguments json A : clear implicits.
Arguments iperf3_result A : clear implicits.
Arguments iperf3_run A : clear implicits.

Section SuiteReport.

Context {A : Type} `{Num A} `{StatisticsLib A}.

(** A key of a Python dict of the results: an [int] or a [str].  The two
    never compare equal, and [json.dump] leaves the dict in memory as it
    is. *)
Definition key : Type := (Z + string)%type.
Definition py_str (n : Z) : string := pretty n.

(** [RFC2544Test.test_frame_loss] (advanced_rfc2544_test.py) on one run of
    iperf3; the outer [None] stands for the exception of formatting a
    loss that is not a number. *)
Definition test_frame_loss (frame_size load_percent : Z) (run : iperf3_run A)
  : option (option (iperf3_result A)) :=
  let target_mbps := (nofZ (1000 * load_percent) / nofZ 100)%num in
  match test_throughput_iperf3 frame_size target_mbps 30 (fst run) (snd run) with
  | Some result =>
      match json_number (loss_percent result) with
      | Some _ => Some (Some result)
      | None => None
      end
  | None => Some None
  end.

Record back_to_back_result : Type := {
  b2b_frame_size : Z;
  frames_sent : json A;
  frames_received : A;
  frames_lost : json A;
  b2b_loss_percent : json A;
  max_burst_size : A
}.

(** [RFC2544Test.test_back_to_back] on one run of iperf3; the outer [None]
    stands for the [TypeError] of subtracting values that are not
    numbers. *)
Definition test_back_to_back (frame_size : Z) (run : iperf3_run A)
  : option (option back_to_back_result) :=
  match test_throughput_iperf3 frame_size (nofZ 1000) 2 (fst run) (snd run) with
  | Some result =>
      sent ← json_number (packets_sent result);
      lost ← json_number (packets_lost result);
      let frames_received := (sent - lost)%num in
      Some (Some {| b2b_frame_size := frame_size;
                    frames_sent := packets_sent result;
                    frames_received := frames_received;
                    frames_lost := packets_lost result;
                    b2b_loss_percent := loss_percent result;
                    max_burst_size := frames_received |})
  | None => Some None
  end.

(** What the tests of one run of the suite meet outside the program. *)
Record environment : Type := {
  check_connectivity : bool;
  throughput_probe : Z -> probe (A:=A);
  ping_output : Z -> option (list A);
  frame_loss_run : Z -> Z -> iperf3_run A;
  back_to_back_run : Z -> iperf3_run A
}.

(** The dictionary [results] of [run_all_tests]. *)
Record suite_results : Type := {
  info_frame_sizes : list Z;
  info_load_percentages : list Z;
  reachable : bool;
  throughput : gmap key A;
  latency : gmap key (stats A Z);
  frame_loss : gmap key (gmap key (iperf3_result A));
  back_to_back : gmap key back_to_back_result
}.

Fixpoint latency_tests (env : environment) (sizes : list Z) (d : gmap key (stats A Z))
  : option (gmap key (stats A Z)) :=
  match sizes with
  | [] => Some d
  | frame_size :: sizes' =>
      match test_latency_icmp (ping_output env frame_size) frame_size with
      | Ret (Some latency_stats) =>
          latency_tests env sizes' (<[inl frame_size := latency_stats]> d)
      | Ret None => latency_tests env sizes' d
      | Raise _ => None
      end
  end.

Fixpoint frame_loss_loads (env : environment) (frame_size : Z) (loads : list Z)
         (d : gmap key (iperf3_result A)) : option (gmap key (iperf3_result A)) :=
  match loads with
  | [] => Some d
  | load_percent :: loads' =>
      loss_result ← test_frame_loss frame_size load_percent
                      (frame_loss_run env frame_size load_percent);
      frame_loss_loads env frame_size loads'
        match loss_result with
        | Some result => <[inl load_percent := result]> d
        | None => d
        end
  end.

Fixpoint frame_loss_tests (env : environment) (sizes loads : list Z)
         (d : gmap key (gmap key (iperf3_result A)))
  : option (gmap key (gmap key (iperf3_result A))) :=
  match sizes with
  | [] => Some d
  | frame_size :: sizes' =>
      per_load ← frame_loss_loads env frame_size loads ∅;
      frame_loss_tests env sizes' loads (<[inl frame_size := per_load]> d)
  end.

Fixpoint back_to_back_tests (env : environment) (sizes : list Z)
         (d : gmap key back_to_back_result) : option (gmap key back_to_back_result) :=
  match sizes with
  | [] => Some d
  | frame_size :: sizes' =>
      b2b_result ← test_back_to_back frame_size (back_to_back_run env frame_size);
      back_to_back_tests env sizes'
        match b2b_result with
        | Some result => <[inl frame_size := result]> d
        | None => d
        end
  end.

(** [RFC2544Test.run_all_tests]; [frame_sizes] and [load_percentages] are
    the fields of [self].  [None] stands for an exception that leaves
    the function. *)
Definition run_all_tests (env : environment) (frame_sizes load_percentages : list Z)
  : option suite_results :=
  if negb (check_connectivity env) then
    Some {| info_frame_sizes := frame_sizes; info_load_percentages := load_percentages;
            reachable := false; throughput := ∅; latency := ∅; frame_loss := ∅;
            back_to_back := ∅ |}
  else
    let throughput :=
      fold_left (fun d frame_size =>
                   <[inl frame_size := binary_search_throughput (throughput_probe env frame_size)]> d)
                frame_sizes ∅ in
    latency ← latency_tests env frame_sizes ∅;
    frame_loss ← frame_loss_tests env frame_sizes load_percentages ∅;
    back_to_back ← back_to_back_tests env frame_sizes ∅;
    Some {| info_frame_sizes := frame_sizes; info_load_percentages := load_percentages;
            reachable := true; throughput := throughput; latency := latency;
            frame_loss := frame_loss; back_to_back := back_to_back |}.

(** The tables of SUMMARY.md as [generate_summary_report] fills them, before
    the values are formatted: a row per frame size that the loop writes. *)
Record summary_report : Type := {
  throughput_rows : list (Z * A);
  latency_rows : list (Z * stats A Z);
  frame_loss_rows : option (list (Z * list (json A)));
  back_to_back_rows : list (Z * back_to_back_result)
}.

(** [RFC2544Test.generate_summary_report]; [None] when the target was not
    reachable and the function returns after the warning. *)
Definition generate_summary_report (results : suite_results) : option summary_report :=
  if negb (reachable results) then None
  else
    Some {|
      throughput_rows :=
        List.map (fun frame_size =>
                    (frame_size, default (nofZ 0) (throughput results !! inl frame_size)))
                 (info_frame_sizes results);
      latency_rows :=
        omap (fun frame_size =>
                match latency results !! inr (py_str frame_size) with
                | Some lat => Some (frame_size, lat)
                | None => None
                end) (info_frame_sizes results);
      frame_loss_rows :=
        if decide (frame_loss results = ∅) then None
        else
          Some (List.map
                  (fun frame_size =>
                     let size_data :=
                       default ∅ (frame_loss results !! inr (py_str frame_size)) in
                     (frame_size,
                      List.map (fun load =>
                                  match size_data !! inr (py_str load) with
                                  | Some load_data => loss_percent load_data
                                  | None => JNum (nofZ 0)
                                  end) (info_load_percentages results)))
                  (info_frame_sizes results));
      back_to_back_rows :=
        omap (fun frame_size =>
                match back_to_back results !! inr (py_str frame_size) with
                | Some b2b => Some (frame_size, b2b)
                | None => None
                end) (info_frame_sizes results)
    |}.

End SuiteReport.

(** A dict all of whose keys are ints. *)
Definition int_keys {V : Type} (d : gmap key V) : Prop :=
  forall name : string, d !! (inr name : key) = None.

(** A run of iperf3 that exits with 0 and prints an object without the
    ["end"] member. *)
Definition example_empty_run : iperf3_run Q :=
  (0, Some (JObj [("start"%string, JObj []); ("intervals"%string, JArr [])])).

(** A run with one measurement: 1000 packets, none lost. *)
Definition example_run : iperf3_run Q :=
  (0, Some (JObj [("end"%string,
                   JObj [("sum"%string,
                          JObj [("bits_per_second"%string, JNum 500000000%Q);
                                ("packets"%string, JNum 1000%Q);
                                ("lost_packets"%string, JNum 0%Q);
                                ("lost_percent"%string, JNum 0%Q);
                                ("jitter_ms"%string, JNum (1 # 100)%Q)])])])).

Definition example_environment : environment (A:=Q) :=
  {| check_connectivity := true;
     throughput_probe := fun _ _ _ => Some 0%Q;
     ping_output := fun _ => Some [2 # 5; 1 # 2]%Q;
     frame_loss_run := fun _ _ => example_run;
     back_to_back_run := fun _ => example_run |}.

(* ===================================================================== *)
(** ** The frame loss rate test *)
(* ===================================================================== *)

(** [RFC2544ExtendedTest.frame_loss_rate_test] (rfc2544_extended_test.py)
    and the rows of its table in the summary. *)
Module Extended.

Section FrameLossRate.

Context {A : Type} `{Num A} `{StatisticsLib A}.

(** [d[key]]; [None] stands for the [KeyError] of a missing key and the
    [TypeError] of a value that is not a dict. *)
Definition subscript (d : json A) (key : string) : option (json A) :=
  match d with
  | JObj members => member key members
  | _ => None
  end.

(** [data["end"]["sum"][field]]. *)
Definition end_sum (data : json A) (field : string) : option (json A) :=
  end_data ← subscript data "end";
  sum_data ← subscript end_data "sum";
  subscript sum_data field.

(** An entry of ["trials"]. *)
Record trial_result : Type := {
  trial : Z;
  sent_mbps : A;
  sent_packets : json A;
  lost_packets : json A;
  loss_percent : json A;
  jitter_ms : json A
}.

(** The body of the [try] for trial number [trial] (counted from 0) up to
    the [append]: [None] when iperf3 exits with another code than 0 or an
    exception is raised, and no entry is appended then. *)
Definition trial_of (trial : Z) (run : iperf3_run A) : option trial_result :=
  if fst run =? 0 then
    data ← snd run;
    bits_per_second ← end_sum data "bits_per_second";
    bits ← json_number bits_per_second;
    packets ← end_sum data "packets";
    lost ← end_sum data "lost_packets";
    lost_percent ← end_sum data "lost_percent";
    jitter ← end_sum data "jitter_ms";
    Some {| trial := trial + 1; sent_mbps := (bits / nofZ 1000000)%num;
            sent_packets := packets; lost_packets := lost;
            loss_percent := lost_percent; jitter_ms := jitter |}
  else None.

(** [for trial in range(self.num_trials)]. *)
Fixpoint run_load_trials (iperf3 : Z -> iperf3_run A) (range : list Z)
         (trials : list trial_result) : list trial_result :=
  match range with
  | [] => trials
  | trial :: range' =>
      run_load_trials iperf3 range'
        match trial_of trial (iperf3 trial) with
        | Some trial_result => trials ++ [trial_result]
        | None => trials
        end
  end.

(** The numbers of a list of JSON values; [None] stands for the
    [TypeError] of [statistics.mean] on a value that is not a number. *)
Fixpoint numbers_of (values : list (json A)) : option (list A) :=
  match values with
  | [] => Some []
  | value :: values' =>
      x ← json_number value;
      xs ← numbers_of values';
      Some (x :: xs)
  end.

(** An entry of ["load_tests"]; the three statistics are there when at
    least one trial gave a result. *)
Record load_result : Type := {
  offered_load_pct : Z;
  target_mbps : A;
  trials : list trial_result;
  avg_loss_percent : option A;
  max_loss_percent : option A;
  min_loss_percent : option A
}.

Definition load_test (num_trials : nat) (iperf3 : Z -> Z -> iperf3_run A) (load_pct : Z)
  : option load_result :=
  let target_mbps := (nofZ (1000 * load_pct) / nofZ 100)%num in
  let trials :=
    run_load_trials (iperf3 load_pct) (List.map Z.of_nat (List.seq 0 num_trials)) [] in
  match trials with
  | [] =>
      Some {| offered_load_pct := load_pct; target_mbps := target_mbps; trials := trials;
              avg_loss_percent := None; max_loss_percent := None;
              min_loss_percent := None |}
  | _ :: _ =>
      loss_percentages ← numbers_of (List.map loss_percent trials);
      match statistics_mean loss_percentages, py_max loss_percentages,
            py_min loss_percentages with
      | Ret v_avg, Ret v_max, Ret v_min =>
          Some {| offered_load_pct := load_pct; target_mbps := target_mbps;
                  trials := trials;
                  avg_loss_percent := Some v_avg; max_loss_percent := Some v_max;
                  min_loss_percent := Some v_min |}
      | _, _, _ => None
      end
  end.

Fixpoint load_tests_of (num_trials : nat) (iperf3 : Z -> Z -> iperf3_run A)
         (offered_loads : list Z) (load_tests : list load_result)
  : option (list load_result) :=
  match offered_loads with
  | [] => Some load_tests
  | load_pct :: offered_loads' =>
      load_result ← load_test num_trials iperf3 load_pct;
      load_tests_of num_trials iperf3 offered_loads' (load_tests ++ [load_result])
  end.

(** [RFC2544ExtendedTest.frame_loss_rate_test] (rfc2544_extended_test.py):
    the pair of ["frame_size"] and ["load_tests"]; [None] stands for an
    exception that leaves the function. *)
Definition frame_loss_rate_test (num_trials : nat) (iperf3 : Z -> Z -> iperf3_run A)
  (frame_size : Z) (offered_loads : list Z) : option (Z * list load_result) :=
  load_tests ← load_tests_of num_trials iperf3 offered_loads [];
  Some (frame_size, load_tests).

(** The rows [generate_summary_report] writes for one frame size: a load
    level without trials is left out. *)
Definition frame_loss_rows (load_tests : list load_result) : list (Z * A * A * A * A) :=
  omap (fun load_test =>
          match trials load_test with
          | [] => None
          | _ :: _ =>
              Some (offered_load_pct load_test, target_mbps load_test,
                    default (nofZ 0) (avg_loss_percent load_test),
                    default (nofZ 0) (min_loss_percent load_test),
                    default (nofZ 0) (max_loss_percent load_test))
          end) load_tests.

End FrameLossRate.

End Extended.

(** What one entry of ["load_tests"] holds, in exact arithmetic: the
    target rate is ten times the load; there are at most [num_trials]
    trials; without a trial there is no statistic, and otherwise the
    minimum and the maximum bracket the loss of every trial. *)
Definition load_result_ok (num_trials : nat) (r : Extended.load_result) : Prop :=
  (Extended.target_mbps r == inject_Z (10 * Extended.offered_load_pct r))%Q
  /\ (List.length (Extended.trials r) <= num_trials)%nat
  /\ match Extended.trials r with
     | [] => Extended.avg_loss_percent r = None
             /\ Extended.max_loss_percent r = None
             /\ Extended.min_loss_percent r = None
     | _ :: _ =>
         exists lo hi : Q,
           Extended.min_loss_percent r = Some lo /\ Extended.max_loss_percent r = Some hi
           /\ Extended.avg_loss_percent r <> None
           /\ List.Forall (fun t => exists x : Q,
                               json_number (Extended.loss_percent t) = Some x
                               /\ (lo <= x)%Q /\ (x <= hi)%Q)
                (Extended.trials r)
     end.

(** Runs of iperf3 for closed examples: at a load of 100% every run fails;
    below, trial [t] loses [t/10] percent. *)
Definition example_loss_run (load_pct trial : Z) : iperf3_run Q :=
  if load_pct =? 100 then (1, None)
  else
    (0, Some (JObj [("end"%string,
                     JObj [("sum"%string,
                            JObj [("bits_per_second"%string, JNum (inject_Z (10000000 * load_pct)));
                                  ("packets"%string, JNum 1000%Q);
                                  ("lost_packets"%string, JNum (inject_Z trial));
                                  ("lost_percent"%string, JNum (inject_Z trial / 10)%Q);
                                  ("jitter_ms"%string, JNum (1 # 100)%Q)])])])).

(* ===================================================================== *)
(** ** Notions used by the further properties *)
(* ===================================================================== *)



(** What a run of [binary_search_throughput] has reached when its loop has
    ended: the window is below the tolerance (the cap on the iterations was
    not needed), after 7 to 17 probes, and a rate above 0, if one is
    reported, is within the tolerance of the upper bound. *)
Definition search_result_b {A : Type} `{Num A} (st : search_state) : bool :=
  (iterations st <=? 17)
  && (search_continues st
      || ((7 <=? iterations st)
          && ((max_mbps st - min_mbps st) / max_mbps st <? tolerance)%num
          && (negb (nofZ 0 <? best_throughput st)%num
              || ((max_mbps st - best_throughput st) / max_mbps st <? tolerance)%num))).

(** The rate the log of [test_rfc2544_throughput] shows as the last one
    that passed: the target rate of the last entry with a loss below
    0.001, and 0 when there is none. *)
Definition last_passing_rate {A : Type} `{Num A} (log : list (iteration_record (A:=A))) : A :=
  fold_left (fun best entry =>
               match entry with
               | Measured target_rate loss_percent =>
                   if (loss_percent <? nlit 1 1000)%num then target_rate else best
               | Errored _ => best
               end) log (nofZ 0).

(** An entry of the log records what the probe answered at its rate. *)
Definition logged {A : Type} `{Num A} (iperf3 : probe (A:=A))
  (entry : iteration_record (A:=A)) : Prop :=
  exists iteration : Z,
    0 <= iteration < 10
    /\ match entry with
       | Measured target_rate loss_percent => iperf3 iteration target_rate = Some loss_percent
       | Errored target_rate => iperf3 iteration target_rate = None
       end.

(** A burst size recorded for trial [trial] (counted from 1) has been
    measured: it is 0, or a candidate at which the probe of that or an
    earlier trial reported a loss below 1%. *)
Definition measured_burst {A : Type} `{Num A} (send_burst : burst_probe (A:=A))
  (trial max_burst : Z) : Prop :=
  max_burst = 0
  \/ (In max_burst test_bursts
      /\ exists (earlier : Z) (loss_rate : A),
           0 <= earlier < trial
           /\ send_burst earlier max_burst = Some loss_rate
           /\ (loss_rate <? nofZ 1)%num = true).


(* ===================================================================== *)
(** * Properties *)
(* ===================================================================== *)

(** ** Exact arithmetic *)

Lemma Qltb_lt (x y : Q) : Qltb x y = true <-> (x < y)%Q.
Proof. unfold Qltb, Qlt. apply Z.ltb_lt. Qed.

Lemma Qltb_ge (x y : Q) : Qltb x y = false <-> (y <= x)%Q.
Proof. unfold Qltb, Qle. apply Z.ltb_ge. Qed.

(** On a non-negative rational, [int(x)] is the floor of [x]. *)
Lemma Qtrunc_floor (x : Q) : (0 <= x)%Q -> Qtrunc x = Qfloor x.
Proof.
  destruct x as [n d]. unfold Qle, Qtrunc, Qfloor. simpl. intros Hn.
  apply Z.quot_div_nonneg; lia.
Qed.

(** ** Sorting *)

Section SortedGeneric.

Context {A : Type} `{Num A}.

Lemma insert_sorted_length (x : A) (l : list A) :
  List.length (insert_sorted x l) = S (List.length l).
Proof.
  induction l as [|y l IH]; simpl; [reflexivity|].
  destruct (nltb y x); simpl; [now rewrite IH | reflexivity].
Qed.

Lemma sorted_length (data : list A) : List.length (sorted data) = List.length data.
Proof.
  induction data as [|x data IH]; simpl; [reflexivity|].
  now rewrite insert_sorted_length, IH.
Qed.

Lemma insert_sorted_perm (x : A) (l : list A) : Permutation (insert_sorted x l) (x :: l).
Proof.
  induction l as [|y l IH]; simpl; [reflexivity|].
  destruct (nltb y x); [|reflexivity].
  rewrite IH. apply perm_swap.
Qed.

Lemma sorted_perm (data : list A) : Permutation (sorted data) data.
Proof.
  induction data as [|x data IH]; simpl; [reflexivity|].
  rewrite insert_sorted_perm. now constructor.
Qed.

Lemma sorted_In (data : list A) (x : A) : In x (sorted data) <-> In x data.
Proof.
  split; apply Permutation_in; [apply sorted_perm | symmetry; apply sorted_perm].
Qed.

End SortedGeneric.

(** In exact arithmetic [<] is a total order and [sorted] puts the list in
    ascending order. *)

Lemma insert_sorted_Q (x : Q) (l : list Q) :
  StronglySorted Qle l -> StronglySorted Qle (insert_sorted x l).
Proof.
  induction 1 as [|y l Hl IH Hy]; simpl.
  - repeat constructor.
  - change (nltb y x) with (Qltb y x).
    destruct (Qltb y x) eqn:E.
    + constructor; [exact IH|].
      apply Qltb_lt in E.
      rewrite List.Forall_forall in Hy |- *. intros z Hz.
      apply (Permutation_in _ (insert_sorted_perm x l)) in Hz.
      destruct Hz as [<-|Hz]; [now apply Qlt_le_weak | now apply Hy].
    + apply Qltb_ge in E. constructor; [now constructor|].
      constructor; [exact E|].
      rewrite List.Forall_forall in Hy |- *. intros z Hz.
      apply Qle_trans with y; [exact E | now apply Hy].
Qed.

Lemma sorted_Q (data : list Q) : StronglySorted Qle (sorted data).
Proof.
  induction data as [|x data IH]; simpl; [constructor | now apply insert_sorted_Q].
Qed.

Lemma StronglySorted_ascending (l : list Q) : StronglySorted Qle l -> ascending l.
Proof.
  induction 1 as [|y l Hl IH Hy]; intros i j a b Hij Hi Hj.
  - now destruct i.
  - destruct i as [|i], j as [|j]; simpl in *; try lia.
    + injection Hi as <-. injection Hj as <-. apply Qle_refl.
    + injection Hi as <-. rewrite List.Forall_forall in Hy.
      apply Hy. eapply nth_error_In; eassumption.
    + eapply IH; [|eassumption..]. lia.
Qed.

Lemma sorted_ascending (data : list Q) : ascending (sorted data).
Proof. apply StronglySorted_ascending, sorted_Q. Qed.

(** ** Percentile *)

Lemma index_nth {A : Type} (l : list A) (i : Z) (d : A) :
  (0 <= i < Z.of_nat (List.length l))%Z ->
  Py.index l i = Ret (List.nth (Z.to_nat i) l d).
Proof.
  intros Hi. unfold Py.index.
  destruct (Z.ltb_spec i 0); [lia|].
  destruct (Z.ltb_spec i 0); [lia|].
  destruct (Z.leb_spec (Z.of_nat (List.length l)) i); [lia|]. simpl.
  destruct (nth_error l (Z.to_nat i)) eqn:E.
  - now rewrite (nth_error_nth _ _ d E).
  - apply nth_error_None in E. lia.
Qed.

(** The position [index = (n-1) * p / 100] lies in [0, n-1] for a
    percentile in [0, 100]. *)
Lemma percentile_index_bounds (n : Z) (p : Q) :
  (1 <= n)%Z -> (0 <= p)%Q -> (p <= 100)%Q ->
  (0 <= inject_Z (n - 1) * p / 100)%Q /\ (inject_Z (n - 1) * p / 100 <= inject_Z (n - 1))%Q.
Proof.
  intros Hn Hp0 Hp1.
  assert (Hn' : (0 <= inject_Z (n - 1))%Q) by (change 0%Q with (inject_Z 0); rewrite <- Zle_Qle; lia).
  split.
  - apply Qle_shift_div_l; [reflexivity|]. rewrite Qmult_0_l.
    now apply Qmult_le_0_compat.
  - apply Qle_shift_div_r; [reflexivity|].
    rewrite (Qmult_comm _ p), (Qmult_comm _ 100).
    now apply Qmult_le_compat_r.
Qed.

Lemma Qfloor_index_bounds (n : Z) (p : Q) :
  (1 <= n)%Z -> (0 <= p)%Q -> (p <= 100)%Q ->
  (0 <= Qfloor (inject_Z (n - 1) * p / 100) <= n - 1)%Z.
Proof.
  intros Hn Hp0 Hp1.
  destruct (percentile_index_bounds n p Hn Hp0 Hp1) as [H0 H1].
  split.
  - apply Qfloor_resp_le in H0. exact H0.
  - apply Qfloor_resp_le in H1. now rewrite Qfloor_Z in H1.
Qed.

(** On a non-empty list and a percentile in [0, 100] the code computes the
    percentile of the specification: [int()] is the floor there and no list
    access is out of range. *)
Lemma percentile_is_spec (data : list Q) (p : Q) :
  data <> [] -> (0 <= p)%Q -> (p <= 100)%Q ->
  percentile data p = Ret (percentile_spec data p).
Proof.
  intros Hne Hp0 Hp1.
  assert (Hn : (1 <= Z.of_nat (List.length (sorted data)))%Z).
  { rewrite sorted_length. destruct data; [congruence | simpl; lia]. }
  unfold percentile, percentile_spec.
  set (s := sorted data) in *. set (n := Z.of_nat (List.length s)) in *.
  change (nofZ (n - 1) * p / nofZ 100)%num with (inject_Z (n - 1) * p / 100)%Q.
  set (index := (inject_Z (n - 1) * p / 100)%Q).
  pose proof (Qfloor_index_bounds n p Hn Hp0 Hp1) as Hfl. fold index in Hfl.
  pose proof (percentile_index_bounds n p Hn Hp0 Hp1) as [Hi0 _]. fold index in Hi0.
  change (ntrunc index) with (Ret (Qtrunc index)).
  rewrite (Qtrunc_floor index Hi0).
  change (Ret (Qfloor index) ≫= ?k) with (k (Qfloor index)). cbv beta.
  rewrite Z.geb_leb.
  destruct (Z.leb_spec n (Qfloor index + 1)) as [Hc|Hc].
  - apply index_nth. lia.
  - rewrite (index_nth s (Qfloor index) 0%Q) by lia.
    rewrite (index_nth s (Qfloor index + 1) 0%Q) by lia.
    reflexivity.
Qed.

Lemma percentile_spec_interpolate (data : list Q) (p : Q) :
  percentile_spec data p
  = interpolate (sorted data) (inject_Z (Z.of_nat (List.length (sorted data)) - 1) * p / 100)%Q.
Proof. reflexivity. Qed.

(** ** Interpolation on an ascending list *)

(** [a*(1-f) + b*f] lies between [a] and [b], and grows with [f]. *)
Lemma lerp_between (a b f : Q) :
  (a <= b)%Q -> (0 <= f)%Q -> (f < 1)%Q ->
  (a <= a * (1 - f) + b * f)%Q /\ (a * (1 - f) + b * f <= b)%Q.
Proof. intros. split; nra. Qed.

Lemma lerp_mono (a b f g : Q) :
  (a <= b)%Q -> (f <= g)%Q ->
  (a * (1 - f) + b * f <= a * (1 - g) + b * g)%Q.
Proof. intros. nra. Qed.

Section Interpolation.

Variable s : list Q.
Hypothesis s_ascending : ascending s.

Let n : Z := Z.of_nat (List.length s).
Let at_ (i : Z) : Q := List.nth (Z.to_nat i) s 0%Q.

Lemma at_le (i j : Z) : (0 <= i <= j)%Z -> (j < n)%Z -> (at_ i <= at_ j)%Q.
Proof.
  intros Hij Hj. unfold at_, n in *.
  apply (s_ascending (Z.to_nat i) (Z.to_nat j)); [lia|..];
    apply nth_error_nth'; lia.
Qed.

Lemma at_In (i : Z) : (0 <= i < n)%Z -> In (at_ i) s.
Proof. intros Hi. unfold at_, n in *. apply nth_In. lia. Qed.

Lemma frac_bounds (x : Q) : (0 <= x - inject_Z (Qfloor x))%Q /\ (x - inject_Z (Qfloor x) < 1)%Q.
Proof.
  pose proof (Qfloor_le x). pose proof (Qlt_floor x) as Hlt.
  rewrite inject_Z_plus in Hlt. change (inject_Z 1) with 1%Q in Hlt.
  split; lra.
Qed.

(** The interpolated value lies between the two samples around it. *)
Lemma interpolate_between (x : Q) :
  (0 <= x)%Q -> (x <= inject_Z (n - 1))%Q ->
  (at_ (Qfloor x) <= interpolate s x)%Q
  /\ (interpolate s x <= at_ (Z.min (Qfloor x + 1) (n - 1)))%Q.
Proof.
  intros H0 H1.
  assert (Hf : (0 <= Qfloor x <= n - 1)%Z).
  { split; [apply (Qfloor_resp_le 0 x H0)|].
    apply Qfloor_resp_le in H1. now rewrite Qfloor_Z in H1. }
  unfold interpolate. fold n. fold at_. rewrite Z.geb_leb.
  destruct (frac_bounds x) as [Hfr0 Hfr1].
  destruct (Z.leb_spec n (Qfloor x + 1)) as [Hc|Hc].
  - split; [apply Qle_refl|]. apply at_le; lia.
  - rewrite Z.min_l by lia.
    assert (Hle : (at_ (Qfloor x) <= at_ (Qfloor x + 1))%Q) by (apply at_le; lia).
    now apply lerp_between.
Qed.

(** The interpolation does not decrease with the position. *)
Lemma interpolate_mono (x y : Q) :
  (0 <= x)%Q -> (x <= y)%Q -> (y <= inject_Z (n - 1))%Q ->
  (interpolate s x <= interpolate s y)%Q.
Proof.
  intros H0 Hxy H1.
  assert (Hfx : (0 <= Qfloor x)%Z) by apply (Qfloor_resp_le 0 x H0).
  assert (Hfxy : (Qfloor x <= Qfloor y)%Z) by now apply Qfloor_resp_le.
  assert (Hfy : (Qfloor y <= n - 1)%Z).
  { apply Qfloor_resp_le in H1. now rewrite Qfloor_Z in H1. }
  destruct (Z.eq_dec (Qfloor x) (Qfloor y)) as [E|NE].
  - unfold interpolate. fold n. fold at_. rewrite <- E, Z.geb_leb.
    destruct (Z.leb_spec n (Qfloor x + 1)) as [Hc|Hc]; [apply Qle_refl|].
    assert (Hle : (at_ (Qfloor x) <= at_ (Qfloor x + 1))%Q) by (apply at_le; lia).
    apply lerp_mono; [exact Hle|]. unfold Qminus. now apply Qplus_le_l.
  - destruct (interpolate_between x) as [_ Hx];
      [exact H0 | now apply Qle_trans with y |].
    destruct (interpolate_between y) as [Hy _];
      [now apply Qle_trans with x | exact H1 |].
    rewrite Z.min_l in Hx by lia.
    apply Qle_trans with (at_ (Qfloor x + 1)); [exact Hx|].
    apply Qle_trans with (at_ (Qfloor y)); [|exact Hy].
    apply at_le; lia.
Qed.

End Interpolation.

(** ** Minimum, maximum, percentiles and median in exact arithmetic *)

Lemma py_min_spec (data : list Q) :
  data <> [] ->
  exists m, py_min data = Ret m /\ In m data /\ forall x, In x data -> (m <= x)%Q.
Proof.
  destruct data as [|x0 rest]; [congruence|]. intros _. simpl.
  eexists. split; [reflexivity|].
  revert x0. induction rest as [|y rest IH]; intros x0; simpl.
  - split; [now left|]. intros x [<-|[]]. apply Qle_refl.
  - change (nltb y x0) with (Qltb y x0).
    destruct (Qltb y x0) eqn:E; destruct (IH (if Qltb y x0 then y else x0)) as [Hin Hle];
      rewrite E in Hin, Hle.
    + apply Qltb_lt in E. split.
      * destruct Hin as [<-|Hin]; [right; now left | now right; right].
      * intros x [<-|[<-|Hx]].
        -- apply Qle_trans with y; [apply Hle; now left | now apply Qlt_le_weak].
        -- apply Hle. now left.
        -- apply Hle. now right.
    + apply Qltb_ge in E. split.
      * destruct Hin as [<-|Hin]; [now left | now right; right].
      * intros x [<-|[<-|Hx]].
        -- apply Hle. now left.
        -- apply Qle_trans with x0; [apply Hle; now left | exact E].
        -- apply Hle. now right.
Qed.

Lemma py_max_spec (data : list Q) :
  data <> [] ->
  exists m, py_max data = Ret m /\ In m data /\ forall x, In x data -> (x <= m)%Q.
Proof.
  destruct data as [|x0 rest]; [congruence|]. intros _. simpl.
  eexists. split; [reflexivity|].
  revert x0. induction rest as [|y rest IH]; intros x0; simpl.
  - split; [now left|]. intros x [<-|[]]. apply Qle_refl.
  - change (nltb x0 y) with (Qltb x0 y).
    destruct (Qltb x0 y) eqn:E; destruct (IH (if Qltb x0 y then y else x0)) as [Hin Hle];
      rewrite E in Hin, Hle.
    + apply Qltb_lt in E. split.
      * destruct Hin as [<-|Hin]; [right; now left | now right; right].
      * intros x [<-|[<-|Hx]].
        -- apply Qle_trans with y; [now apply Qlt_le_weak | apply Hle; now left].
        -- apply Hle. now left.
        -- apply Hle. now right.
    + apply Qltb_ge in E. split.
      * destruct Hin as [<-|Hin]; [now left | now right; right].
      * intros x [<-|[<-|Hx]].
        -- apply Hle. now left.
        -- apply Qle_trans with x0; [exact E | apply Hle; now left].
        -- apply Hle. now right.
Qed.

Lemma sorted_nonempty_length (data : list Q) :
  data <> [] -> (1 <= Z.of_nat (List.length (sorted data)))%Z.
Proof. intros Hne. rewrite sorted_length. destruct data; [congruence | simpl; lia]. Qed.

(** A percentile does not decrease with [p]. *)
Lemma percentile_spec_mono (data : list Q) (p q : Q) :
  data <> [] -> (0 <= p)%Q -> (p <= q)%Q -> (q <= 100)%Q ->
  (percentile_spec data p <= percentile_spec data q)%Q.
Proof.
  intros Hne Hp Hpq Hq. rewrite !percentile_spec_interpolate.
  pose proof (sorted_nonempty_length data Hne) as Hn.
  set (n := Z.of_nat (List.length (sorted data))) in *.
  apply interpolate_mono.
  - apply sorted_ascending.
  - apply percentile_index_bounds; [exact Hn | exact Hp | now apply Qle_trans with q].
  - apply Qmult_le_compat_r; [|discriminate].
    rewrite (Qmult_comm _ p), (Qmult_comm _ q).
    apply Qmult_le_compat_r; [exact Hpq|].
    change 0%Q with (inject_Z 0). rewrite <- Zle_Qle. lia.
  - apply percentile_index_bounds; [exact Hn | now apply Qle_trans with p | exact Hq].
Qed.

(** A percentile lies between any bounds of the samples. *)
Lemma percentile_spec_bounds (data : list Q) (p lo hi : Q) :
  data <> [] -> (0 <= p)%Q -> (p <= 100)%Q ->
  (forall x, In x data -> (lo <= x)%Q /\ (x <= hi)%Q) ->
  (lo <= percentile_spec data p)%Q /\ (percentile_spec data p <= hi)%Q.
Proof.
  intros Hne Hp0 Hp1 Hb. rewrite percentile_spec_interpolate.
  pose proof (sorted_nonempty_length data Hne) as Hn.
  set (n := Z.of_nat (List.length (sorted data))) in *.
  destruct (percentile_index_bounds n p Hn Hp0 Hp1) as [Hi0 Hi1].
  destruct (Qfloor_index_bounds n p Hn Hp0 Hp1) as [Hf0 Hf1].
  destruct (interpolate_between (sorted data) (sorted_ascending data) _ Hi0 Hi1) as [Hlo Hhi].
  fold n in Hlo, Hhi.
  split.
  - eapply Qle_trans; [|exact Hlo].
    apply Hb, sorted_In, at_In. fold n. lia.
  - eapply Qle_trans; [exact Hhi|].
    apply Hb, sorted_In, at_In. fold n. lia.
Qed.

Lemma Qfloor_unique (x : Q) (z : Z) :
  (inject_Z z <= x)%Q -> (x < inject_Z z + 1)%Q -> Qfloor x = z.
Proof.
  intros Hle Hlt.
  apply Qfloor_resp_le in Hle. rewrite Qfloor_Z in Hle.
  pose proof (Qfloor_le x) as Hfl.
  assert (Hlt' : (inject_Z (Qfloor x) < inject_Z (z + 1))%Q).
  { rewrite inject_Z_plus. change (inject_Z 1) with 1%Q.
    eapply Qle_lt_trans; eassumption. }
  rewrite <- Zlt_Qlt in Hlt'. lia.
Qed.

(** [statistics.median] is the percentile at 50 (up to the representation
    of the rational). *)
Lemma median_is_p50 (data : list Q) :
  data <> [] ->
  returns (statistics_median data) (fun v => v == percentile_spec data 50)%Q.
Proof.
  intros Hne. pose proof (sorted_nonempty_length data Hne) as Hn.
  unfold statistics_median, percentile_spec.
  set (s := sorted data) in *. set (n := Z.of_nat (List.length s)) in *.
  set (index := (inject_Z (n - 1) * 50 / 100)%Q).
  assert (Hidx : (index == inject_Z (n - 1) / 2)%Q) by (unfold index; field).
  destruct (Z.eqb_spec n 0) as [|_]; [lia|].
  rewrite Z.geb_leb.
  destruct (Z.eqb_spec (n mod 2) 1) as [Hodd|Heven].
  - (* odd length: the middle element *)
    assert (Hn2 : (n - 1 = 2 * (n / 2))%Z).
    { pose proof (Z.div_mod n 2 ltac:(lia)). lia. }
    assert (Hmid : (index == inject_Z (n / 2))%Q).
    { rewrite Hidx, Hn2, inject_Z_mult. change (inject_Z 2) with 2%Q. field. }
    assert (Hfl : Qfloor index = (n / 2)%Z).
    { apply Qfloor_unique; rewrite Hmid; set (h := inject_Z (n / 2)); lra. }
    rewrite Hfl.
    rewrite (index_nth s (n / 2) 0%Q) by lia. simpl.
    destruct (Z.leb_spec n (n / 2 + 1)); [reflexivity|].
    assert (Hfr : (index - inject_Z (n / 2) == 0)%Q).
    { rewrite Hmid. ring. }
    rewrite Hfr. ring.
  - (* even length: the mean of the two middle elements *)
    assert (Hn2 : (n - 1 = 2 * (n / 2 - 1) + 1)%Z).
    { pose proof (Z.div_mod n 2 ltac:(lia)).
      pose proof (Z.mod_pos_bound n 2 ltac:(lia)). lia. }
    assert (Hhalf : (index == inject_Z (n / 2 - 1) + (1 # 2))%Q).
    { rewrite Hidx, Hn2, inject_Z_plus, inject_Z_mult.
      change (inject_Z 2) with 2%Q. change (inject_Z 1) with 1%Q. field. }
    assert (Hfl : Qfloor index = (n / 2 - 1)%Z).
    { apply Qfloor_unique; rewrite Hhalf; set (h := inject_Z (n / 2 - 1)); lra. }
    rewrite Hfl.
    replace (n / 2 - 1 + 1)%Z with (n / 2)%Z by lia.
    rewrite (index_nth s (n / 2 - 1) 0%Q) by lia.
    rewrite (index_nth s (n / 2) 0%Q) by lia. simpl.
    destruct (Z.leb_spec n (n / 2)); [lia|].
    assert (Hfr : (index - inject_Z (n / 2 - 1) == (1 # 2))%Q).
    { rewrite Hhalf. ring. }
    rewrite Hfr. change (nofZ 2) with 2%Q.
    change (?a + ?b)%num with (a + b)%Q. change (?a / ?b)%num with (a / b)%Q.
    field.
Qed.

(** ** The percentile algorithm (claim C3) *)

Ltac Qcompare := unfold Qle, Qlt; simpl; lia.



(** ** The statistics dictionaries in exact arithmetic *)

Lemma bind_Ret {A B : Type} (a : A) (k : A -> py B) : (Ret a ≫= k) = k a.
Proof. reflexivity. Qed.

Lemma statistics_median_returns (data : list Q) :
  data <> [] ->
  exists v, statistics_median data = Ret v /\ (v == percentile_spec data 50)%Q.
Proof.
  intros Hne. pose proof (median_is_p50 data Hne) as Hm.
  destruct (statistics_median data) as [v|e]; [|contradiction].
  now exists v.
Qed.

Lemma nlit_999_10_bounds : (0 <= nlit (A:=Q) 999 10)%Q /\ (nlit (A:=Q) 999 10 <= 100)%Q.
Proof. split; vm_compute; discriminate. Qed.

Ltac percentile_to_spec Hne :=
  repeat match goal with
  | |- context [percentile ?d ?p] =>
      rewrite (percentile_is_spec d p Hne) by (first [Qcompare | apply nlit_999_10_bounds]);
      rewrite bind_Ret
  end.

(** What [test_latency_icmp] returns on a non-empty list of latencies. *)
Lemma test_latency_icmp_returns `{L : StatisticsLib Q} (latencies : list Q) (frame_size : Z) :
  latencies <> [] ->
  exists s : stats Q Z,
    test_latency_icmp (Some latencies) frame_size = Ret (Some s)
    /\ py_min latencies = Ret (min s) /\ py_max latencies = Ret (max s)
    /\ (p50 s == percentile_spec latencies 50)%Q
    /\ p90 s = percentile_spec latencies 90
    /\ p95 s = percentile_spec latencies 95
    /\ p99 s = percentile_spec latencies 99
    /\ p99_9 s = percentile_spec latencies (nlit 999 10)
    /\ (List.length latencies = 1%nat -> stddev s = 0%Q /\ jitter s = 0%Q).
Proof.
  intros Hne.
  destruct (py_min_spec latencies Hne) as (lo & Hmin & _).
  destruct (py_max_spec latencies Hne) as (hi & Hmax & _).
  destruct (statistics_median_returns latencies Hne) as (md & Hmed & Hmd).
  unfold test_latency_icmp.
  destruct (Z.eqb_spec (Z.of_nat (List.length latencies)) 0) as [E|_].
  { destruct latencies; [congruence | simpl in E; lia]. }
  rewrite Hmin, Hmax, Hmed, !bind_Ret.
  unfold statistics_mean, statistics_stdev.
  destruct (Z.ltb_spec (Z.of_nat (List.length latencies)) 1) as [E|_].
  { destruct latencies; [congruence | simpl in E; lia]. }
  rewrite !bind_Ret.
  destruct (Z.ltb_spec 1 (Z.of_nat (List.length latencies))) as [Hlen|Hlen].
  - destruct (Z.ltb_spec (Z.of_nat (List.length latencies)) 2) as [E|_]; [lia|].
    rewrite !bind_Ret. percentile_to_spec Hne. rewrite !bind_Ret.
    eexists. split; [reflexivity|]. simpl.
    repeat split; try reflexivity; try assumption; lia.
  - rewrite !bind_Ret. percentile_to_spec Hne. rewrite !bind_Ret.
    eexists. split; [reflexivity|]. simpl.
    repeat split; try reflexivity; try assumption.
Qed.

(** What [calculate_stats] returns on at least two latencies. *)
Lemma calculate_stats_returns `{L : StatisticsLib Q} (latencies : list Q) (label : string) :
  (2 <= List.length latencies)%nat ->
  exists s : stats Q string,
    calculate_stats latencies label = Ret s
    /\ py_min latencies = Ret (min s) /\ py_max latencies = Ret (max s)
    /\ p50 s = percentile_spec latencies 50
    /\ p90 s = percentile_spec latencies 90
    /\ p95 s = percentile_spec latencies 95
    /\ p99 s = percentile_spec latencies 99
    /\ p99_9 s = percentile_spec latencies (nlit 999 10).
Proof.
  intros Hlen.
  assert (Hne : latencies <> []) by (destruct latencies; [simpl in Hlen; lia | congruence]).
  destruct (py_min_spec latencies Hne) as (lo & Hmin & _).
  destruct (py_max_spec latencies Hne) as (hi & Hmax & _).
  destruct (statistics_median_returns latencies Hne) as (md & Hmed & Hmd).
  unfold calculate_stats.
  rewrite Hmin, Hmax, !bind_Ret.
  unfold statistics_mean, statistics_stdev.
  destruct (Z.ltb_spec (Z.of_nat (List.length latencies)) 1) as [E|_]; [lia|].
  destruct (Z.ltb_spec (Z.of_nat (List.length latencies)) 2) as [E|_]; [lia|].
  rewrite bind_Ret, Hmed, !bind_Ret. percentile_to_spec Hne. rewrite !bind_Ret.
  eexists. split; [reflexivity|]. simpl.
  repeat split; try reflexivity; assumption.
Qed.

(** The order follows from the positions of the percentiles. *)
Lemma percentile_chain (latencies : list Q) (lo hi v50 : Q) :
  latencies <> [] ->
  py_min latencies = Ret lo -> py_max latencies = Ret hi ->
  (v50 == percentile_spec latencies 50)%Q ->
  (lo <= v50)%Q
  /\ (v50 <= percentile_spec latencies 90)%Q
  /\ (percentile_spec latencies 90 <= percentile_spec latencies 95)%Q
  /\ (percentile_spec latencies 95 <= percentile_spec latencies 99)%Q
  /\ (percentile_spec latencies 99 <= percentile_spec latencies (nlit 999 10))%Q
  /\ (percentile_spec latencies (nlit 999 10) <= hi)%Q.
Proof.
  intros Hne Hmin Hmax H50.
  destruct (py_min_spec latencies Hne) as (lo' & Hmin' & _ & Hlo).
  destruct (py_max_spec latencies Hne) as (hi' & Hmax' & _ & Hhi).
  rewrite Hmin in Hmin'. injection Hmin' as <-.
  rewrite Hmax in Hmax'. injection Hmax' as <-.
  assert (Hb : forall x, In x latencies -> (lo <= x)%Q /\ (x <= hi)%Q) by (split; auto).
  destruct nlit_999_10_bounds as [H0 H1].
  rewrite H50. repeat split.
  - apply (percentile_spec_bounds latencies 50 lo hi Hne); [Qcompare | Qcompare | exact Hb].
  - apply percentile_spec_mono; [exact Hne | Qcompare..].
  - apply percentile_spec_mono; [exact Hne | Qcompare..].
  - apply percentile_spec_mono; [exact Hne | Qcompare..].
  - apply percentile_spec_mono; [exact Hne | Qcompare | vm_compute; discriminate | exact H1].
  - apply (percentile_spec_bounds latencies _ lo hi Hne); [exact H0 | exact H1 | exact Hb].
Qed.

(** ** Order of the percentile statistics (claim C7) *)

(** C7 as stated fails on the code: in binary64 the interpolation
    [lo*(1-f) + hi*f] rounds, so two equal samples can give a percentile one
    unit in the last place above them.  For the latencies [0.87, 0.87] the
    dictionaries of both scripts have p95 = 0.8700000000000001, above
    p99 = 0.87 and above max = 0.87. *)
Lemma percentile_order_fails_in_binary64 :
  returns (@test_latency_icmp float F64 unused_lib_float
             (Some [nlit 87 100; nlit 87 100]) 64)
    (fun r => exists s, r = Some s
                        /\ (p99 s <? p95 s)%num = true /\ (max s <? p95 s)%num = true)
  /\ returns (@calculate_stats float F64 unused_lib_float
                [nlit 87 100; nlit 87 100] "Path 1 (Primary)")
       (fun s => (p99 s <? p95 s)%num = true /\ (max s <? p95 s)%num = true).
Proof.
  split.
  - vm_compute. eexists. split; [reflexivity|]. split; reflexivity.
  - vm_compute. split; reflexivity.
Qed.

(** C7, amended.  When the arithmetic is exact (samples and interpolation
    over the rationals, no rounding), for every non-empty list of samples
    both scripts return a dictionary with
    min ≤ p50 ≤ p90 ≤ p95 ≤ p99 ≤ p99.9 ≤ max: [test_latency_icmp], whose
    p50 is [statistics.median], on any non-empty list, and
    [calculate_stats], whose p50 is [percentile(latencies, 50)], on any
    list of at least two samples (its [statistics.stdev] needs two). *)
Theorem percentile_statistics_ordered_exact :
  forall (L : StatisticsLib Q) (latencies : list Q),
    latencies <> [] ->
    (forall frame_size : Z,
        returns (test_latency_icmp (Some latencies) frame_size)
          (fun r => exists s, r = Some s /\ percentiles_ordered s))
    /\ ((2 <= List.length latencies)%nat ->
        forall label : string,
          returns (calculate_stats latencies label) percentiles_ordered).
Proof.
  intros L latencies Hne. split.
  - intros frame_size.
    destruct (test_latency_icmp_returns latencies frame_size Hne)
      as (s & -> & Hmin & Hmax & H50 & H90 & H95 & H99 & H999 & _).
    simpl. exists s. split; [reflexivity|].
    unfold percentiles_ordered. rewrite H90, H95, H99, H999.
    now apply percentile_chain.
  - intros Hlen label.
    destruct (calculate_stats_returns latencies label Hlen)
      as (s & -> & Hmin & Hmax & H50 & H90 & H95 & H99 & H999).
    simpl. unfold percentiles_ordered. rewrite H90, H95, H99, H999.
    apply percentile_chain; [exact Hne | exact Hmin | exact Hmax |].
    rewrite H50. reflexivity.
Qed.

Lemma percentile_statistics_ordered_exact_witness :
  (forall frame_size : Z,
      returns (@test_latency_icmp Q QNum unused_lib_Q (Some [87 # 100; 87 # 100]%Q) frame_size)
        (fun r => exists s, r = Some s /\ percentiles_ordered s))
  /\ ((2 <= List.length [87 # 100; 87 # 100]%Q)%nat ->
      forall label : string,
        returns (@calculate_stats Q QNum unused_lib_Q [87 # 100; 87 # 100]%Q label)
          percentiles_ordered).
Proof.
  apply (percentile_statistics_ordered_exact unused_lib_Q [87 # 100; 87 # 100]%Q).
  discriminate.
Defined.

(** ** One sample (claim C9) *)

(** C9.  With exactly one sample [test_latency_icmp] returns 0 for
    ["stddev"] and ["jitter"] (first part, in exact arithmetic and at a
    binary64 sample).  [calculate_stats] does not: it calls
    [statistics.stdev] without the guard [if len(latencies) > 1 else 0],
    and on one sample the call raises [StatisticsError] (second part, for
    any arithmetic and any sample). *)
Theorem single_sample_stddev :
  (forall (L : StatisticsLib Q) (x : Q) (frame_size : Z),
      returns (test_latency_icmp (Some [x]) frame_size)
        (fun r => exists s, r = Some s /\ stddev s = 0%Q /\ jitter s = 0%Q))
  /\ returns (@test_latency_icmp float F64 unused_lib_float (Some [nlit 4 10]) 64)
       (fun r => exists s, r = Some s /\ stddev s = 0%float /\ jitter s = 0%float)
  /\ (forall (A : Type) (N : Num A) (L : StatisticsLib A) (x : A) (label : string),
         calculate_stats [x] label = Raise StatisticsError).
Proof.
  split; [|split].
  - intros L x frame_size.
    destruct (test_latency_icmp_returns [x] frame_size ltac:(discriminate))
      as (s & -> & _ & _ & _ & _ & _ & _ & _ & Hone).
    simpl. exists s. split; [reflexivity|]. now apply Hone.
  - vm_compute. eexists. split; [reflexivity|]. split; reflexivity.
  - intros A N L x label. reflexivity.
Qed.

(** ** Dual-path selection (claim C5) *)

(** C5 as stated fails on the code: two paths of unequal length give a
    result, not an error.  [zip] stops at the shorter path. *)
Lemma unequal_paths_give_a_result :
  List.length [nlit 4 10; nlit 5 10 : float] <> List.length [nlit 45 100 : float]
  /\ calculate_frer_latencies (A:=float) [nlit 4 10; nlit 5 10] [nlit 45 100] = [nlit 4 10]
  /\ calculate_frer_latencies (A:=Q) [4 # 10; 5 # 10]%Q [45 # 100]%Q = [4 # 10]%Q.
Proof. split; [discriminate|]. split; vm_compute; reflexivity. Qed.

Lemma zip_length {A B : Type} (xs : list A) (ys : list B) :
  List.length (Py.zip xs ys) = Nat.min (List.length xs) (List.length ys).
Proof.
  revert ys. induction xs as [|x xs IH]; intros [|y ys]; simpl; try reflexivity.
  now rewrite IH.
Qed.

Lemma zip_nth_error {A B : Type} (xs : list A) (ys : list B) (i : nat) (x : A) (y : B) :
  nth_error xs i = Some x -> nth_error ys i = Some y ->
  nth_error (Py.zip xs ys) i = Some (x, y).
Proof.
  revert ys i. induction xs as [|x0 xs IH]; intros [|y0 ys] [|i]; simpl; try discriminate.
  - now intros [= ->] [= ->].
  - apply IH.
Qed.

(** C5, amended.  [calculate_frer_latencies] never fails: its result has the
    length of the shorter path, and at every index both paths have it holds
    [min(path1[i], path2[i])]; what the longer path has beyond is dropped. *)
Theorem frer_latencies_common_prefix :
  forall (A : Type) (N : Num A) (path1 path2 : list A),
    List.length (calculate_frer_latencies path1 path2)
    = Nat.min (List.length path1) (List.length path2)
    /\ forall (i : nat) (p1 p2 : A),
        nth_error path1 i = Some p1 -> nth_error path2 i = Some p2 ->
        nth_error (calculate_frer_latencies path1 path2) i
        = Some (if (p2 <? p1)%num then p2 else p1).
Proof.
  intros A N path1 path2. unfold calculate_frer_latencies. split.
  - now rewrite length_map, zip_length.
  - intros i p1 p2 H1 H2.
    rewrite nth_error_map, (zip_nth_error _ _ _ _ _ H1 H2). reflexivity.
Qed.

Lemma frer_latencies_common_prefix_witness :
  nth_error (calculate_frer_latencies (A:=Q) [4 # 10; 5 # 10]%Q [45 # 100]%Q) 0
  = Some (if (nltb (45 # 100) (4 # 10))%Q then 45 # 100 else 4 # 10)%Q.
Proof.
  apply (proj2 (frer_latencies_common_prefix Q QNum [4 # 10; 5 # 10]%Q [45 # 100]%Q) 0%nat);
    reflexivity.
Defined.

(** ** Sequence analysis (claims C4 and C10) *)






(** *** Packing and unpacking the tag *)









(** *** Counts of the analysis (claim C4) *)



(** The example of the specification: the stream 1,1,2,3,2,4 of tagged
    packets gives unique 4, duplicates 2, total 6, out of order 1 (the
    second 2 arrives after 3), replication ratio 50% and elimination
    efficiency 100/3 %. *)
Example analyze_pcap_example :
  exists r : analysis (A:=Q),
    analyze_pcap (Some (List.map (fun seq_num => create_frer_packet seq_num 1 [])
                          [1; 1; 2; 3; 2; 4]%Z)) = Some r
    /\ total_packets r = 6%Z /\ unique_packets r = 4%Z /\ an_duplicates r = 2%Z
    /\ an_out_of_order r = 1%Z
    /\ (replication_ratio r == 50)%Q /\ (elimination_efficiency r == 100 # 3)%Q.
Proof.
  eexists. split; [vm_compute; reflexivity|]. simpl. repeat split.
Qed.

(** *** Duplicates and stream ids (claim C10) *)






(** ** Burst capacity (claim C6) *)

Section BurstProperties.

Context {A : Type} `{Num A} `{StatisticsLib A}.

Lemma scan_bursts_ge (send_burst : Z -> option A) (bursts : list Z) (best_burst : Z) :
  (best_burst <= scan_bursts send_burst bursts best_burst)%Z.
Proof.
  revert best_burst. induction bursts as [|b bursts IH]; intros best; simpl; [lia|].
  destruct (send_burst b) as [loss|]; [|lia].
  destruct (nltb loss (nofZ 1)); [|lia].
  specialize (IH (Z.max best b)). lia.
Qed.

(** Started from a [best_burst] below the candidates, which ascend, the scan
    of the code is the trial of the specification. *)
Lemma scan_bursts_fresh (send_burst : Z -> option A) (bursts : list Z) (best_burst : Z) :
  StronglySorted Z.le (best_burst :: bursts) ->
  scan_bursts send_burst bursts best_burst = trial_result_spec send_burst bursts best_burst.
Proof.
  revert best_burst. induction bursts as [|b bursts IH]; intros best Hs; simpl; [reflexivity|].
  destruct (send_burst b) as [loss|]; [|reflexivity].
  destruct (nltb loss (nofZ 1)); [|reflexivity].
  inversion Hs as [|? ? Hs' Hall]; subst.
  inversion Hall as [|? ? Hb _]; subst.
  rewrite Z.max_r by exact Hb. now apply IH.
Qed.

Lemma run_trials_acc (send_burst : burst_probe) (range : list Z) (best_burst : Z)
  (acc : list (Z * Z)) :
  run_trials send_burst range best_burst acc
  = acc ++ run_trials send_burst range best_burst [].
Proof.
  revert best_burst acc. induction range as [|t range IH]; intros best acc; simpl.
  - now rewrite app_nil_r.
  - rewrite (IH _ (acc ++ _)), (IH _ [_]). now rewrite <- app_assoc.
Qed.

(** [best_burst] is carried from one trial to the next, so no trial records
    less than the value the variable had before it. *)
Lemma run_trials_ge (send_burst : burst_probe) (range : list Z) (best_burst : Z) :
  List.Forall (fun b => (best_burst <= b)%Z)
    (List.map snd (run_trials send_burst range best_burst [])).
Proof.
  revert best_burst. induction range as [|t range IH]; intros best;
    cbn [run_trials]; [constructor|].
  rewrite run_trials_acc. cbn [app List.map snd].
  pose proof (scan_bursts_ge (send_burst t) test_bursts best) as Hge.
  set (best' := scan_bursts (send_burst t) test_bursts best) in *.
  constructor; [exact Hge|].
  eapply List.Forall_impl; [|apply (IH best')]. cbv beta. intros b Hb. lia.
Qed.

Lemma min_list_first (x : Z) (rest : list Z) :
  List.Forall (fun b => (x <= b)%Z) rest -> min_list x rest = x.
Proof.
  unfold min_list. induction 1 as [|b rest Hb _ IH]; simpl; [reflexivity|].
  now rewrite Z.min_l by exact Hb.
Qed.

(** With at least one trial, the reported minimum is the first trial's
    result. *)
Lemma back_to_back_reports_first_trial (n : nat) (send_burst : burst_probe) (fs : Z) :
  max_burst_no_loss (back_to_back_test (S n) send_burst fs)
  = scan_bursts (send_burst 0%Z) test_bursts 0.
Proof.
  unfold back_to_back_test. cbn [List.seq List.map run_trials].
  rewrite run_trials_acc. cbn [app List.map snd max_burst_no_loss].
  apply min_list_first, run_trials_ge.
Qed.

End BurstProperties.

(** C6.  The code does what the claim says within the first trial: it scans
    the candidates 100, 500, 1000, 2000, 5000, 10000 in this order, stops
    at the first whose loss is at least 1% (or whose probe raises) and
    records the last size that passed, 0 if none (first part), and it
    reports the minimum of the recorded values.  But [best_burst] is set to
    0 once, before the loop over the trials, and not again: a later trial
    records the largest size that passed in any trial so far, the trials
    are not independent, and the reported minimum is always the first
    trial's result (second part).  At the probe [lossy_after_first_trial]
    the three trials of the specification give 1000, 0, 0 and the minimum
    0; the code records 1000, 1000, 1000 and reports 1000 (third part). *)
Theorem burst_trials_share_best_burst :
  (forall (A : Type) (N : Num A) (send_burst : Z -> option A),
      scan_bursts send_burst test_bursts 0 = trial_result_spec send_burst test_bursts 0)
  /\ (forall (A : Type) (N : Num A) (L : StatisticsLib A) (n : nat)
             (send_burst : burst_probe) (fs : Z),
         max_burst_no_loss (back_to_back_test (S n) send_burst fs)
         = scan_bursts (send_burst 0%Z) test_bursts 0)
  /\ (let r := @back_to_back_test float F64 unused_lib_float 3 lossy_after_first_trial 64 in
       trials r = [(1, 1000); (2, 1000); (3, 1000)]%Z
       /\ max_burst_no_loss r = 1000%Z
       /\ List.map (fun trial => trial_result_spec (lossy_after_first_trial (A:=float) trial)
                                   test_bursts 0) [0; 1; 2]%Z = [1000; 0; 0]%Z
       /\ max_burst_no_loss_spec (A:=float) 3 lossy_after_first_trial = 0%Z).
Proof.
  split; [|split].
  - intros A N send_burst. apply scan_bursts_fresh.
    unfold test_bursts.
    repeat first [ apply SSorted_cons | apply SSorted_nil
                 | apply List.Forall_cons | apply List.Forall_nil | lia ].
  - intros A N L n send_burst fs. apply back_to_back_reports_first_trial.
  - repeat split; vm_compute; reflexivity.
Qed.

(** ** Rate search: the loops *)

Section RateSearchGeneric.

Context {A : Type} `{Num A}.

Lemma search_loop_S (fuel : nat) (p : probe) (st : search_state) :
  search_loop (S fuel) p st = search_turn p (search_loop fuel p st).
Proof.
  revert st. induction fuel as [|fuel IH]; intros st.
  - unfold search_turn. simpl. reflexivity.
  - change (search_loop (S (S fuel)) p st)
      with (if search_continues st then search_loop (S fuel) p (search_iteration p st) else st).
    rewrite IH. cbn [search_loop]. unfold search_turn at 2.
    destruct (search_continues st) eqn:E; [reflexivity|].
    unfold search_turn. now rewrite E.
Qed.

Lemma search_iteration_iterations (p : probe) (st : search_state) :
  iterations (search_iteration p st) = (iterations st + 1)%Z.
Proof.
  unfold search_iteration.
  destruct (p _ _) as [loss|]; [destruct (nltb loss _)|]; reflexivity.
Qed.

Lemma search_continues_iterations (st : search_state) :
  search_continues st = true -> (iterations st < max_iterations)%Z.
Proof.
  unfold search_continues. intros E. apply andb_true_iff in E as [_ E].
  now apply Z.ltb_lt in E.
Qed.

(** The loop needs no more fuel than the iterations left. *)
Lemma search_loop_fuel (fuel : nat) (p : probe) (st : search_state) :
  (Z.to_nat (max_iterations - iterations st) <= fuel)%nat ->
  search_loop fuel p st = search_loop (Z.to_nat (max_iterations - iterations st)) p st.
Proof.
  revert st. induction fuel as [|fuel IH]; intros st Hf.
  - replace (Z.to_nat (max_iterations - iterations st)) with 0%nat by lia. reflexivity.
  - cbn [search_loop].
    destruct (search_continues st) eqn:E.
    + assert (Hit : (iterations st < max_iterations)%Z).
      { unfold search_continues in E. apply andb_true_iff in E as [_ E].
        now apply Z.ltb_lt in E. }
      replace (Z.to_nat (max_iterations - iterations st))
        with (S (Z.to_nat (max_iterations - iterations (search_iteration p st))))
        by (rewrite search_iteration_iterations; lia).
      cbn [search_loop]. rewrite E.
      apply IH. rewrite search_iteration_iterations. lia.
    + destruct (Z.to_nat (max_iterations - iterations st)); cbn [search_loop];
        [reflexivity | now rewrite E].
Qed.

End RateSearchGeneric.

(** ** Failed probes (claim C1) *)

Section FailedProbes.

Context {A : Type} `{Num A}.




End FailedProbes.




(** ** The search window in exact arithmetic (claim C2) *)

Ltac exact_arith :=
  change (@nadd Q QNum) with Qplus in *;
  change (@nsub Q QNum) with Qminus in *;
  change (@nmul Q QNum) with Qmult in *;
  change (@ndiv Q QNum) with Qdiv in *;
  change (@nltb Q QNum) with Qltb in *;
  change (@nofZ Q QNum) with inject_Z in *;
  unfold inject_Z in *.

Lemma window_ok_best_le (low high best : Q) :
  window_ok low high best -> (best <= low)%Q.
Proof. intros (H1 & _ & _ & [-> | ->]); lra. Qed.

Lemma midpoint_between (low high : Q) :
  (low <= high)%Q -> (low <= (low + high) / 2)%Q /\ ((low + high) / 2 <= high)%Q.
Proof.
  intros. split.
  - apply Qle_shift_div_l; [reflexivity | lra].
  - apply Qle_shift_div_r; [reflexivity | lra].
Qed.

Lemma search_iteration_window (p : probe) (st : search_state (A:=Q)) :
  window_ok (min_mbps st) (max_mbps st) (best_throughput st) ->
  let st' := search_iteration p st in
  window_ok (min_mbps st') (max_mbps st') (best_throughput st')
  /\ (best_throughput st <= best_throughput st')%Q.
Proof.
  intros Hw. pose proof (window_ok_best_le _ _ _ Hw) as Hb.
  destruct Hw as (H1 & H2 & H3 & H4).
  destruct (midpoint_between _ _ H2) as [Hm1 Hm2].
  unfold search_iteration. exact_arith.
  set (mid := ((min_mbps st + max_mbps st) / 2)%Q) in *.
  destruct (p _ _) as [loss|]; [destruct (Qltb loss _)|];
    cbn [min_mbps max_mbps best_throughput]; unfold window_ok;
    repeat split; try assumption; try lra; auto.
Qed.

Lemma search_turn_window (p : probe) (st : search_state (A:=Q)) :
  window_ok (min_mbps st) (max_mbps st) (best_throughput st) ->
  let st' := search_turn p st in
  window_ok (min_mbps st') (max_mbps st') (best_throughput st')
  /\ (best_throughput st <= best_throughput st')%Q.
Proof.
  intros Hw. unfold search_turn. destruct (search_continues st).
  - now apply search_iteration_window.
  - split; [exact Hw | apply Qle_refl].
Qed.

Lemma search_init_window :
  window_ok (min_mbps search_init) (max_mbps search_init) (best_throughput (A:=Q) search_init).
Proof. unfold window_ok. cbn. repeat split; try Qcompare. now left. Qed.

Lemma search_loop_window (k : nat) (p : probe) :
  let st := search_loop (A:=Q) k p search_init in
  window_ok (min_mbps st) (max_mbps st) (best_throughput st).
Proof.
  induction k as [|k IH]; [apply search_init_window|].
  cbv zeta. rewrite search_loop_S. now apply search_turn_window.
Qed.

Lemma throughput_loop_window (range : list Z) (p : probe) (st : throughput_state (A:=Q)) :
  window_ok (min_rate st) (max_rate st) (best_rate st) ->
  let st' := throughput_loop range p st in
  window_ok (min_rate st') (max_rate st') (best_rate st')
  /\ (best_rate st <= best_rate st')%Q.
Proof.
  revert st. induction range as [|iteration range IH]; intros st Hw; cbn [throughput_loop].
  - split; [exact Hw | apply Qle_refl].
  - pose proof (window_ok_best_le _ _ _ Hw) as Hb.
    destruct Hw as (H1 & H2 & H3 & H4).
    destruct (midpoint_between _ _ H2) as [Hm1 Hm2].
    exact_arith.
    set (mid := ((min_rate st + max_rate st) / 2)%Q) in *.
    destruct (p iteration mid) as [loss|].
    + destruct (Qltb loss _); cbn [min_rate max_rate];
        match goal with |- context [if ?c then _ else _] => destruct c end.
      * cbn [min_rate max_rate best_rate]. unfold window_ok.
        repeat split; try assumption; try lra; auto.
      * match goal with |- context [throughput_loop range p ?s] =>
          destruct (IH s) as [Hw' Hb'] end.
        { cbn [min_rate max_rate best_rate]. unfold window_ok.
          repeat split; try assumption; try lra; auto. }
        split; [exact Hw'|]. cbn [best_rate] in Hb'. lra.
      * cbn [min_rate max_rate best_rate]. unfold window_ok.
        repeat split; try assumption; try lra; auto.
      * match goal with |- context [throughput_loop range p ?s] =>
          destruct (IH s) as [Hw' Hb'] end.
        { cbn [min_rate max_rate best_rate]. unfold window_ok.
          repeat split; try assumption; try lra; auto. }
        split; [exact Hw'|]. exact Hb'.
    + match goal with |- context [throughput_loop range p ?s] =>
        destruct (IH s) as [Hw' Hb'] end.
      { cbn [min_rate max_rate best_rate]. unfold window_ok. auto. }
      split; [exact Hw' | exact Hb'].
Qed.

(** A longer range either stops where the shorter one stopped (the [break])
    or goes on from the state the shorter one reached. *)
Lemma throughput_loop_app {A : Type} `{Num A} (r r' : list Z) (p : probe)
  (st : throughput_state) :
  throughput_loop (r ++ r') p st = throughput_loop r p st
  \/ throughput_loop (r ++ r') p st = throughput_loop r' p (throughput_loop r p st).
Proof.
  revert st. induction r as [|iteration r IH]; intros st; cbn [app throughput_loop].
  - now right.
  - destruct (p _ _) as [loss|]; [|apply IH].
    destruct (nltb loss _);
      match goal with |- context [if ?c then _ else _] => destruct c end;
      first [now left | apply IH].
Qed.

Lemma throughput_init_window :
  window_ok (min_rate throughput_init) (max_rate throughput_init)
    (best_rate (A:=Q) throughput_init).
Proof. unfold window_ok. cbn. repeat split; try Qcompare. now left. Qed.

(** ** Halving and termination (claim C8) *)

Lemma two_power_mod_3 (m : nat) : ((2 ^ Z.of_nat m) mod 3 <> 0)%Z.
Proof.
  induction m as [|m IH].
  - simpl. discriminate.
  - rewrite Nat2Z.inj_succ, Z.pow_succ_r by lia.
    set (d := (2 ^ Z.of_nat m)%Z) in *.
    pose proof (Z.div_mod d 3 ltac:(lia)). pose proof (Z.mod_pos_bound d 3 ltac:(lia)).
    pose proof (Z.div_mod (2 * d) 3 ltac:(lia)).
    pose proof (Z.mod_pos_bound (2 * d) 3 ltac:(lia)). lia.
Qed.

Ltac push_inject := repeat progress (rewrite ?inject_Z_plus, ?inject_Z_mult in * ).

Lemma search_iteration_dyadic (m : nat) (p : probe) (st : search_state (A:=Q)) :
  dyadic_window m (min_mbps st) (max_mbps st) ->
  dyadic_window (S m) (min_mbps (search_iteration p st)) (max_mbps (search_iteration p st)).
Proof.
  intros (a & Hlo & Hhi).
  assert (Hmid : ((min_mbps st + max_mbps st) / 2 * inject_Z (2 ^ Z.of_nat (S m))
                  == inject_Z (2 ^ Z.of_nat (S m) + 999 * (2 * a + 1)))%Q).
  { rewrite Nat2Z.inj_succ, Z.pow_succ_r by lia.
    push_inject.
    set (x := inject_Z (2 ^ Z.of_nat m)) in *. set (ia := inject_Z a) in *.
    change (inject_Z 2) with 2%Q. change (inject_Z 999) with 999%Q in *.
    change (inject_Z 1) with 1%Q in *.
    setoid_replace ((min_mbps st + max_mbps st) / 2 * (2 * x))%Q
      with (min_mbps st * x + max_mbps st * x)%Q using relation Qeq by field.
    rewrite Hlo, Hhi. ring. }
  assert (Hlo' : (min_mbps st * inject_Z (2 ^ Z.of_nat (S m))
                  == inject_Z (2 ^ Z.of_nat (S m) + 999 * (2 * a)))%Q).
  { rewrite Nat2Z.inj_succ, Z.pow_succ_r by lia.
    push_inject.
    change (inject_Z 2) with 2%Q. change (inject_Z 999) with 999%Q in *.
    setoid_replace (min_mbps st * (2 * inject_Z (2 ^ Z.of_nat m)))%Q
      with (2 * (min_mbps st * inject_Z (2 ^ Z.of_nat m)))%Q using relation Qeq by ring.
    rewrite Hlo. ring. }
  assert (Hhi' : (max_mbps st * inject_Z (2 ^ Z.of_nat (S m))
                  == inject_Z (2 ^ Z.of_nat (S m) + 999 * (2 * a + 1 + 1)))%Q).
  { rewrite Nat2Z.inj_succ, Z.pow_succ_r by lia.
    push_inject.
    change (inject_Z 2) with 2%Q. change (inject_Z 999) with 999%Q in *.
    change (inject_Z 1) with 1%Q in *.
    setoid_replace (max_mbps st * (2 * inject_Z (2 ^ Z.of_nat m)))%Q
      with (2 * (max_mbps st * inject_Z (2 ^ Z.of_nat m)))%Q using relation Qeq by ring.
    rewrite Hhi. ring. }
  unfold search_iteration. exact_arith.
  destruct (p _ _) as [loss|]; [destruct (Qltb loss _)|]; cbn [min_mbps max_mbps].
  - exists (2 * a + 1)%Z. split; [exact Hmid | exact Hhi'].
  - exists (2 * a)%Z. split; [exact Hlo' | exact Hmid].
  - exists (2 * a)%Z. split; [exact Hlo' | exact Hmid].
Qed.

Lemma search_after_S {A : Type} `{Num A} (m : nat) (p : probe) :
  search_after (S m) p = search_iteration p (search_after m p).
Proof. reflexivity. Qed.

Lemma search_after_iterations {A : Type} `{Num A} (m : nat) (p : probe) :
  iterations (search_after m p) = Z.of_nat m.
Proof.
  induction m as [|m IH]; [reflexivity|].
  rewrite search_after_S, search_iteration_iterations, IH. lia.
Qed.

Lemma search_after_window (m : nat) (p : probe) :
  let st := search_after (A:=Q) m p in
  window_ok (min_mbps st) (max_mbps st) (best_throughput st).
Proof.
  induction m as [|m IH]; [apply search_init_window|].
  cbv zeta. rewrite search_after_S. now apply search_iteration_window.
Qed.

Lemma search_after_dyadic (m : nat) (p : probe) :
  dyadic_window m (min_mbps (search_after (A:=Q) m p)) (max_mbps (search_after m p)).
Proof.
  induction m as [|m IH].
  - exists 0%Z. split; reflexivity.
  - rewrite search_after_S. now apply search_iteration_dyadic.
Qed.

(** On such a window [(high-low)/high] is never exactly the tolerance:
    that would make a power of two a multiple of 999. *)
Lemma dyadic_ratio_not_tolerance (m : nat) (low high : Q) :
  dyadic_window m low high -> (0 < high)%Q ->
  ~ ((high - low) / high == 1 # 100)%Q.
Proof.
  intros (a & Hlo & Hhi) Hpos Heq.
  assert (Hdiff : (high - low == (1 # 100) * high)%Q).
  { rewrite <- Heq. field. lra. }
  assert (Hx : ((high - low) * inject_Z (2 ^ Z.of_nat m)
                == (1 # 100) * (high * inject_Z (2 ^ Z.of_nat m)))%Q).
  { rewrite Hdiff. ring. }
  assert (Hz : (inject_Z (2 ^ Z.of_nat m) == inject_Z (98901 + -999 * a))%Q).
  { unfold Qminus in Hx. rewrite Qmult_plus_distr_l in Hx.
    setoid_replace (- low * inject_Z (2 ^ Z.of_nat m))%Q
      with (- (low * inject_Z (2 ^ Z.of_nat m)))%Q using relation Qeq in Hx by ring.
    rewrite Hlo, Hhi in Hx. push_inject.
    change (inject_Z 999) with 999%Q in *. change (inject_Z (-999)) with (-999)%Q.
    change (inject_Z 98901) with 98901%Q. change (inject_Z 1) with 1%Q in *.
    set (x := inject_Z (2 ^ Z.of_nat m)) in *. set (ia := inject_Z a) in *.
    lra. }
  unfold Qeq, inject_Z in Hz. cbn [Qnum Qden] in Hz. rewrite !Z.mul_1_r in Hz.
  pose proof (two_power_mod_3 m) as H3.
  rewrite Hz in H3. apply H3.
  replace (98901 + -999 * a)%Z with ((333 * (99 - a)) * 3)%Z by lia.
  apply Z.mod_mul. lia.
Qed.

(** On the states of a run the test of the [while] fails exactly when the
    stopping condition of the specification holds. *)
Lemma search_continues_stops (m : nat) (p : probe) :
  (m <= 20)%nat ->
  search_continues (search_after (A:=Q) m p) = false <-> search_stops (search_after m p).
Proof.
  intros Hm. set (st := search_after m p).
  pose proof (search_after_iterations m p) as Hit. fold st in Hit.
  pose proof (search_after_window m p) as (H1 & H2 & _). fold st in H1, H2.
  pose proof (dyadic_ratio_not_tolerance m _ _ (search_after_dyadic m p)) as Hne.
  fold st in Hne. specialize (Hne ltac:(lra)).
  unfold search_continues, search_stops, max_iterations. rewrite Hit.
  change (@tolerance Q QNum) with (1 # 100)%Q.
  change (@nltb Q QNum) with Qltb.
  change (@ndiv Q QNum) with Qdiv. change (@nsub Q QNum) with Qminus.
  set (ratio := ((max_mbps st - min_mbps st) / max_mbps st)%Q) in *.
  rewrite andb_false_iff, Z.ltb_ge, Qltb_ge. split.
  - intros [Hle | Hge]; [left | right; lia].
    apply Qle_lteq in Hle as [Hlt | Heq]; [exact Hlt | contradiction].
  - intros [Hlt | Heq]; [left; now apply Qlt_le_weak | right; lia].
Qed.

(** The loop run with some fuel from the state after [m] iterations ends in
    the state after [n] iterations, where the test held at every iteration
    from [m] up to [n] and, unless the fuel ran out, fails at [n]. *)
Lemma search_loop_unroll {A : Type} `{Num A} (fuel m : nat) (p : probe) :
  exists n : nat,
    (m <= n <= m + fuel)%nat
    /\ search_loop fuel p (search_after m p) = search_after n p
    /\ (forall j, (m <= j < n)%nat -> search_continues (search_after j p) = true)
    /\ ((n < m + fuel)%nat -> search_continues (search_after n p) = false).
Proof.
  revert m. induction fuel as [|fuel IH]; intros m.
  - exists m. repeat split; [lia | lia | intros; lia | intros; lia].
  - cbn [search_loop]. destruct (search_continues (search_after m p)) eqn:E.
    + rewrite <- search_after_S.
      destruct (IH (S m)) as (n & Hn & Hrun & Hbefore & Hat).
      exists n. repeat split; [lia | lia | exact Hrun | | intros; apply Hat; lia].
      intros j Hj. destruct (Nat.eq_dec j m) as [->|]; [exact E | apply Hbefore; lia].
    + exists m. repeat split; [lia | lia | intros; lia | intros; exact E].
Qed.

Lemma search_iteration_halves (p : probe) (st : search_state (A:=Q)) :
  let mid := ((min_mbps st + max_mbps st) / 2)%Q in
  let st' := search_iteration p st in
  (max_mbps st' - min_mbps st' == (max_mbps st - min_mbps st) / 2)%Q
  /\ ((min_mbps st' = mid /\ max_mbps st' = max_mbps st)
      \/ (max_mbps st' = mid /\ min_mbps st' = min_mbps st)).
Proof.
  cbv zeta. unfold search_iteration. exact_arith.
  destruct (p _ _) as [loss|]; [destruct (Qltb loss _)|]; cbn [min_mbps max_mbps];
    (split; [field | auto]).
Qed.

(** ** The first rate search in binary64 *)

Section SearchTree.

Context {A : Type} `{Num A}.

Lemma search_iteration_cases (p : probe) (st : search_state) :
  search_iteration p st = raise_low st \/ search_iteration p st = lower_high st.
Proof.
  unfold search_iteration, raise_low, lower_high.
  destruct (p _ _) as [loss|]; [destruct (nltb loss _)|]; auto.
Qed.

Lemma search_tree_sound (fuel : nat) (check : search_state -> bool) (st : search_state) :
  search_tree fuel check st = true ->
  forall (p : probe) (k : nat), (k <= fuel)%nat -> check (search_loop k p st) = true.
Proof.
  revert st. induction fuel as [|fuel IH]; intros st Ht p k Hk.
  - replace k with 0%nat by lia. cbn in Ht |- *. now apply andb_true_iff in Ht as [Ht _].
  - cbn [search_tree] in Ht. apply andb_true_iff in Ht as [Hc Ht].
    destruct k as [|k]; [exact Hc|]. cbn [search_loop].
    destruct (search_continues st); [|exact Hc].
    apply andb_true_iff in Ht as [Hup Hdown].
    destruct (search_iteration_cases p st) as [-> | ->]; apply IH; try assumption; lia.
Qed.

End SearchTree.

(** The checks hold in every state of every run of the search in binary64:
    there are finitely many such states, and they are all evaluated. *)
Lemma search_tree_binary64 : search_tree 20 binary64_checks search_init = true.
Proof. vm_compute. reflexivity. Qed.

Lemma search_loop_binary64 (p : probe (A:=float)) (k : nat) :
  binary64_checks (search_loop k p search_init) = true.
Proof.
  destruct (Nat.le_gt_cases k 20) as [Hk|Hk].
  - now apply (search_tree_sound 20 binary64_checks search_init search_tree_binary64).
  - rewrite (search_loop_fuel k p search_init)
      by (change (Z.to_nat (max_iterations - iterations search_init)) with 20%nat; lia).
    change (Z.to_nat (max_iterations - iterations search_init)) with 20%nat.
    now apply (search_tree_sound 20 binary64_checks search_init search_tree_binary64).
Qed.

(** ** The second rate search in binary64 *)

Lemma throughput_tree_sound {A : Type} `{Num A} (n : nat) (check : A -> A -> A -> bool)
  (range : list Z) (p : probe) (st : throughput_state) :
  throughput_tree n check (min_rate st) (max_rate st) (best_rate st) = true ->
  (List.length range <= n)%nat ->
  let st' := throughput_loop range p st in
  check (min_rate st') (max_rate st') (best_rate st') = true.
Proof.
  revert range st. induction n as [|n IH]; intros range st Ht Hlen.
  - destruct range; [|simpl in Hlen; lia]. cbn in Ht |- *.
    now apply andb_true_iff in Ht as [Ht _].
  - cbn [throughput_tree] in Ht. apply andb_true_iff in Ht as [Hc Ht].
    destruct range as [|iteration range]; [exact Hc|].
    simpl in Hlen. cbv zeta in Ht |- *.
    apply andb_true_iff in Ht as [Ht Hstay]. apply andb_true_iff in Ht as [Hup Hdown].
    cbn [throughput_loop].
    destruct (p _ _) as [loss|].
    + destruct (nltb loss _); cbn [min_rate max_rate].
      * match goal with |- context [if ?c then _ else _] => destruct c end;
          [exact Hup|]. apply IH; [exact Hup | lia].
      * match goal with |- context [if ?c then _ else _] => destruct c end;
          [exact Hdown|]. apply IH; [exact Hdown | lia].
    + apply IH; [exact Hstay | lia].
Qed.

Lemma throughput_tree_binary64 :
  throughput_tree 10 rates_ok_b (min_rate throughput_init) (max_rate throughput_init)
    (best_rate throughput_init) = true.
Proof. vm_compute. reflexivity. Qed.

Lemma throughput_step_best {A : Type} `{Num A} (iteration : Z) (p : probe)
  (st : throughput_state) :
  best_rate (throughput_loop [iteration] p st) = best_rate st
  \/ best_rate (throughput_loop [iteration] p st)
     = ((min_rate st + max_rate st) / nofZ 2)%num.
Proof.
  cbn [throughput_loop].
  destruct (p _ _) as [loss|]; [|now left].
  destruct (nltb loss _); cbn [min_rate max_rate];
    destruct (nltb _ (nlit 1 100)); cbn [best_rate]; auto.
Qed.

Lemma binary64_checks_split (st : search_state (A:=float)) :
  binary64_checks st = true ->
  window_ok_b st = true /\ successors_ok_b st = true
  /\ search_stops_b st = negb (search_continues st).
Proof.
  unfold binary64_checks. rewrite !andb_true_iff, Bool.eqb_true_iff.
  intros [[Hw Hs] He]. now rewrite He.
Qed.

Lemma search_turn_best_binary64 (p : probe (A:=float)) (st : search_state) :
  binary64_checks st = true ->
  PrimFloat.leb (best_throughput st) (best_throughput (search_turn p st)) = true.
Proof.
  intros Hc. apply binary64_checks_split in Hc as (Hw & Hs & _).
  unfold window_ok_b in Hw. unfold successors_ok_b in Hs.
  rewrite !andb_true_iff in Hw, Hs.
  destruct Hw as [_ Hrefl]. destruct Hs as [[_ Hup] Hdown].
  unfold search_turn. destruct (search_continues st); [|exact Hrefl].
  destruct (search_iteration_cases p st) as [-> | ->]; assumption.
Qed.

(** While the test holds the loop and the iterated body agree. *)
Lemma search_loop_after {A : Type} `{Num A} (m : nat) (p : probe) :
  (forall j, (j < m)%nat -> search_continues (search_after j p) = true) ->
  search_loop m p search_init = search_after m p.
Proof.
  induction m as [|m IH]; intros Hc; [reflexivity|].
  rewrite search_loop_S, IH by (intros; apply Hc; lia).
  unfold search_turn. rewrite Hc by lia. reflexivity.
Qed.

(** The window of a state, and the exact halving of it by an iteration, in
    binary64. *)
Lemma search_iteration_halves_binary64 (p : probe (A:=float)) (st : search_state) :
  binary64_checks st = true ->
  PrimFloat.eqb
    (PrimFloat.sub (max_mbps (search_iteration p st)) (min_mbps (search_iteration p st)))
    (PrimFloat.div (PrimFloat.sub (max_mbps st) (min_mbps st)) 2) = true.
Proof.
  intros Hc. apply binary64_checks_split in Hc as (_ & Hs & _).
  unfold successors_ok_b in Hs. rewrite !andb_true_iff in Hs.
  destruct Hs as [[[Hup Hdown] _] _].
  destruct (search_iteration_cases p st) as [-> | ->]; assumption.
Qed.

(** ** The search window (claim C2) *)

(** C2 as stated fails on the code: [best] starts at 0 and the lower bound
    at 1, so until a probe passes (and to the end, if none does) the lower
    bound is above [best].  Shown at the start of both searches and at the
    end of both with a probe that always reports 5% loss. *)
Lemma lower_bound_above_best :
  (best_throughput (A:=Q) search_init < min_mbps search_init)%Q
  /\ (best_rate (A:=Q) throughput_init < min_rate throughput_init)%Q
  /\ (best_throughput (search_final (A:=float) (fun _ _ => Some (nofZ 5)))
      <? min_mbps (search_final (A:=float) (fun _ _ => Some (nofZ 5))))%num = true
  /\ (best_rate (test_rfc2544_throughput (A:=float) (fun _ _ => Some (nofZ 5)))
      <? min_rate (test_rfc2544_throughput (A:=float) (fun _ _ => Some (nofZ 5))))%num = true.
Proof. repeat split; vm_compute; reflexivity. Qed.

(** C2, amended.  Throughout every run of either rate search the state
    satisfies best ≤ low ≤ high (with 1 ≤ low and high ≤ 1000), where
    [best] is 0 as long as no probe has passed and the lower bound itself
    afterwards; and [best] never decreases from one iteration to the next.
    The states of a run are those after [k] turns of the loop.  Proved in
    exact arithmetic (first part, both searches) and in binary64 (second
    part for [binary_search_throughput], third part for the ten iterations
    of [test_rfc2544_throughput]). *)
Theorem best_below_window :
  (forall p : probe (A:=Q),
      (forall k : nat,
          let st := search_loop k p search_init in
          (best_throughput st <= min_mbps st)%Q
          /\ window_ok (min_mbps st) (max_mbps st) (best_throughput st)
          /\ (best_throughput st <= best_throughput (search_loop (S k) p search_init))%Q)
      /\ (forall k : nat,
             let st := throughput_loop (List.map Z.of_nat (List.seq 0 k)) p throughput_init in
             (best_rate st <= min_rate st)%Q
             /\ window_ok (min_rate st) (max_rate st) (best_rate st)
             /\ (best_rate st
                 <= best_rate (throughput_loop (List.map Z.of_nat (List.seq 0 (S k))) p
                                 throughput_init))%Q))
  /\ (forall (p : probe (A:=float)) (k : nat),
         let st := search_loop k p search_init in
         window_ok_b st = true
         /\ PrimFloat.leb (best_throughput st)
              (best_throughput (search_loop (S k) p search_init)) = true)
  /\ (forall (p : probe (A:=float)) (k : nat),
         (k <= 10)%nat ->
         let st := throughput_loop (List.map Z.of_nat (List.seq 0 k)) p throughput_init in
         rates_ok_b (min_rate st) (max_rate st) (best_rate st) = true
         /\ PrimFloat.leb (best_rate st)
              (best_rate (throughput_loop (List.map Z.of_nat (List.seq 0 (S k))) p
                            throughput_init)) = true).
Proof.
  split; [|split].
  - intros p. split; intros k st.
    + pose proof (search_loop_window k p) as Hw. fold st in Hw.
      split; [now apply window_ok_best_le with (max_mbps st)|]. split; [exact Hw|].
      rewrite search_loop_S. fold st. now apply search_turn_window.
    + destruct (throughput_loop_window (List.map Z.of_nat (List.seq 0 k)) p throughput_init
                  throughput_init_window) as [Hw _]. fold st in Hw.
      split; [now apply window_ok_best_le with (max_rate st)|]. split; [exact Hw|].
      rewrite seq_S, List.map_app.
      destruct (throughput_loop_app (List.map Z.of_nat (List.seq 0 k))
                  (List.map Z.of_nat [(0 + k)%nat]) p throughput_init) as [-> | ->].
      * apply Qle_refl.
      * fold st. now apply throughput_loop_window.
  - intros p k st. pose proof (search_loop_binary64 p k) as Hc. fold st in Hc.
    split; [now apply binary64_checks_split in Hc|].
    rewrite search_loop_S. fold st. now apply search_turn_best_binary64.
  - intros p k Hk st.
    assert (Hc : rates_ok_b (min_rate st) (max_rate st) (best_rate st) = true).
    { apply (throughput_tree_sound 10 rates_ok_b); [exact throughput_tree_binary64|].
      rewrite length_map, length_seq. exact Hk. }
    split; [exact Hc|].
    unfold rates_ok_b in Hc. rewrite !andb_true_iff in Hc.
    destruct Hc as [[_ Hrefl] Hmid].
    rewrite seq_S, List.map_app.
    destruct (throughput_loop_app (List.map Z.of_nat (List.seq 0 k))
                (List.map Z.of_nat [(0 + k)%nat]) p throughput_init) as [-> | ->].
    + exact Hrefl.
    + fold st. cbn [List.map].
      destruct (throughput_step_best (Z.of_nat (0 + k)) p st) as [-> | ->]; assumption.
Qed.

Lemma best_below_window_witness :
  let st := throughput_loop (List.map Z.of_nat (List.seq 0 3))
              (fun _ rate => Some (if PrimFloat.ltb rate 300 then 0%float else 5%float))
              throughput_init in
  rates_ok_b (min_rate st) (max_rate st) (best_rate st) = true
  /\ PrimFloat.leb (best_rate st)
       (best_rate (throughput_loop (List.map Z.of_nat (List.seq 0 4))
                     (fun _ rate => Some (if PrimFloat.ltb rate 300 then 0%float else 5%float))
                     throughput_init)) = true.
Proof.
  apply (proj2 (proj2 best_below_window)
           (fun _ rate => Some (if PrimFloat.ltb rate 300 then 0%float else 5%float)) 3%nat).
  lia.
Defined.

(** ** Halving and stopping (claim C8) *)

(** C8.  With a probe that never fails, each iteration of
    [binary_search_throughput] sets the lower or the upper bound to the
    midpoint and so halves the window [high - low]; and the loop ends in
    the state after [n] iterations, for the first [n] at which
    [(high-low)/high < tolerance] holds or the iteration count is
    [max_iterations] = 20: the condition holds after [n] iterations and
    after no fewer.  The result does not depend on the fuel of the model
    once it is 20 or more.  Proved in exact arithmetic (first part: the
    bounds are dyadic rationals, on which the test
    [(high-low)/high > tolerance] of the code fails exactly when the
    condition of the specification holds) and in binary64 (second part,
    where the halving is exact as well).  The code halves the window on a
    failed probe too; the hypothesis is the claim's. *)
Theorem search_halves_and_stops :
  (forall p : probe (A:=Q),
      never_fails p ->
      (forall st : search_state,
          let mid := ((min_mbps st + max_mbps st) / 2)%Q in
          let st' := search_iteration p st in
          (max_mbps st' - min_mbps st' == (max_mbps st - min_mbps st) / 2)%Q
          /\ ((min_mbps st' = mid /\ max_mbps st' = max_mbps st)
              \/ (max_mbps st' = mid /\ min_mbps st' = min_mbps st)))
      /\ exists n : nat,
          (n <= 20)%nat
          /\ search_final p = search_after n p
          /\ iterations (search_final p) = Z.of_nat n
          /\ search_stops (search_after n p)
          /\ (forall m : nat, (m < n)%nat -> ~ search_stops (search_after m p))
          /\ (forall fuel : nat, (20 <= fuel)%nat ->
                                 search_loop fuel p search_init = search_final p))
  /\ (forall p : probe (A:=float),
         never_fails p ->
         exists n : nat,
           (n <= 20)%nat
           /\ search_final p = search_after n p
           /\ search_stops_b (search_after n p) = true
           /\ (forall m : nat,
                  (m < n)%nat ->
                  search_stops_b (search_after m p) = false
                  /\ PrimFloat.eqb
                       (PrimFloat.sub (max_mbps (search_after (S m) p))
                          (min_mbps (search_after (S m) p)))
                       (PrimFloat.div
                          (PrimFloat.sub (max_mbps (search_after m p))
                             (min_mbps (search_after m p))) 2) = true)).
Proof.
  split.
  - intros p _. split; [intros st; apply search_iteration_halves|].
    destruct (search_loop_unroll 20 0 p) as (n & Hn & Hrun & Hbefore & Hat).
    exists n. split; [lia|]. split; [exact Hrun|]. split; [|split; [|split]].
    + unfold search_final. change (Z.to_nat max_iterations) with 20%nat.
      change search_init with (search_after 0 p). rewrite Hrun.
      apply search_after_iterations.
    + destruct (Nat.eq_dec n 20%nat) as [Heq|Hne].
      * right. rewrite search_after_iterations, Heq. reflexivity.
      * apply search_continues_stops; [lia|]. apply Hat. lia.
    + intros m Hm Hstop. apply search_continues_stops in Hstop; [|lia].
      rewrite Hbefore in Hstop by lia. discriminate.
    + intros fuel Hfuel. apply (search_loop_fuel fuel p search_init).
      change (Z.to_nat (max_iterations - iterations search_init)) with 20%nat. exact Hfuel.
  - intros p _.
    destruct (search_loop_unroll 20 0 p) as (n & Hn & Hrun & Hbefore & Hat).
    assert (Hchecks : forall m, (m <= n)%nat -> binary64_checks (search_after m p) = true).
    { intros m Hm. rewrite <- search_loop_after by (intros; apply Hbefore; lia).
      apply search_loop_binary64. }
    exists n. split; [lia|]. split; [exact Hrun|]. split.
    + destruct (binary64_checks_split _ (Hchecks n ltac:(lia))) as (_ & _ & ->).
      destruct (search_continues (search_after n p)) eqn:E; [exfalso|reflexivity].
      pose proof (search_continues_iterations _ E) as Hit.
      rewrite search_after_iterations in Hit. unfold max_iterations in Hit.
      pose proof (Hat ltac:(lia)) as Hf. congruence.
    + intros m Hm. split.
      * destruct (binary64_checks_split _ (Hchecks m ltac:(lia))) as (_ & _ & ->).
        rewrite Hbefore by lia. reflexivity.
      * rewrite search_after_S. apply search_iteration_halves_binary64.
        apply Hchecks. lia.
Qed.

Lemma search_halves_and_stops_witness :
  (forall st : search_state,
      let mid := ((min_mbps st + max_mbps st) / 2)%Q in
      let st' := search_iteration (A:=Q) (fun _ _ => Some 0%Q) st in
      (max_mbps st' - min_mbps st' == (max_mbps st - min_mbps st) / 2)%Q
      /\ ((min_mbps st' = mid /\ max_mbps st' = max_mbps st)
          \/ (max_mbps st' = mid /\ min_mbps st' = min_mbps st)))
  /\ exists n : nat,
      (n <= 20)%nat
      /\ search_final (A:=Q) (fun _ _ => Some 0%Q) = search_after n (fun _ _ => Some 0%Q)
      /\ iterations (search_final (A:=Q) (fun _ _ => Some 0%Q)) = Z.of_nat n
      /\ search_stops (search_after n (fun _ _ => Some 0%Q))
      /\ (forall m : nat, (m < n)%nat -> ~ search_stops (search_after m (fun _ _ => Some 0%Q)))
      /\ (forall fuel : nat, (20 <= fuel)%nat ->
                             search_loop fuel (fun _ _ => Some 0%Q) search_init
                             = search_final (fun _ _ => Some 0%Q)).
Proof.
  apply (proj1 search_halves_and_stops (fun _ _ => Some 0%Q)).
  intros i rate. discriminate.
Defined.

(** ** Further properties *)

(** X2.  Empty input never yields statistics: [percentile] raises [IndexError]
    on an empty list for every percentile, [calculate_stats] raises
    ([min] of an empty list), and [test_latency_icmp] returns [None]
    when ping gave no latency. *)
Theorem empty_input_gives_no_statistics :
  (forall p : Q, percentile (A:=Q) [] p = Raise IndexError)
  /\ (forall (A : Type) (N : Num A) (L : StatisticsLib A) (label : string),
         calculate_stats (A:=A) [] label = Raise ValueError)
  /\ (forall (A : Type) (N : Num A) (L : StatisticsLib A) (frame_size : Z),
         test_latency_icmp (A:=A) (Some []) frame_size = Ret None
         /\ test_latency_icmp (A:=A) None frame_size = Ret None).
Proof.
  split; [|split].
  - intros p. unfold percentile. cbn [sorted List.length].
    change (ntrunc ?x) with (Ret (Qtrunc x)). rewrite bind_Ret.
    set (floor := Qtrunc _).
    assert (Hidx : forall i : Z, Py.index (A:=Q) [] i = Raise IndexError).
    { intros i. unfold Py.index. cbn [List.length]. change (Z.of_nat 0) with 0%Z.
      set (j := if (i <? 0)%Z then (i + 0)%Z else i).
      destruct (Z.ltb_spec j 0) as [_|Hj]; [reflexivity|].
      destruct (Z.leb_spec 0 j) as [_|Hj']; [reflexivity | lia]. }
    destruct (Z.of_nat 0 <=? floor + 1)%Z; [apply Hidx|].
    rewrite !Hidx. reflexivity.
  - intros A N L label. reflexivity.
  - intros A N L frame_size. split; reflexivity.
Qed.

(** X3.  Selecting between a path and itself gives the path back, and in exact
    arithmetic every selected latency is at most the latencies of both
    paths at its index. *)
Theorem frer_selection_is_pointwise_min :
  (forall (A : Type) (N : Num A) (path : list A),
      calculate_frer_latencies path path = path)
  /\ (forall (path1 path2 : list Q) (i : nat) (p1 p2 v : Q),
         nth_error path1 i = Some p1 -> nth_error path2 i = Some p2 ->
         nth_error (calculate_frer_latencies path1 path2) i = Some v ->
         (v <= p1)%Q /\ (v <= p2)%Q /\ (v = p1 \/ v = p2)).
Proof.
  split.
  - intros A N path. unfold calculate_frer_latencies.
    induction path as [|x path IH]; [reflexivity|].
    cbn [Py.zip List.map]. rewrite IH. now destruct (nltb x x).
  - intros path1 path2 i p1 p2 v H1 H2 Hv.
    unfold calculate_frer_latencies in Hv.
    rewrite nth_error_map, (zip_nth_error _ _ _ _ _ H1 H2) in Hv.
    injection Hv as <-. change (nltb p2 p1) with (Qltb p2 p1).
    destruct (Qltb p2 p1) eqn:E.
    + apply Qltb_lt in E. repeat split; [lra | lra | now right].
    + apply Qltb_ge in E. repeat split; [lra | lra | now left].
Qed.

Lemma frer_selection_is_pointwise_min_witness :
  ((2 # 5) <= (2 # 5))%Q /\ ((2 # 5) <= (9 # 20))%Q
  /\ ((2 # 5)%Q = (2 # 5)%Q \/ (2 # 5)%Q = (9 # 20)%Q).
Proof.
  apply (proj2 frer_selection_is_pointwise_min [2 # 5; 1 # 2]%Q [9 # 20]%Q 0%nat
           (2 # 5)%Q (9 # 20)%Q (2 # 5)%Q); reflexivity.
Defined.

(* ===================================================================== *)
(** * Further properties of the code *)
(* ===================================================================== *)
(** ** Sequence analysis of a capture *)




















(** ** Sending replicated frames *)

Section FrameSendingProperties.

Context {A : Type} `{Num A}.
Variable net : network.









Lemma send_frame_in_range (self self' : frer_test) (v v' : send_vars) :
  send_frame net self v = Some (self', v') ->
  0 <= sequence_number self < 2 ^ 32 /\ sequence_number self' = sequence_number self + 1.
Proof.
  unfold send_frame, FRERTest_create_frer_packet, struct_pack_HHI.
  cbn [primary_iface secondary_iface sequence_number].
  destruct (get_if_hwaddr net _); [|discriminate].
  destruct (Z.leb_spec 0 (sequence_number self)); [|discriminate].
  destruct (Z.ltb_spec (sequence_number self) (2 ^ 32)); [|discriminate].
  cbn [andb Z.leb Z.ltb Z.compare Z.pow Z.pow_pos Pos.iter Z.mul Pos.mul Pos.compare Pos.compare_cont].
  intros Heq. split; [lia|].
  destruct (sendp net _ false _); [destruct (truthy _); [destruct (sendp net _ true _)|]|];
    injection Heq as <- _; reflexivity.
Qed.

Lemma send_frames_past_range (n : nat) (self : frer_test) (v : send_vars) :
  (0 < n)%nat -> 2 ^ 32 < sequence_number self + Z.of_nat n ->
  send_frames net n self v = None.
Proof.
  revert self v. induction n as [|n IH]; intros self v Hn Hpast; [lia|].
  cbn [send_frames]. destruct (send_frame net self v) as [[self1 v1]|] eqn:E; [|reflexivity].
  apply send_frame_in_range in E as [Hr Hq]. apply IH; lia.
Qed.





End FrameSendingProperties.



(** X8.  The sequence number does not wrap: a call that would use a
    sequence number of 2^32 or more raises (the [struct.error] of
    [create_frer_packet], outside the [try]) instead of returning
    statistics. *)
Theorem sequence_number_does_not_wrap :
  forall (A : Type) (N : Num A) (net : network) (self : frer_test) (count : Z) (duration : A),
    0 < count -> 2 ^ 32 < sequence_number self + count ->
    send_replicated_frames net self count duration = None.
Proof.
  intros A N net self count duration Hc Hpast. unfold send_replicated_frames.
  rewrite send_frames_past_range; [reflexivity | lia | lia].
Qed.

Lemma sequence_number_does_not_wrap_witness :
  send_replicated_frames (A:=Q) example_network (example_test (2 ^ 32 - 1)) 2 (1 # 500)%Q = None.
Proof.
  apply (sequence_number_does_not_wrap Q QNum example_network (example_test (2 ^ 32 - 1)) 2);
    [lia | vm_compute; reflexivity].
Defined.





(** ** Nearest-rank percentiles *)

Lemma rank_index (n : Z) (q : Q) :
  0 <= n -> (0 <= q)%Q ->
  ntrunc (A:=Q) (nofZ n * q)%num = Ret (Qfloor (inject_Z n * q)).
Proof.
  intros Hn Hq. change (ntrunc (A:=Q) ?x) with (Ret (Qtrunc x)).
  change (nofZ n * q)%num with (inject_Z n * q)%Q.
  rewrite Qtrunc_floor; [reflexivity|].
  apply Qmult_le_0_compat; [|exact Hq].
  change 0%Q with (inject_Z 0). rewrite <- Zle_Qle. exact Hn.
Qed.

Lemma rank_bounds (n : Z) (q : Q) :
  1 <= n -> (0 <= q)%Q -> (q < 1)%Q -> 0 <= Qfloor (inject_Z n * q) <= n - 1.
Proof.
  intros Hn Hq0 Hq1.
  assert (Hn' : (0 < inject_Z n)%Q) by (change 0%Q with (inject_Z 0); rewrite <- Zlt_Qlt; lia).
  split.
  - apply (Qfloor_resp_le 0). apply Qmult_le_0_compat; [now apply Qlt_le_weak | exact Hq0].
  - pose proof (Qfloor_le (inject_Z n * q)) as Hfl.
    assert (Hlt : (inject_Z n * q < inject_Z n)%Q).
    { apply Qlt_le_trans with (inject_Z n * 1)%Q; [|rewrite Qmult_1_r; apply Qle_refl].
      rewrite !(Qmult_comm (inject_Z n)). now apply Qmult_lt_compat_r. }
    assert (Hz : (inject_Z (Qfloor (inject_Z n * q)) < inject_Z n)%Q)
      by (eapply Qle_lt_trans; eassumption).
    rewrite <- Zlt_Qlt in Hz. lia.
Qed.

Lemma rank_mono (n : Z) (q q' : Q) :
  0 <= n -> (q <= q')%Q -> Qfloor (inject_Z n * q) <= Qfloor (inject_Z n * q').
Proof.
  intros Hn Hq. apply Qfloor_resp_le. rewrite !(Qmult_comm (inject_Z n)).
  apply Qmult_le_compat_r; [exact Hq|].
  change 0%Q with (inject_Z 0). rewrite <- Zle_Qle. exact Hn.
Qed.

Lemma rank_half (n : Z) (q : Q) :
  0 <= n -> ((1 # 2) <= q)%Q -> n / 2 <= Qfloor (inject_Z n * q).
Proof.
  intros Hn Hq. rewrite <- (Qfloor_Z (n / 2)). apply Qfloor_resp_le.
  apply Qle_trans with (inject_Z n * (1 # 2))%Q.
  - assert (H2 : (inject_Z 2 * inject_Z (n / 2) <= inject_Z n)%Q).
    { rewrite <- inject_Z_mult, <- Zle_Qle. pose proof (Z.mul_div_le n 2 ltac:(lia)). lia. }
    change (inject_Z 2) with 2%Q in H2. set (h := inject_Z (n / 2)) in *.
    set (m := inject_Z n) in *. lra.
  - rewrite !(Qmult_comm (inject_Z n)). apply Qmult_le_compat_r; [exact Hq|].
    change 0%Q with (inject_Z 0). rewrite <- Zle_Qle. exact Hn.
Qed.

(** [statistics.median] lies between the two middle elements. *)
Lemma statistics_median_middle (data : list Q) :
  data <> [] ->
  exists v, statistics_median data = Ret v
    /\ (v <= List.nth (Z.to_nat (Z.of_nat (List.length data) / 2)) (sorted data) 0)%Q.
Proof.
  intros Hne. pose proof (sorted_nonempty_length data Hne) as Hn.
  pose proof (sorted_ascending data) as Hasc.
  unfold statistics_median. rewrite <- (sorted_length data).
  set (s := sorted data) in *. set (n := Z.of_nat (List.length s)) in *.
  destruct (Z.eqb_spec n 0) as [|_]; [lia|].
  assert (Hhalf : 0 <= n / 2 < n) by (split; [apply Z.div_pos; lia | apply Z.div_lt_upper_bound; lia]).
  destruct (Z.eqb_spec (n mod 2) 1) as [Hodd|Heven].
  - rewrite (index_nth s (n / 2) 0%Q) by lia. eexists. split; [reflexivity | apply Qle_refl].
  - assert (1 <= n / 2).
    { pose proof (Z.div_mod n 2 ltac:(lia)). pose proof (Z.mod_pos_bound n 2 ltac:(lia)). lia. }
    rewrite (index_nth s (n / 2 - 1) 0%Q) by lia.
    rewrite (index_nth s (n / 2) 0%Q) by lia. rewrite !bind_Ret.
    eexists. split; [reflexivity|].
    pose proof (at_le s Hasc (n / 2 - 1) (n / 2) ltac:(lia) ltac:(fold n; lia)) as Hle.
    change (nofZ 2) with 2%Q.
    change (?a + ?b)%num with (a + b)%Q. change (?a / ?b)%num with (a / b)%Q.
    apply Qle_shift_div_r; [reflexivity|].
    set (a := List.nth (Z.to_nat (n / 2 - 1)) s 0%Q) in *.
    set (b := List.nth (Z.to_nat (n / 2)) s 0%Q) in *. lra.
Qed.

Lemma index_last {X : Type} (l : list X) (d : X) :
  l <> [] -> Py.index l (-1) = Ret (List.nth (Z.to_nat (Z.of_nat (List.length l) - 1)) l d).
Proof.
  intros Hne. assert (1 <= Z.of_nat (List.length l)) by (destruct l; [congruence | cbn; lia]).
  unfold Py.index. cbn [Z.ltb Z.compare].
  destruct (Z.ltb_spec (-1 + Z.of_nat (List.length l)) 0); [lia|].
  destruct (Z.leb_spec (Z.of_nat (List.length l)) (-1 + Z.of_nat (List.length l))); [lia|].
  cbn [orb]. replace (-1 + Z.of_nat (List.length l)) with (Z.of_nat (List.length l) - 1) by lia.
  destruct (nth_error l (Z.to_nat (Z.of_nat (List.length l) - 1))) eqn:E.
  - now rewrite (nth_error_nth _ _ d E).
  - apply nth_error_None in E. lia.
Qed.

Lemma statistics_mean_returns {A : Type} `{StatisticsLib A} (data : list A) :
  data <> [] -> statistics_mean data = Ret (mean_value data).
Proof.
  intros Hne. unfold statistics_mean.
  destruct (Z.ltb_spec (Z.of_nat (List.length data)) 1); [|reflexivity].
  destruct data; [congruence | cbn in *; lia].
Qed.

Lemma guarded_stdev_returns {A : Type} `{Num A} `{StatisticsLib A} (data : list A) :
  exists v, (if 1 <? Z.of_nat (List.length data)
             then statistics_stdev data else Ret (nofZ 0)) = Ret v.
Proof.
  destruct (Z.ltb_spec 1 (Z.of_nat (List.length data))); [|eexists; reflexivity].
  unfold statistics_stdev.
  destruct (Z.ltb_spec (Z.of_nat (List.length data)) 2); [lia | eexists; reflexivity].
Qed.

(** X11.  [test_rfc2544_latency_detailed] (quick_test.py), exact arithmetic:
    on a non-empty list of latencies every index [int(len * q)] is in
    range, each percentile is one of the samples, and
    min <= percentile_50 <= percentile_95 <= percentile_99 <= percentile_999
    <= max with median <= percentile_50; below 1000 samples percentile_999
    is the maximum. *)
Theorem nearest_rank_percentiles_ordered :
  forall (L : StatisticsLib Q) (frame_size : Z) (latencies : list Q),
    latencies <> [] ->
    exists e : QuickTest.latency_stats Q,
      QuickTest.latency_stats_of frame_size latencies = Ret (Some e)
      /\ In (QuickTest.percentile_50 e) latencies
      /\ In (QuickTest.percentile_95 e) latencies
      /\ In (QuickTest.percentile_99 e) latencies
      /\ In (QuickTest.percentile_999 e) latencies
      /\ (QuickTest.min_ms e <= QuickTest.percentile_50 e)%Q
      /\ (QuickTest.median_ms e <= QuickTest.percentile_50 e)%Q
      /\ (QuickTest.percentile_50 e <= QuickTest.percentile_95 e)%Q
      /\ (QuickTest.percentile_95 e <= QuickTest.percentile_99 e)%Q
      /\ (QuickTest.percentile_99 e <= QuickTest.percentile_999 e)%Q
      /\ (QuickTest.percentile_999 e <= QuickTest.max_ms e)%Q
      /\ ((List.length latencies < 1000)%nat ->
          (QuickTest.percentile_999 e == QuickTest.max_ms e)%Q).
Proof.
  intros L frame_size latencies Hne.
  destruct (py_min_spec latencies Hne) as (lo & Hmin & _ & Hlo).
  destruct (py_max_spec latencies Hne) as (hi & Hmax & Hhi_in & Hhi).
  destruct (statistics_median_middle latencies Hne) as (md & Hmed & Hmd).
  destruct (guarded_stdev_returns latencies) as (sd & Hsd).
  pose proof (sorted_nonempty_length latencies Hne) as Hn.
  pose proof (sorted_ascending latencies) as Hasc.
  unfold QuickTest.latency_stats_of.
  destruct (Z.eqb_spec (Z.of_nat (List.length latencies)) 0) as [E|_].
  { rewrite sorted_length in Hn. lia. }
  rewrite Hmin, Hmax, (statistics_mean_returns latencies Hne), Hmed, Hsd, !bind_Ret.
  rewrite <- (sorted_length latencies) in Hmd.
  set (s := sorted latencies) in *. set (n := Z.of_nat (List.length s)) in *.
  assert (Hq50 : (0 <= nlit (A:=Q) 50 100)%Q /\ (nlit (A:=Q) 50 100 < 1)%Q
                 /\ ((1 # 2) <= nlit (A:=Q) 50 100)%Q) by (repeat split; vm_compute; congruence).
  assert (Hq95 : (0 <= nlit (A:=Q) 95 100)%Q /\ (nlit (A:=Q) 95 100 < 1)%Q
                 /\ (nlit (A:=Q) 50 100 <= nlit (A:=Q) 95 100)%Q)
    by (repeat split; vm_compute; congruence).
  assert (Hq99 : (0 <= nlit (A:=Q) 99 100)%Q /\ (nlit (A:=Q) 99 100 < 1)%Q
                 /\ (nlit (A:=Q) 95 100 <= nlit (A:=Q) 99 100)%Q)
    by (repeat split; vm_compute; congruence).
  assert (Hq999 : (0 <= nlit (A:=Q) 999 1000)%Q /\ (nlit (A:=Q) 999 1000 < 1)%Q
                  /\ (nlit (A:=Q) 99 100 <= nlit (A:=Q) 999 1000)%Q)
    by (repeat split; vm_compute; congruence).
  destruct Hq50 as (H50a & H50b & H50c). destruct Hq95 as (H95a & H95b & H95c).
  destruct Hq99 as (H99a & H99b & H99c). destruct Hq999 as (H999a & H999b & H999c).
  pose proof (rank_bounds n _ Hn H50a H50b) as B50.
  pose proof (rank_bounds n _ Hn H95a H95b) as B95.
  pose proof (rank_bounds n _ Hn H99a H99b) as B99.
  pose proof (rank_bounds n _ Hn H999a H999b) as B999.
  pose proof (rank_mono n _ _ ltac:(lia) H95c) as M95.
  pose proof (rank_mono n _ _ ltac:(lia) H99c) as M99.
  pose proof (rank_mono n _ _ ltac:(lia) H999c) as M999.
  pose proof (rank_half n _ ltac:(lia) H50c) as Mhalf.
  set (i50 := Qfloor (inject_Z n * nlit 50 100)) in *.
  set (i95 := Qfloor (inject_Z n * nlit 95 100)) in *.
  set (i99 := Qfloor (inject_Z n * nlit 99 100)) in *.
  set (i999 := Qfloor (inject_Z n * nlit 999 1000)) in *.
  rewrite (rank_index n (nlit 50 100)), (rank_index n (nlit 95 100)),
    (rank_index n (nlit 99 100)), (rank_index n (nlit 999 1000)) by (first [lia | assumption]).
  fold i50 i95 i99 i999. rewrite bind_Ret.
  rewrite (index_nth s i50 0%Q), !bind_Ret by (fold n; lia).
  rewrite (index_nth s i95 0%Q), !bind_Ret by (fold n; lia).
  rewrite (index_nth s i99 0%Q), !bind_Ret by (fold n; lia).
  assert (Hs_ne : s <> []) by (intros Hs; unfold n in Hn; rewrite Hs in Hn; cbn in Hn; lia).
  assert (Hin : forall i, 0 <= i < n -> In (List.nth (Z.to_nat i) s 0%Q) latencies).
  { intros i Hi. apply sorted_In. now apply at_In. }
  assert (Hle : forall i j, 0 <= i <= j -> j < n ->
                            (List.nth (Z.to_nat i) s 0 <= List.nth (Z.to_nat j) s 0)%Q).
  { intros i j Hij Hj. now apply at_le. }
  assert (Hhalf : 0 <= n / 2) by (apply Z.div_pos; lia).
  destruct (Z.leb_spec 1000 n) as [Hbig|Hsmall].
  - rewrite (index_nth s i999 0%Q), !bind_Ret by (fold n; lia).
    eexists. split; [reflexivity|].
    cbn [QuickTest.percentile_50 QuickTest.percentile_95 QuickTest.percentile_99
         QuickTest.percentile_999 QuickTest.min_ms QuickTest.max_ms QuickTest.median_ms].
    repeat split; try (apply Hin; lia); try (apply Hle; lia).
    + apply Hlo, Hin. lia.
    + eapply Qle_trans; [exact Hmd|]. apply Hle; lia.
    + apply Hhi, Hin. lia.
    + intros Hlen. unfold n, s in Hbig. rewrite sorted_length in Hbig. lia.
  - rewrite (index_last s 0%Q Hs_ne), !bind_Ret. fold n.
    eexists. split; [reflexivity|].
    cbn [QuickTest.percentile_50 QuickTest.percentile_95 QuickTest.percentile_99
         QuickTest.percentile_999 QuickTest.min_ms QuickTest.max_ms QuickTest.median_ms].
    repeat split; try (apply Hin; lia); try (apply Hle; lia).
    + apply Hlo, Hin. lia.
    + eapply Qle_trans; [exact Hmd|]. apply Hle; lia.
    + apply Hhi, Hin. lia.
    + intros _. apply Qle_antisym; [apply Hhi, Hin; lia|].
      apply sorted_In in Hhi_in. apply (In_nth _ _ 0%Q) in Hhi_in as (k & Hk & <-).
      fold s in Hk |- *.
      replace k with (Z.to_nat (Z.of_nat k)) by lia. apply Hle; lia.
Qed.

Lemma nearest_rank_percentiles_ordered_witness :
  exists e : QuickTest.latency_stats Q,
    @QuickTest.latency_stats_of Q QNum unused_lib_Q 64 [1 # 2; 3 # 10; 2 # 5]%Q = Ret (Some e)
    /\ In (QuickTest.percentile_50 e) [1 # 2; 3 # 10; 2 # 5]%Q
    /\ In (QuickTest.percentile_95 e) [1 # 2; 3 # 10; 2 # 5]%Q
    /\ In (QuickTest.percentile_99 e) [1 # 2; 3 # 10; 2 # 5]%Q
    /\ In (QuickTest.percentile_999 e) [1 # 2; 3 # 10; 2 # 5]%Q
    /\ (QuickTest.min_ms e <= QuickTest.percentile_50 e)%Q
    /\ (QuickTest.median_ms e <= QuickTest.percentile_50 e)%Q
    /\ (QuickTest.percentile_50 e <= QuickTest.percentile_95 e)%Q
    /\ (QuickTest.percentile_95 e <= QuickTest.percentile_99 e)%Q
    /\ (QuickTest.percentile_99 e <= QuickTest.percentile_999 e)%Q
    /\ (QuickTest.percentile_999 e <= QuickTest.max_ms e)%Q
    /\ ((List.length [1 # 2; 3 # 10; 2 # 5]%Q < 1000)%nat ->
        (QuickTest.percentile_999 e == QuickTest.max_ms e)%Q).
Proof.
  apply (nearest_rank_percentiles_ordered unused_lib_Q 64 [1 # 2; 3 # 10; 2 # 5]%Q).
  discriminate.
Defined.

Lemma ranks_in_range_binary64 :
  forallb ranks_in_range_b (List.map Z.of_nat (List.seq 1 (Z.to_nat 10000))) = true.
Proof. vm_compute. reflexivity. Qed.

Lemma ranks_in_range (n : Z) :
  1 <= n <= 10000 ->
  exists i50 i95 i99 i999,
    ntrunc (A:=float) (nofZ n * nlit 50 100)%num = Ret i50
    /\ ntrunc (A:=float) (nofZ n * nlit 95 100)%num = Ret i95
    /\ ntrunc (A:=float) (nofZ n * nlit 99 100)%num = Ret i99
    /\ ntrunc (A:=float) (nofZ n * nlit 999 1000)%num = Ret i999
    /\ 0 <= i50 <= i95 /\ i95 <= i99 /\ i99 <= i999 /\ i999 < n.
Proof.
  intros Hn. pose proof ranks_in_range_binary64 as Hall.
  rewrite forallb_forall in Hall. specialize (Hall n).
  assert (Hin : In n (List.map Z.of_nat (List.seq 1 (Z.to_nat 10000)))).
  { apply in_map_iff. exists (Z.to_nat n). split; [lia|]. apply in_seq. lia. }
  apply Hall in Hin. unfold ranks_in_range_b in Hin.
  destruct (ntrunc (nofZ n * nlit 50 100)%num) as [i50|]; [|discriminate].
  destruct (ntrunc (nofZ n * nlit 95 100)%num) as [i95|]; [|discriminate].
  destruct (ntrunc (nofZ n * nlit 99 100)%num) as [i99|]; [|discriminate].
  destruct (ntrunc (nofZ n * nlit 999 1000)%num) as [i999|]; [|discriminate].
  exists i50, i95, i99, i999. repeat (split; [reflexivity|]).
  rewrite !andb_true_iff, !Z.leb_le, Z.ltb_lt in Hin. lia.
Qed.

Lemma statistics_median_returns_any {A : Type} `{Num A} (data : list A) :
  data <> [] -> exists v, statistics_median data = Ret v.
Proof.
  intros Hne. unfold statistics_median.
  assert (Hn : 1 <= Z.of_nat (List.length (sorted data))).
  { rewrite sorted_length. destruct data; [congruence | cbn; lia]. }
  assert (Hd : exists d : A, True) by (destruct data as [|d rest]; [congruence | now exists d]).
  destruct Hd as [d _].
  set (s := sorted data) in *. set (n := Z.of_nat (List.length s)) in *.
  destruct (Z.eqb_spec n 0) as [|_]; [lia|].
  assert (Hhalf : 0 <= n / 2 < n) by (split; [apply Z.div_pos; lia | apply Z.div_lt_upper_bound; lia]).
  destruct (Z.eqb_spec (n mod 2) 1) as [Hodd|Heven].
  - rewrite (index_nth s (n / 2) d) by (fold n; lia). eexists. reflexivity.
  - assert (1 <= n / 2).
    { pose proof (Z.div_mod n 2 ltac:(lia)). pose proof (Z.mod_pos_bound n 2 ltac:(lia)). lia. }
    rewrite (index_nth s (n / 2 - 1) d) by (fold n; lia).
    rewrite (index_nth s (n / 2) d) by (fold n; lia). rewrite !bind_Ret.
    eexists. reflexivity.
Qed.

Lemma quick_test_percentiles_binary64 :
  forall (L : StatisticsLib float) (frame_size : Z) (latencies : list float),
    1 <= Z.of_nat (List.length latencies) <= 10000 ->
    exists e : QuickTest.latency_stats float,
      QuickTest.latency_stats_of frame_size latencies = Ret (Some e)
      /\ QuickTest.count e = Z.of_nat (List.length latencies)
      /\ In (QuickTest.percentile_50 e) latencies
      /\ In (QuickTest.percentile_95 e) latencies
      /\ In (QuickTest.percentile_99 e) latencies
      /\ In (QuickTest.percentile_999 e) latencies.
Proof.
  intros L frame_size latencies Hlen.
  assert (Hne : latencies <> []) by (destruct latencies; [cbn in Hlen; lia | congruence]).
  destruct (statistics_median_returns_any latencies Hne) as (md & Hmed).
  destruct (guarded_stdev_returns latencies) as (sd & Hsd).
  unfold QuickTest.latency_stats_of.
  destruct (Z.eqb_spec (Z.of_nat (List.length latencies)) 0) as [E|_]; [lia|].
  assert (Hmin : exists lo, py_min latencies = Ret lo)
    by (destruct latencies; [congruence | eexists; reflexivity]).
  assert (Hmax : exists hi, py_max latencies = Ret hi)
    by (destruct latencies; [congruence | eexists; reflexivity]).
  destruct Hmin as (lo & ->). destruct Hmax as (hi & ->).
  rewrite (statistics_mean_returns latencies Hne), Hmed, Hsd, !bind_Ret.
  rewrite sorted_length.
  destruct (ranks_in_range (Z.of_nat (List.length latencies)) ltac:(lia))
    as (i50 & i95 & i99 & i999 & -> & -> & -> & -> & B50 & B95 & B99 & B999).
  set (s := sorted latencies) in *.
  assert (Hs : Z.of_nat (List.length s) = Z.of_nat (List.length latencies))
    by (unfold s; now rewrite sorted_length).
  assert (Hd : exists d : float, True)
    by (destruct latencies as [|d rest]; [congruence | now exists d]).
  destruct Hd as [d _].
  assert (Hin : forall i, 0 <= i < Z.of_nat (List.length latencies) ->
                          In (List.nth (Z.to_nat i) s d) latencies).
  { intros i Hi. apply sorted_In. apply nth_In. unfold s. rewrite sorted_length. lia. }
  rewrite bind_Ret.
  rewrite (index_nth s i50 d), !bind_Ret by lia.
  rewrite (index_nth s i95 d), !bind_Ret by lia.
  rewrite (index_nth s i99 d), !bind_Ret by lia.
  assert (Hs_ne : s <> []) by (intros Hs0; rewrite Hs0 in Hs; cbn in Hs; lia).
  destruct (Z.leb_spec 1000 (Z.of_nat (List.length latencies))).
  - rewrite (index_nth s i999 d), !bind_Ret by lia.
    eexists. split; [reflexivity|].
    cbn [QuickTest.percentile_50 QuickTest.percentile_95 QuickTest.percentile_99
         QuickTest.percentile_999 QuickTest.count].
    repeat split; apply Hin; lia.
  - rewrite (index_last s d Hs_ne), !bind_Ret.
    eexists. split; [reflexivity|].
    cbn [QuickTest.percentile_50 QuickTest.percentile_95 QuickTest.percentile_99
         QuickTest.percentile_999 QuickTest.count].
    repeat split; apply Hin; lia.
Qed.

Lemma comprehensive_percentile_binary64 :
  forall (L : StatisticsLib float) (frame_size : Z) (latencies : list float),
    1 <= Z.of_nat (List.length latencies) <= 10000 ->
    exists e : Comprehensive.latency_stats float,
      Comprehensive.latency_stats_of frame_size latencies = Ret (Some e)
      /\ Comprehensive.count e = Z.of_nat (List.length latencies)
      /\ In (Comprehensive.percentile_99 e) latencies.
Proof.
  intros L frame_size latencies Hlen.
  assert (Hne : latencies <> []) by (destruct latencies; [cbn in Hlen; lia | congruence]).
  destruct (statistics_median_returns_any latencies Hne) as (md & Hmed).
  destruct (guarded_stdev_returns latencies) as (sd & Hsd).
  unfold Comprehensive.latency_stats_of.
  destruct (Z.eqb_spec (Z.of_nat (List.length latencies)) 0) as [E|_]; [lia|].
  assert (Hmin : exists lo, py_min latencies = Ret lo)
    by (destruct latencies; [congruence | eexists; reflexivity]).
  assert (Hmax : exists hi, py_max latencies = Ret hi /\ In hi latencies).
  { destruct latencies as [|x rest]; [congruence|]. eexists. split; [reflexivity|].
    clear. revert x. induction rest as [|y rest IH]; intros x; cbn [fold_left]; [now left|].
    destruct (IH (if (x <? y)%num then y else x)) as [Heq|Hin].
    - destruct (x <? y)%num; [right; left | left]; exact Heq.
    - right. now right. }
  destruct Hmin as (lo & ->). destruct Hmax as (hi & -> & Hhi).
  rewrite (statistics_mean_returns latencies Hne), Hmed, Hsd, !bind_Ret.
  destruct (ranks_in_range (Z.of_nat (List.length latencies)) ltac:(lia))
    as (i50 & i95 & i99 & i999 & _ & _ & -> & _ & B50 & B95 & B99 & B999).
  assert (Hd : exists d : float, True)
    by (destruct latencies as [|d rest]; [congruence | now exists d]).
  destruct Hd as [d _].
  destruct (Z.ltb_spec 100 (Z.of_nat (List.length latencies))).
  - rewrite bind_Ret, (index_nth (sorted latencies) i99 d), !bind_Ret
      by (rewrite sorted_length; lia).
    eexists. split; [reflexivity|]. cbn [Comprehensive.percentile_99 Comprehensive.count].
    split; [reflexivity|]. apply sorted_In, nth_In. rewrite sorted_length. lia.
  - rewrite !bind_Ret. eexists. split; [reflexivity|].
    cbn [Comprehensive.percentile_99 Comprehensive.count]. split; [reflexivity | exact Hhi].
Qed.

(** X12.  In binary64, for 1 to 10000 latencies, the nearest-rank
    percentiles of quick_test.py and of comprehensive_network_test.py are
    computed without an exception, and each is one of the samples: the
    products [len * 0.50], [len * 0.95], [len * 0.99] and [len * 0.999]
    truncate to indices below [len] (checked for every length). *)
Theorem nearest_rank_percentiles_binary64 :
  forall (L : StatisticsLib float) (frame_size : Z) (latencies : list float),
    1 <= Z.of_nat (List.length latencies) <= 10000 ->
    (exists e : QuickTest.latency_stats float,
        QuickTest.latency_stats_of frame_size latencies = Ret (Some e)
        /\ QuickTest.count e = Z.of_nat (List.length latencies)
        /\ In (QuickTest.percentile_50 e) latencies
        /\ In (QuickTest.percentile_95 e) latencies
        /\ In (QuickTest.percentile_99 e) latencies
        /\ In (QuickTest.percentile_999 e) latencies)
    /\ (exists e : Comprehensive.latency_stats float,
           Comprehensive.latency_stats_of frame_size latencies = Ret (Some e)
           /\ Comprehensive.count e = Z.of_nat (List.length latencies)
           /\ In (Comprehensive.percentile_99 e) latencies).
Proof.
  intros L frame_size latencies Hlen. split.
  - now apply quick_test_percentiles_binary64.
  - now apply comprehensive_percentile_binary64.
Qed.

Lemma nearest_rank_percentiles_binary64_witness :
  (exists e : QuickTest.latency_stats float,
      @QuickTest.latency_stats_of float F64 unused_lib_float 64 [0.5; 0.25; 0.75]%float
      = Ret (Some e)
      /\ QuickTest.count e = 3
      /\ In (QuickTest.percentile_50 e) [0.5; 0.25; 0.75]%float
      /\ In (QuickTest.percentile_95 e) [0.5; 0.25; 0.75]%float
      /\ In (QuickTest.percentile_99 e) [0.5; 0.25; 0.75]%float
      /\ In (QuickTest.percentile_999 e) [0.5; 0.25; 0.75]%float)
  /\ (exists e : Comprehensive.latency_stats float,
         @Comprehensive.latency_stats_of float F64 unused_lib_float 64 [0.5; 0.25; 0.75]%float
         = Ret (Some e)
         /\ Comprehensive.count e = 3
         /\ In (Comprehensive.percentile_99 e) [0.5; 0.25; 0.75]%float).
Proof.
  apply (nearest_rank_percentiles_binary64 unused_lib_float 64 [0.5; 0.25; 0.75]%float).
  vm_compute. split; discriminate.
Defined.

(** X13.  [test_rfc2544_latency] (comprehensive_network_test.py), exact
    arithmetic: ["percentile_99"] is one of the samples, lies between the
    median and the maximum, and is the maximum itself up to 100 samples. *)
Theorem percentile_99_between_median_and_max :
  forall (L : StatisticsLib Q) (frame_size : Z) (latencies : list Q),
    latencies <> [] ->
    exists e : Comprehensive.latency_stats Q,
      Comprehensive.latency_stats_of frame_size latencies = Ret (Some e)
      /\ In (Comprehensive.percentile_99 e) latencies
      /\ (Comprehensive.min_ms e <= Comprehensive.median_ms e)%Q
      /\ (Comprehensive.median_ms e <= Comprehensive.percentile_99 e)%Q
      /\ (Comprehensive.percentile_99 e <= Comprehensive.max_ms e)%Q
      /\ (Z.of_nat (List.length latencies) <= 100 ->
          Comprehensive.percentile_99 e = Comprehensive.max_ms e).
Proof.
  intros L frame_size latencies Hne.
  destruct (py_min_spec latencies Hne) as (lo & Hmin & _ & Hlo).
  destruct (py_max_spec latencies Hne) as (hi & Hmax & Hhi_in & Hhi).
  destruct (statistics_median_middle latencies Hne) as (md & Hmed & Hmd).
  destruct (statistics_median_returns latencies Hne) as (md' & Hmed' & Hmd').
  rewrite Hmed in Hmed'. injection Hmed' as <-.
  destruct (guarded_stdev_returns latencies) as (sd & Hsd).
  pose proof (sorted_nonempty_length latencies Hne) as Hn.
  pose proof (sorted_ascending latencies) as Hasc.
  assert (Hlo_md : (lo <= md)%Q).
  { rewrite Hmd'. apply (percentile_spec_bounds latencies 50 lo hi Hne); [Qcompare | Qcompare |].
    intros x Hx. split; [now apply Hlo | now apply Hhi]. }
  assert (Hmd_hi : (md <= hi)%Q).
  { rewrite Hmd'. apply (percentile_spec_bounds latencies 50 lo hi Hne); [Qcompare | Qcompare |].
    intros x Hx. split; [now apply Hlo | now apply Hhi]. }
  unfold Comprehensive.latency_stats_of.
  destruct (Z.eqb_spec (Z.of_nat (List.length latencies)) 0) as [E|_].
  { rewrite sorted_length in Hn. lia. }
  rewrite Hmin, Hmax, (statistics_mean_returns latencies Hne), Hmed, Hsd, !bind_Ret.
  rewrite <- (sorted_length latencies) in *.
  set (s := sorted latencies) in *. set (n := Z.of_nat (List.length s)) in *.
  destruct (Z.ltb_spec 100 n) as [Hbig|Hsmall].
  - assert (Hq99 : (0 <= nlit (A:=Q) 99 100)%Q /\ (nlit (A:=Q) 99 100 < 1)%Q
                   /\ ((1 # 2) <= nlit (A:=Q) 99 100)%Q)
      by (repeat split; vm_compute; congruence).
    destruct Hq99 as (H99a & H99b & H99c).
    pose proof (rank_bounds n _ Hn H99a H99b) as B99.
    pose proof (rank_half n _ ltac:(lia) H99c) as Mhalf.
    rewrite (rank_index n (nlit 99 100)) by (first [lia | assumption]).
    set (i99 := Qfloor (inject_Z n * nlit 99 100)) in *.
    rewrite bind_Ret, (index_nth s i99 0%Q), !bind_Ret by (fold n; lia).
    assert (Hhalf : 0 <= n / 2) by (apply Z.div_pos; lia).
    eexists. split; [reflexivity|].
    cbn [Comprehensive.percentile_99 Comprehensive.min_ms Comprehensive.max_ms
         Comprehensive.median_ms].
    repeat split.
    + apply sorted_In. apply at_In. fold s n. lia.
    + exact Hlo_md.
    + eapply Qle_trans; [exact Hmd|]. apply at_le; [exact Hasc | lia | fold n; lia].
    + apply Hhi, sorted_In, at_In. fold s n. lia.
    + intros Hle. lia.
  - rewrite !bind_Ret. eexists. split; [reflexivity|].
    cbn [Comprehensive.percentile_99 Comprehensive.min_ms Comprehensive.max_ms
         Comprehensive.median_ms].
    repeat split; try assumption. apply Qle_refl.
Qed.

Lemma percentile_99_between_median_and_max_witness :
  exists e : Comprehensive.latency_stats Q,
    @Comprehensive.latency_stats_of Q QNum unused_lib_Q 64 [1 # 2; 3 # 10; 2 # 5]%Q
    = Ret (Some e)
    /\ In (Comprehensive.percentile_99 e) [1 # 2; 3 # 10; 2 # 5]%Q
    /\ (Comprehensive.min_ms e <= Comprehensive.median_ms e)%Q
    /\ (Comprehensive.median_ms e <= Comprehensive.percentile_99 e)%Q
    /\ (Comprehensive.percentile_99 e <= Comprehensive.max_ms e)%Q
    /\ (3 <= 100 -> Comprehensive.percentile_99 e = Comprehensive.max_ms e).
Proof.
  apply (percentile_99_between_median_and_max unused_lib_Q 64 [1 # 2; 3 # 10; 2 # 5]%Q).
  discriminate.
Defined.

(** ** The comparison of the two paths *)

Lemma insert_sorted_below (x v : Q) (sa sb : list Q) :
  StronglySorted Qle (v :: sb) -> (x <= v)%Q -> Forall2 Qle sa sb ->
  Forall2 Qle (insert_sorted x sa) (v :: sb).
Proof.
  intros Hs Hx Hall. revert v Hs Hx.
  induction Hall as [|u v' sa sb Huv Hall IH]; intros v Hs Hx.
  - cbn. constructor; [exact Hx | constructor].
  - cbn [insert_sorted]. change (nltb u x) with (Qltb u x).
    inversion Hs as [|? ? Hs' Hv]; subst. inversion Hv as [|? ? Hvv' _]; subst.
    destruct (Qltb u x) eqn:E.
    + apply Qltb_lt in E. constructor; [lra|]. apply IH; [exact Hs' | lra].
    + constructor; [exact Hx|]. now constructor.
Qed.

Lemma cons_below_insert_sorted (u y : Q) (sa sb : list Q) :
  Forall2 Qle sa sb -> StronglySorted Qle sb -> (u <= y)%Q ->
  List.Forall (fun z => u <= z)%Q sb ->
  Forall2 Qle (u :: sa) (insert_sorted y sb).
Proof.
  intros Hall. revert u.
  induction Hall as [|u' v' sa sb Huv Hall IH]; intros u Hs Hu Hlow.
  - cbn. constructor; [exact Hu | constructor].
  - cbn [insert_sorted]. change (nltb v' y) with (Qltb v' y).
    inversion Hs as [|? ? Hs' Hv]; subst. inversion Hlow as [|? ? Huv' Hlow']; subst.
    destruct (Qltb v' y) eqn:E.
    + apply Qltb_lt in E. constructor; [exact Huv'|].
      apply IH; [exact Hs' | lra |].
      eapply List.Forall_impl; [|exact Hv]. intros z Hz. cbv beta in *. lra.
    + constructor; [exact Hu|]. now constructor.
Qed.

Lemma insert_sorted_dominates (x y : Q) (sa sb : list Q) :
  Forall2 Qle sa sb -> StronglySorted Qle sb -> (x <= y)%Q ->
  Forall2 Qle (insert_sorted x sa) (insert_sorted y sb).
Proof.
  intros Hall. induction Hall as [|u v sa sb Huv Hall IH]; intros Hs Hxy.
  - cbn. constructor; [exact Hxy | constructor].
  - cbn [insert_sorted]. change (nltb u x) with (Qltb u x). change (nltb v y) with (Qltb v y).
    inversion Hs as [|? ? Hs' Hv]; subst.
    destruct (Qltb u x) eqn:Eu, (Qltb v y) eqn:Ev.
    + constructor; [exact Huv | now apply IH].
    + apply Qltb_lt in Eu. apply Qltb_ge in Ev. constructor; [lra|].
      apply insert_sorted_below; [exact Hs | lra | exact Hall].
    + apply Qltb_ge in Eu. apply Qltb_lt in Ev. constructor; [lra|].
      apply cons_below_insert_sorted; [exact Hall | exact Hs' | lra |].
      eapply List.Forall_impl; [|exact Hv]. intros z Hz. cbv beta in *. lra.
    + constructor; [exact Hxy|]. now constructor.
Qed.

(** Sorting keeps a pointwise order between two lists. *)
Lemma sorted_dominates (a b : list Q) :
  Forall2 Qle a b -> Forall2 Qle (sorted a) (sorted b).
Proof.
  induction 1 as [|x y a b Hxy Hall IH]; [constructor|].
  cbn [sorted]. apply insert_sorted_dominates; [exact IH | apply sorted_Q | exact Hxy].
Qed.

Lemma Forall2_nth_Qle (a b : list Q) (i : nat) :
  Forall2 Qle a b -> (List.nth i a 0 <= List.nth i b 0)%Q.
Proof.
  intros Hall. revert i. induction Hall as [|x y a b Hxy Hall IH]; intros [|i]; cbn;
    try apply Qle_refl; [exact Hxy | apply IH].
Qed.

Lemma Forall2_Qle_length (a b : list Q) : Forall2 Qle a b -> List.length a = List.length b.
Proof. induction 1; cbn; congruence. Qed.

(** A percentile does not decrease when samples are raised. *)
Lemma percentile_spec_dominates (a b : list Q) (p : Q) :
  Forall2 Qle a b -> (percentile_spec a p <= percentile_spec b p)%Q.
Proof.
  intros Hall. pose proof (sorted_dominates a b Hall) as Hs.
  pose proof (Forall2_Qle_length _ _ Hs) as Hlen.
  unfold percentile_spec. rewrite <- Hlen.
  set (n := Z.of_nat (List.length (sorted a))).
  set (index := (inject_Z (n - 1) * p / 100)%Q).
  destruct (Z.geb (Qfloor index + 1) n).
  - now apply Forall2_nth_Qle.
  - destruct (frac_bounds index) as [Hf0 Hf1].
    pose proof (Forall2_nth_Qle _ _ (Z.to_nat (Qfloor index)) Hs) as Hlo.
    pose proof (Forall2_nth_Qle _ _ (Z.to_nat (Qfloor index + 1)) Hs) as Hhi.
    set (f := (index - inject_Z (Qfloor index))%Q) in *.
    set (alo := List.nth _ (sorted a) 0%Q) in *. set (blo := List.nth _ (sorted b) 0%Q) in *.
    set (ahi := List.nth _ (sorted a) 0%Q) in *. set (bhi := List.nth _ (sorted b) 0%Q) in *.
    nra.
Qed.

Lemma frer_latencies_below (path1 path2 : list Q) :
  List.length path1 = List.length path2 ->
  Forall2 Qle (calculate_frer_latencies path1 path2) path1
  /\ Forall2 Qle (calculate_frer_latencies path1 path2) path2.
Proof.
  revert path2. induction path1 as [|p1 path1 IH]; intros [|p2 path2] Hlen;
    cbn in Hlen; try discriminate.
  - split; constructor.
  - destruct (IH path2 ltac:(congruence)) as [H1 H2].
    unfold calculate_frer_latencies in *. cbn [Py.zip List.map].
    change (nltb p2 p1) with (Qltb p2 p1).
    destruct (Qltb p2 p1) eqn:E.
    + apply Qltb_lt in E. split; constructor; try assumption; try lra; apply Qle_refl.
    + apply Qltb_ge in E. split; constructor; try assumption; try lra; apply Qle_refl.
Qed.

Lemma py_min_dominates (a b : list Q) (ma mb : Q) :
  Forall2 Qle a b -> py_min a = Ret ma -> py_min b = Ret mb -> (ma <= mb)%Q.
Proof.
  intros Hall Ha Hb.
  assert (Hb_ne : b <> []) by (intros ->; discriminate).
  assert (Ha_ne : a <> []) by (intros ->; discriminate).
  destruct (py_min_spec a Ha_ne) as (ma' & Ha' & _ & Hlo). rewrite Ha in Ha'. injection Ha' as <-.
  destruct (py_min_spec b Hb_ne) as (mb' & Hb' & Hin & _). rewrite Hb in Hb'. injection Hb' as <-.
  apply (In_nth _ _ 0%Q) in Hin as (i & Hi & <-).
  apply Qle_trans with (List.nth i a 0%Q); [|now apply Forall2_nth_Qle].
  apply Hlo, nth_In. rewrite (Forall2_Qle_length _ _ Hall). exact Hi.
Qed.

Lemma py_max_dominates (a b : list Q) (ma mb : Q) :
  Forall2 Qle a b -> py_max a = Ret ma -> py_max b = Ret mb -> (ma <= mb)%Q.
Proof.
  intros Hall Ha Hb.
  assert (Hb_ne : b <> []) by (intros ->; discriminate).
  assert (Ha_ne : a <> []) by (intros ->; discriminate).
  destruct (py_max_spec a Ha_ne) as (ma' & Ha' & Hin & _). rewrite Ha in Ha'. injection Ha' as <-.
  destruct (py_max_spec b Hb_ne) as (mb' & Hb' & _ & Hhi). rewrite Hb in Hb'. injection Hb' as <-.
  apply (In_nth _ _ 0%Q) in Hin as (i & Hi & <-).
  apply Qle_trans with (List.nth i b 0%Q); [now apply Forall2_nth_Qle|].
  apply Hhi, nth_In. rewrite <- (Forall2_Qle_length _ _ Hall). exact Hi.
Qed.

(** The order statistics of a list that is pointwise below another. *)
Lemma calculate_stats_dominates `{L : StatisticsLib Q} (a b : list Q) (la lb : string) :
  Forall2 Qle a b -> (2 <= List.length a)%nat ->
  exists sa sb : stats Q string,
    calculate_stats a la = Ret sa /\ calculate_stats b lb = Ret sb
    /\ count sa = count sb
    /\ List.Forall (fun metric : stats Q string -> Q => (metric sa <= metric sb)%Q)
         order_metrics.
Proof.
  intros Hall Hlen. pose proof (Forall2_Qle_length _ _ Hall) as Heq.
  destruct (calculate_stats_returns a la Hlen)
    as (sa & Hsa & Hmin_a & Hmax_a & H50a & H90a & H95a & H99a & H999a).
  destruct (calculate_stats_returns b lb ltac:(lia))
    as (sb & Hsb & Hmin_b & Hmax_b & H50b & H90b & H95b & H99b & H999b).
  exists sa, sb. split; [exact Hsa|]. split; [exact Hsb|]. split.
  - unfold calculate_stats in Hsa, Hsb.
    destruct (py_min a), (py_max a), (statistics_mean a), (statistics_median a),
      (statistics_stdev a), (percentile a (nofZ 50)), (percentile a (nofZ 90)),
      (percentile a (nofZ 95)), (percentile a (nofZ 99)), (percentile a (nlit 999 10));
      try discriminate.
    destruct (py_min b), (py_max b), (statistics_mean b), (statistics_median b),
      (statistics_stdev b), (percentile b (nofZ 50)), (percentile b (nofZ 90)),
      (percentile b (nofZ 95)), (percentile b (nofZ 99)), (percentile b (nlit 999 10));
      try discriminate.
    cbn in Hsa, Hsb. injection Hsa as <-. injection Hsb as <-. cbn. congruence.
  - unfold order_metrics. repeat constructor.
    + eapply py_min_dominates; eassumption.
    + eapply py_max_dominates; eassumption.
    + rewrite H50a, H50b. now apply percentile_spec_dominates.
    + rewrite H90a, H90b. now apply percentile_spec_dominates.
    + rewrite H95a, H95b. now apply percentile_spec_dominates.
    + rewrite H99a, H99b. now apply percentile_spec_dominates.
    + rewrite H999a, H999b. now apply percentile_spec_dominates.
Qed.

Lemma improvement_nonneg (p1_val frer_val imp : Q) :
  (frer_val <= p1_val)%Q -> improvement_cell p1_val frer_val = Some imp -> (0 <= imp)%Q.
Proof.
  intros Hle. unfold improvement_cell. change (nltb (nofZ 0) p1_val) with (Qltb 0 p1_val).
  destruct (Qltb 0 p1_val) eqn:E; [|discriminate]. apply Qltb_lt in E.
  intros Heq. injection Heq as <-.
  change ((p1_val - frer_val) / p1_val * nofZ 100)%num
    with ((p1_val - frer_val) / p1_val * 100)%Q.
  apply Qmult_le_0_compat; [|discriminate].
  apply Qle_shift_div_l; [exact E|]. lra.
Qed.

(** X14.  Selecting the faster path never worsens an order statistic: for
    two paths of the same length (at least two samples), in exact
    arithmetic, the minimum, maximum, P50, P90, P95, P99 and P99.9 that
    [calculate_stats] gives for the selected latencies are at most those of
    either path, so no improvement of the table of [main] is negative for
    these rows. *)
Theorem frer_statistics_dominate :
  forall (L : StatisticsLib Q) (path1 path2 : list Q) (label1 label2 label : string),
    List.length path1 = List.length path2 -> (2 <= List.length path1)%nat ->
    exists stats_path1 stats_path2 stats_frer : stats Q string,
      calculate_stats path1 label1 = Ret stats_path1
      /\ calculate_stats path2 label2 = Ret stats_path2
      /\ calculate_stats (calculate_frer_latencies path1 path2) label = Ret stats_frer
      /\ count stats_frer = count stats_path1
      /\ List.Forall
           (fun metric : stats Q string -> Q =>
              (metric stats_frer <= metric stats_path1)%Q
              /\ (metric stats_frer <= metric stats_path2)%Q
              /\ forall imp : Q,
                   improvement_cell (metric stats_path1) (metric stats_frer) = Some imp ->
                   (0 <= imp)%Q)
           order_metrics.
Proof.
  intros L path1 path2 label1 label2 label Hlen Htwo.
  destruct (frer_latencies_below path1 path2 Hlen) as [H1 H2].
  assert (Hf : (2 <= List.length (calculate_frer_latencies path1 path2))%nat)
    by (rewrite (Forall2_Qle_length _ _ H1); exact Htwo).
  destruct (calculate_stats_dominates _ _ label label1 H1 Hf)
    as (sf & s1 & Hsf & Hs1 & Hc1 & Hm1).
  destruct (calculate_stats_dominates _ _ label label2 H2 Hf)
    as (sf' & s2 & Hsf' & Hs2 & _ & Hm2).
  rewrite Hsf in Hsf'. injection Hsf' as <-.
  exists s1, s2, sf. repeat (split; [assumption|]).
  rewrite List.Forall_forall in Hm1, Hm2 |- *. intros metric Hin.
  split; [now apply Hm1|]. split; [now apply Hm2|].
  intros imp. apply improvement_nonneg. now apply Hm1.
Qed.

Lemma frer_statistics_dominate_witness :
  exists stats_path1 stats_path2 stats_frer : stats Q string,
    @calculate_stats Q QNum unused_lib_Q [2 # 5; 1 # 2; 3 # 10]%Q "Path 1 (Primary)" = Ret stats_path1
    /\ @calculate_stats Q QNum unused_lib_Q [9 # 20; 2 # 5; 1 # 2]%Q "Secondary Path" = Ret stats_path2
    /\ @calculate_stats Q QNum unused_lib_Q
         (calculate_frer_latencies [2 # 5; 1 # 2; 3 # 10]%Q [9 # 20; 2 # 5; 1 # 2]%Q)
         "FRER (Min Selection)" = Ret stats_frer
    /\ (p99 stats_frer <= p99 stats_path1)%Q.
Proof.
  destruct (frer_statistics_dominate unused_lib_Q [2 # 5; 1 # 2; 3 # 10]%Q
              [9 # 20; 2 # 5; 1 # 2]%Q "Path 1 (Primary)" "Secondary Path"
              "FRER (Min Selection)" eq_refl ltac:(cbn; lia))
    as (s1 & s2 & sf & H1 & H2 & Hf & _ & Hall).
  exists s1, s2, sf. repeat (split; [assumption|]).
  rewrite List.Forall_forall in Hall. apply (Hall p99). cbn. tauto.
Defined.






(** ** The rate searches: probes, precision and the log *)

Lemma search_result_binary64 : search_tree (A:=float) 20 search_result_b search_init = true.
Proof. vm_compute. reflexivity. Qed.

Lemma search_result_exact : search_tree (A:=Q) 20 search_result_b search_init = true.
Proof. vm_compute. reflexivity. Qed.

Lemma search_final_stopped {A : Type} `{Num A} (p : probe) :
  search_continues (search_final p) = false.
Proof.
  unfold search_final. set (n := Z.to_nat max_iterations).
  assert (Hfuel : search_loop (S n) p search_init = search_loop n p search_init).
  { rewrite (search_loop_fuel (S n)); [reflexivity|].
    change (iterations search_init) with 0. unfold n. lia. }
  rewrite search_loop_S in Hfuel. unfold search_turn in Hfuel.
  destruct (search_continues (search_loop n p search_init)); [|reflexivity].
  apply (f_equal iterations) in Hfuel. rewrite search_iteration_iterations in Hfuel. lia.
Qed.

Lemma search_final_result {A : Type} `{Num A} (p : probe) :
  search_tree 20 search_result_b search_init = true ->
  let st := search_final p in
  7 <= iterations st <= 17
  /\ ((max_mbps st - min_mbps st) / max_mbps st <? tolerance)%num = true
  /\ ((nofZ 0 <? best_throughput st)%num = true ->
      ((max_mbps st - best_throughput st) / max_mbps st <? tolerance)%num = true).
Proof.
  intros Htree st.
  pose proof (search_tree_sound 20 search_result_b search_init Htree p 20 (le_n 20)) as Hc.
  change (search_loop 20 p search_init) with (search_final p) in Hc. fold st in Hc.
  pose proof (search_final_stopped p) as Hstop. fold st in Hstop.
  unfold search_result_b in Hc. rewrite Hstop in Hc. cbn [orb] in Hc.
  rewrite !andb_true_iff, orb_true_iff, negb_true_iff, !Z.leb_le in Hc.
  destruct Hc as (H17 & (H7 & Hwin) & Hbest).
  split; [lia|]. split; [exact Hwin|].
  intros Hpos. destruct Hbest as [Hzero|Hnear]; [congruence | exact Hnear].
Qed.

(** X16.  [binary_search_throughput] always ends because its window is
    below the tolerance, after 7 to 17 probes: the cap of 20 iterations is
    never reached; a reported rate above 0 is less than 1% below the upper
    bound at which the search stopped.  In exact arithmetic and in
    binary64, for every behaviour of the probe. *)
Theorem search_converges_within_17_probes :
  (forall p : probe (A:=Q),
      let st := search_final p in
      7 <= iterations st <= 17
      /\ ((max_mbps st - min_mbps st) / max_mbps st < 1 # 100)%Q
      /\ ((0 < binary_search_throughput p)%Q ->
          ((max_mbps st - binary_search_throughput p) / max_mbps st < 1 # 100)%Q))
  /\ (forall p : probe (A:=float),
         let st := search_final p in
         7 <= iterations st <= 17
         /\ PrimFloat.ltb
              (PrimFloat.div (PrimFloat.sub (max_mbps st) (min_mbps st)) (max_mbps st))
              tolerance = true
         /\ (PrimFloat.ltb 0 (binary_search_throughput p) = true ->
             PrimFloat.ltb
               (PrimFloat.div (PrimFloat.sub (max_mbps st) (binary_search_throughput p))
                  (max_mbps st))
               tolerance = true)).
Proof.
  split.
  - intros p st.
    destruct (search_final_result p search_result_exact) as (Hit & Hwin & Hbest).
    fold st in Hit, Hwin, Hbest. split; [exact Hit|]. split.
    + apply Qltb_lt in Hwin. exact Hwin.
    + intros Hpos. apply Qltb_lt. apply Hbest. apply Qltb_lt. exact Hpos.
  - intros p st.
    destruct (search_final_result p search_result_binary64) as (Hit & Hwin & Hbest).
    fold st in Hit, Hwin, Hbest. split; [exact Hit|]. split; [exact Hwin | exact Hbest].
Qed.

Section ThroughputLog.

Context {A : Type} `{Num A}.

Lemma last_passing_rate_app (log : list iteration_record) (entry : iteration_record) :
  last_passing_rate (log ++ [entry])
  = match entry with
    | Measured target_rate loss_percent =>
        if (loss_percent <? nlit 1 1000)%num then target_rate else last_passing_rate log
    | Errored _ => last_passing_rate log
    end.
Proof. unfold last_passing_rate. rewrite fold_left_app. reflexivity. Qed.

Lemma throughput_loop_log (iperf3 : probe) (range : list Z) (st : throughput_state) :
  List.Forall (fun iteration => 0 <= iteration < 10) range ->
  best_rate st = last_passing_rate (iteration_log st) ->
  List.Forall (logged iperf3) (iteration_log st) ->
  let st' := throughput_loop range iperf3 st in
  best_rate st' = last_passing_rate (iteration_log st')
  /\ List.Forall (logged iperf3) (iteration_log st')
  /\ (List.length (iteration_log st')
      <= List.length (iteration_log st) + List.length range)%nat.
Proof.
  revert st. induction range as [|iteration range IH]; intros st Hrange Hbest Hlog.
  - cbn. repeat split; [exact Hbest | exact Hlog | lia].
  - inversion Hrange as [|? ? Hi Hrange']; subst. cbn [throughput_loop List.length].
    set (test_rate := ((min_rate st + max_rate st) / nofZ 2)%num).
    destruct (iperf3 iteration test_rate) as [loss_percent|] eqn:E.
    + set (log' := iteration_log st ++ [Measured test_rate loss_percent]).
      assert (Hlog' : List.Forall (logged iperf3) log').
      { apply Forall_app. split; [exact Hlog|]. constructor; [|constructor].
        exists iteration. split; [exact Hi | exact E]. }
      assert (Hlast : last_passing_rate log'
                      = if (loss_percent <? nlit 1 1000)%num then test_rate else best_rate st).
      { unfold log'. rewrite last_passing_rate_app, Hbest. reflexivity. }
      assert (Hlen : List.length log' = S (List.length (iteration_log st)))
        by (unfold log'; rewrite length_app; cbn; lia).
      destruct (nltb loss_percent (nlit 1 1000)).
      * match goal with |- context [if ?c then _ else _] => destruct c end.
        -- cbn [best_rate iteration_log]. repeat split; [now rewrite Hlast | exact Hlog' | lia].
        -- match goal with |- context [throughput_loop range iperf3 ?s] =>
             destruct (IH s Hrange') as (Hb & Hl & Hn) end;
             [cbn [best_rate iteration_log]; now rewrite Hlast | exact Hlog' |].
           cbn [iteration_log] in Hn. repeat split; [exact Hb | exact Hl | lia].
      * match goal with |- context [if ?c then _ else _] => destruct c end.
        -- cbn [best_rate iteration_log]. repeat split; [now rewrite Hlast | exact Hlog' | lia].
        -- match goal with |- context [throughput_loop range iperf3 ?s] =>
             destruct (IH s Hrange') as (Hb & Hl & Hn) end;
             [cbn [best_rate iteration_log]; now rewrite Hlast | exact Hlog' |].
           cbn [iteration_log] in Hn. repeat split; [exact Hb | exact Hl | lia].
    + match goal with |- context [throughput_loop range iperf3 ?s] =>
        destruct (IH s Hrange') as (Hb & Hl & Hn) end.
      * cbn [best_rate iteration_log]. now rewrite last_passing_rate_app.
      * cbn [iteration_log]. apply Forall_app. split; [exact Hlog|].
        constructor; [|constructor]. exists iteration. split; [exact Hi | exact E].
      * cbn [iteration_log] in Hn. rewrite length_app in Hn. cbn [List.length] in Hn.
        repeat split; [exact Hb | exact Hl | lia].
Qed.

End ThroughputLog.

(** X17.  The log of [test_rfc2544_throughput] explains its result:
    ["max_throughput_mbps"] is the target rate of the last logged entry
    whose loss is below 0.001 (0 when there is none), every entry records
    what the probe answered at its rate, and there are at most 10
    entries. *)
Theorem throughput_log_explains_best_rate :
  forall (A : Type) (N : Num A) (iperf3 : probe (A:=A)),
    let st := test_rfc2544_throughput iperf3 in
    best_rate st = last_passing_rate (iteration_log st)
    /\ List.Forall (logged iperf3) (iteration_log st)
    /\ (List.length (iteration_log st) <= 10)%nat.
Proof.
  intros A N iperf3 st.
  destruct (throughput_loop_log iperf3 (List.map Z.of_nat (List.seq 0 10)) throughput_init)
    as (Hb & Hl & Hn).
  - repeat constructor; lia.
  - reflexivity.
  - constructor.
  - repeat split; [exact Hb | exact Hl | exact Hn].
Qed.

(** ** Burst sizes *)

Section BurstMeasured.

Context {A : Type} `{Num A} `{StatisticsLib A}.

(** The scan ends at the value it started from or at a candidate that
    passed. *)
Lemma scan_bursts_measured (send_burst : Z -> option A) (bursts : list Z) (best_burst : Z) :
  let b := scan_bursts send_burst bursts best_burst in
  b = best_burst
  \/ (In b bursts
      /\ exists loss_rate : A,
           send_burst b = Some loss_rate /\ (loss_rate <? nofZ 1)%num = true).
Proof.
  revert best_burst. induction bursts as [|size bursts IH]; intros best; cbn [scan_bursts].
  - now left.
  - destruct (send_burst size) as [loss|] eqn:E; [|now left].
    destruct (nltb loss (nofZ 1)) eqn:Hpass; [|now left].
    destruct (IH (Z.max best size)) as [Heq | (Hin & loss' & Hl & Hp)].
    + rewrite Heq. destruct (Z.max_spec best size) as [[_ ->] | [_ ->]]; [|now left].
      right. split; [now left|]. now exists loss.
    + right. split; [now right|]. now exists loss'.
Qed.

Lemma measured_burst_later (send_burst : burst_probe) (trial trial' b : Z) :
  trial <= trial' -> measured_burst send_burst trial b -> measured_burst send_burst trial' b.
Proof.
  intros Hle [Hz | (Hin & t & loss & Ht & Hrest)]; [now left|].
  right. split; [exact Hin|]. exists t, loss. split; [lia | exact Hrest].
Qed.

Lemma run_trials_measured (send_burst : burst_probe) (len start : nat) (best_burst : Z) :
  measured_burst send_burst (Z.of_nat start) best_burst ->
  let trials := run_trials send_burst (List.map Z.of_nat (List.seq start len)) best_burst [] in
  List.map fst trials = List.map Z.of_nat (List.seq (S start) len)
  /\ List.Forall (fun entry => measured_burst send_burst (fst entry) (snd entry)) trials
  /\ Sorted Z.le (best_burst :: List.map snd trials).
Proof.
  revert start best_burst. induction len as [|len IH]; intros start best Hbest.
  - cbn. repeat split; repeat constructor.
  - cbn [List.seq List.map run_trials]. rewrite run_trials_acc. cbn [app].
    set (best' := scan_bursts (send_burst (Z.of_nat start)) test_bursts best).
    assert (Hbest' : measured_burst send_burst (Z.of_nat (S start)) best').
    { destruct (scan_bursts_measured (send_burst (Z.of_nat start)) test_bursts best)
        as [Heq | (Hin & loss & Hl & Hp)]; fold best' in Heq || fold best' in Hin, Hl.
      - rewrite Heq. eapply measured_burst_later; [|exact Hbest]. lia.
      - right. split; [exact Hin|]. exists (Z.of_nat start), loss. repeat split; try lia; assumption. }
    destruct (IH (S start) best' Hbest') as (Hfst & Hall & Hsorted).
    cbn [List.map fst snd]. repeat split.
    + f_equal; [lia | exact Hfst].
    + constructor; [|exact Hall]. cbn [fst snd].
      replace (Z.of_nat start + 1) with (Z.of_nat (S start)) by lia. exact Hbest'.
    + constructor; [exact Hsorted|]. constructor.
      apply (scan_bursts_ge (send_burst (Z.of_nat start)) test_bursts best).
Qed.

End BurstMeasured.

(** X18.  [back_to_back_test] reports only what it measured: the trials
    are numbered from 1, their recorded burst sizes do not decrease, and
    each recorded size, like the reported ["max_burst_no_loss"], is 0 or a
    candidate at which the probe reported a loss below 1% in that or an
    earlier trial. *)
Theorem burst_results_are_measured :
  forall (A : Type) (N : Num A) (L : StatisticsLib A) (num_trials : nat)
         (send_burst : burst_probe (A:=A)) (frame_size : Z),
    let r := back_to_back_test num_trials send_burst frame_size in
    List.map fst (trials r) = List.map Z.of_nat (List.seq 1 num_trials)
    /\ List.Forall (fun entry => measured_burst send_burst (fst entry) (snd entry)) (trials r)
    /\ Sorted Z.le (List.map snd (trials r))
    /\ measured_burst send_burst (Z.of_nat num_trials) (max_burst_no_loss r).
Proof.
  intros A N L num_trials send_burst frame_size r.
  destruct (run_trials_measured send_burst num_trials 0 0 (or_introl eq_refl))
    as (Hfst & Hall & Hsorted).
  assert (Htrials : trials r
                    = run_trials send_burst (List.map Z.of_nat (List.seq 0 num_trials)) 0 []).
  { unfold r, back_to_back_test.
    destruct (List.map snd (run_trials send_burst _ 0 [])); reflexivity. }
  rewrite Htrials. split; [exact Hfst|]. split; [exact Hall|].
  split; [now inversion Hsorted|].
  destruct num_trials as [|n]; [now left|].
  unfold r. rewrite back_to_back_reports_first_trial.
  destruct (scan_bursts_measured (send_burst 0) test_bursts 0) as [Heq | (Hin & loss & Hl & Hp)].
  - left. exact Heq.
  - right. split; [exact Hin|]. exists 0, loss. repeat split; try lia; assumption.
Qed.

(** ** The percentile at and outside the ends of its range *)

Lemma sorted_first_is_min (data : list Q) (lo : Q) :
  py_min data = Ret lo -> (List.nth 0 (sorted data) 0 == lo)%Q.
Proof.
  intros Hmin. assert (Hne : data <> []) by (intros ->; discriminate).
  destruct (py_min_spec data Hne) as (lo' & Hmin' & Hin & Hlo).
  rewrite Hmin in Hmin'. injection Hmin' as <-.
  pose proof (sorted_nonempty_length data Hne) as Hn.
  apply Qle_antisym.
  - apply sorted_In in Hin. apply (In_nth _ _ 0%Q) in Hin as (k & Hk & <-).
    pose proof (at_le (sorted data) (sorted_ascending data) 0 (Z.of_nat k)
                  ltac:(lia) ltac:(lia)) as Hle.
    cbv beta zeta in Hle. rewrite ?Nat2Z.id in Hle. exact Hle.
  - apply Hlo, sorted_In. apply (at_In (sorted data) 0). lia.
Qed.

Lemma sorted_last_is_max (data : list Q) (hi : Q) :
  py_max data = Ret hi ->
  (List.nth (Z.to_nat (Z.of_nat (List.length (sorted data)) - 1)) (sorted data) 0 == hi)%Q.
Proof.
  intros Hmax. assert (Hne : data <> []) by (intros ->; discriminate).
  destruct (py_max_spec data Hne) as (hi' & Hmax' & Hin & Hhi).
  rewrite Hmax in Hmax'. injection Hmax' as <-.
  pose proof (sorted_nonempty_length data Hne) as Hn.
  apply Qle_antisym.
  - apply Hhi, sorted_In.
    apply (at_In (sorted data) (Z.of_nat (List.length (sorted data)) - 1)). lia.
  - apply sorted_In in Hin. apply (In_nth _ _ 0%Q) in Hin as (k & Hk & <-).
    assert (H1 : 0 <= Z.of_nat k <= Z.of_nat (List.length (sorted data)) - 1) by lia.
    assert (H2 : Z.of_nat (List.length (sorted data)) - 1
                 < Z.of_nat (List.length (sorted data))) by lia.
    pose proof (at_le (sorted data) (sorted_ascending data) _ _ H1 H2) as Hle.
    cbv beta zeta in Hle. rewrite ?Nat2Z.id in Hle. exact Hle.
Qed.

(** X19.  The ends of the range: in exact arithmetic the percentile at 0
    is the minimum of the samples and the percentile at 100 is their
    maximum. *)
Theorem percentile_endpoints :
  forall data : list Q,
    data <> [] ->
    exists lo hi v0 v100 : Q,
      py_min data = Ret lo /\ py_max data = Ret hi
      /\ percentile data (nofZ 0) = Ret v0 /\ (v0 == lo)%Q
      /\ percentile data (nofZ 100) = Ret v100 /\ (v100 == hi)%Q.
Proof.
  intros data Hne.
  destruct (py_min_spec data Hne) as (lo & Hmin & _).
  destruct (py_max_spec data Hne) as (hi & Hmax & _).
  pose proof (sorted_nonempty_length data Hne) as Hn.
  exists lo, hi, (percentile_spec data 0), (percentile_spec data 100).
  change (nofZ (A:=Q) 0) with 0%Q. change (nofZ (A:=Q) 100) with 100%Q.
  split; [exact Hmin|]. split; [exact Hmax|].
  split; [apply percentile_is_spec; [exact Hne | Qcompare | Qcompare]|].
  split; [|split; [apply percentile_is_spec; [exact Hne | Qcompare | Qcompare]|]].
  - rewrite <- (sorted_first_is_min data lo Hmin). unfold percentile_spec.
    set (n := Z.of_nat (List.length (sorted data))) in *.
    assert (Hidx : (inject_Z (n - 1) * 0 / 100 == 0)%Q) by (now rewrite Qmult_0_r).
    assert (Hfl : Qfloor (inject_Z (n - 1) * 0 / 100) = 0) by (now rewrite Hidx).
    rewrite Hfl. destruct (0 + 1 >=? n); [reflexivity|].
    rewrite Hidx. change (inject_Z 0) with 0%Q. change (Z.to_nat 0) with 0%nat. ring.
  - rewrite <- (sorted_last_is_max data hi Hmax). unfold percentile_spec.
    set (n := Z.of_nat (List.length (sorted data))) in *.
    assert (Hidx : (inject_Z (n - 1) * 100 / 100 == inject_Z (n - 1))%Q) by field.
    assert (Hfl : Qfloor (inject_Z (n - 1) * 100 / 100) = n - 1)
      by (rewrite Hidx; apply Qfloor_Z).
    rewrite Hfl. destruct (Z.geb_spec (n - 1 + 1) n); [reflexivity | lia].
Qed.

Lemma percentile_endpoints_witness :
  exists lo hi v0 v100 : Q,
    py_min [3; 1; 2]%Q = Ret lo /\ py_max [3; 1; 2]%Q = Ret hi
    /\ percentile [3; 1; 2]%Q (nofZ 0) = Ret v0 /\ (v0 == lo)%Q
    /\ percentile [3; 1; 2]%Q (nofZ 100) = Ret v100 /\ (v100 == hi)%Q.
Proof. apply (percentile_endpoints [3; 1; 2]%Q). discriminate. Defined.

Lemma Qtrunc_small_negative (x : Q) : (-1 < x)%Q -> (x <= 0)%Q -> Qtrunc x = 0.
Proof.
  destruct x as [a b]. unfold Qlt, Qle, Qtrunc. cbn [Qnum Qden]. intros H1 H0.
  rewrite <- (Z.opp_involutive a), Z.quot_opp_l by lia.
  rewrite Z.quot_small by lia. reflexivity.
Qed.

Lemma index_out_of_range {X : Type} (l : list X) (i : Z) :
  Z.of_nat (List.length l) <= i -> Py.index l i = Raise IndexError.
Proof.
  intros Hi. unfold Py.index. destruct (Z.ltb_spec i 0); [lia|].
  destruct (Z.ltb_spec i 0); [lia|].
  destruct (Z.leb_spec (Z.of_nat (List.length l)) i); [reflexivity | lia].
Qed.

Lemma lerp_below (a b f : Q) :
  (a <= b)%Q -> (f <= 0)%Q -> (a * (1 - (f - 0)) + b * (f - 0) <= a)%Q.
Proof. intros. nra. Qed.

(** X20.  [percentile] does not check its argument.  With one sample
    every [p] gives that sample.  With two or more samples, in exact
    arithmetic: a [p] above 100 gives the maximum while [(n-1)*p/100 < n]
    and raises [IndexError] from there on; a [p] below 0 with
    [(n-1)*p/100 > -1] does not raise but extrapolates to a value at or
    below the minimum. *)
Theorem percentile_outside_range :
  (forall x p : Q, percentile [x] p = Ret x)
  /\ (forall (data : list Q) (p : Q),
         (2 <= List.length data)%nat ->
         let n := Z.of_nat (List.length data) in
         ((100 < p)%Q -> (inject_Z (n - 1) * p < 100 * inject_Z n)%Q ->
          exists v hi : Q, percentile data p = Ret v /\ py_max data = Ret hi /\ (v == hi)%Q)
         /\ ((100 * inject_Z n <= inject_Z (n - 1) * p)%Q ->
             percentile data p = Raise IndexError)
         /\ ((p < 0)%Q -> (-100 < inject_Z (n - 1) * p)%Q ->
             exists v lo : Q, percentile data p = Ret v /\ py_min data = Ret lo /\ (v <= lo)%Q)).
Proof.
  split.
  - intros x p. unfold percentile. cbn [sorted insert_sorted List.length].
    change (nofZ (Z.of_nat 1 - 1) * p / nofZ 100)%num with (inject_Z 0 * p / 100)%Q.
    assert (Hidx : (inject_Z 0 * p / 100 == 0)%Q) by (change (inject_Z 0) with 0%Q; field).
    change (ntrunc (A:=Q) ?y) with (Ret (Qtrunc y)). rewrite bind_Ret.
    rewrite Qtrunc_floor by (rewrite Hidx; apply Qle_refl).
    rewrite Hidx. reflexivity.
  - intros data p Hlen n.
    assert (Hne : data <> []) by (intros ->; cbn in Hlen; lia).
    assert (Hn : 2 <= n) by (unfold n; lia).
    assert (Hsn : Z.of_nat (List.length (sorted data)) = n) by (unfold n; now rewrite sorted_length).
    assert (Hn1 : (1 <= inject_Z (n - 1))%Q)
      by (change 1%Q with (inject_Z 1); rewrite <- Zle_Qle; lia).
    assert (Hnn : (inject_Z n == inject_Z (n - 1) + 1)%Q)
      by (change 1%Q with (inject_Z 1); rewrite <- inject_Z_plus; f_equiv; lia).
    unfold percentile. rewrite Hsn.
    change (nofZ (n - 1) * p / nofZ 100)%num with (inject_Z (n - 1) * p / 100)%Q.
    change (ntrunc (A:=Q) ?y) with (Ret (Qtrunc y)). rewrite bind_Ret.
    set (index := (inject_Z (n - 1) * p / 100)%Q).
    assert (Hindex : (index * 100 == inject_Z (n - 1) * p)%Q) by (unfold index; field).
    split; [|split].
    + intros Hp Hlt.
      assert (Hlow : (inject_Z (n - 1) <= index)%Q).
      { unfold index. apply Qle_shift_div_l; [reflexivity|].
        rewrite (Qmult_comm _ 100), (Qmult_comm _ p).
        apply Qmult_le_compat_r; [now apply Qlt_le_weak | lra]. }
      assert (Hhigh : (index < inject_Z (n - 1) + 1)%Q).
      { rewrite <- Hnn. unfold index. apply Qlt_shift_div_r; [reflexivity|].
        now rewrite (Qmult_comm _ 100). }
      rewrite Qtrunc_floor by lra. rewrite (Qfloor_unique index (n - 1) Hlow Hhigh).
      destruct (Z.leb_spec n (n - 1 + 1)); [|lia].
      destruct (py_max_spec data Hne) as (hi & Hmax & _).
      rewrite (index_nth (sorted data) (n - 1) 0%Q) by lia.
      eexists _, hi. split; [reflexivity|]. split; [exact Hmax|].
      rewrite <- (sorted_last_is_max data hi Hmax). now rewrite Hsn.
    + intros Hge.
      assert (Hlow : (inject_Z n <= index)%Q).
      { unfold index. apply Qle_shift_div_l; [reflexivity|].
        now rewrite (Qmult_comm _ 100). }
      assert (Hfl : n <= Qfloor index).
      { apply Qfloor_resp_le in Hlow. now rewrite Qfloor_Z in Hlow. }
      assert (H0 : (0 <= index)%Q) by (eapply Qle_trans; [|exact Hlow]; lra).
      rewrite Qtrunc_floor by exact H0.
      destruct (Z.leb_spec n (Qfloor index + 1)); [|lia].
      apply index_out_of_range. lia.
    + intros Hp Hgt.
      assert (Hneg : (index < 0)%Q).
      { unfold index. apply Qlt_shift_div_r; [reflexivity|]. rewrite Qmult_0_l.
        set (m := inject_Z (n - 1)) in *. nra. }
      assert (Hsmall : (-1 < index)%Q).
      { unfold index. apply Qlt_shift_div_l; [reflexivity|]. exact Hgt. }
      rewrite (Qtrunc_small_negative index Hsmall) by now apply Qlt_le_weak.
      destruct (Z.leb_spec n (0 + 1)); [lia|].
      rewrite (index_nth (sorted data) 0 0%Q), (index_nth (sorted data) (0 + 1) 0%Q) by lia.
      rewrite !bind_Ret.
      destruct (py_min_spec data Hne) as (lo & Hmin & _).
      eexists _, lo. split; [reflexivity|]. split; [exact Hmin|].
      rewrite <- (sorted_first_is_min data lo Hmin).
      pose proof (at_le (sorted data) (sorted_ascending data) 0 1 ltac:(lia) ltac:(lia)) as Hle.
      cbv beta zeta in Hle. change (Z.to_nat (0 + 1)) with (Z.to_nat 1).
      change (nofZ 0) with 0%Q. change (nofZ 1) with 1%Q.
      change (?a + ?b)%num with (a + b)%Q. change (?a - ?b)%num with (a - b)%Q.
      change (?a * ?b)%num with (a * b)%Q.
      change (Z.to_nat 0) with 0%nat in *.
      apply lerp_below; [exact Hle | now apply Qlt_le_weak].
Qed.

Lemma percentile_outside_range_witness :
  percentile [3; 1; 2]%Q 150%Q = Raise IndexError
  /\ exists v hi : Q,
       percentile [3; 1; 2]%Q 120%Q = Ret v /\ py_max [3; 1; 2]%Q = Ret hi /\ (v == hi)%Q.
Proof.
  destruct (proj2 percentile_outside_range [3; 1; 2]%Q 150%Q ltac:(cbn; lia)) as (_ & H150 & _).
  destruct (proj2 percentile_outside_range [3; 1; 2]%Q 120%Q ltac:(cbn; lia)) as (H120 & _ & _).
  split.
  - apply H150. vm_compute. discriminate.
  - apply H120; vm_compute; reflexivity.
Defined.

(** ** Reports of iperf3 without measurement *)

Section Iperf3Properties.

Context {A : Type} `{Num A}.

Lemma search_iteration_ext (p q : probe) (st : search_state) :
  (forall (i : Z) (rate : A), p i rate = q i rate) ->
  search_iteration p st = search_iteration q st.
Proof. intros Hpq. unfold search_iteration. now rewrite Hpq. Qed.

Lemma search_loop_ext (fuel : nat) (p q : probe) (st : search_state) :
  (forall (i : Z) (rate : A), p i rate = q i rate) ->
  search_loop fuel p st = search_loop fuel q st.
Proof.
  intros Hpq. revert st. induction fuel as [|fuel IH]; intros st; cbn [search_loop]; [reflexivity|].
  destruct (search_continues st); [|reflexivity].
  rewrite (search_iteration_ext p q st Hpq). apply IH.
Qed.

(** The result for a report without measurement: every number is the
    default 0. *)
Lemma test_throughput_iperf3_no_measurement (frame_size : Z) (bandwidth_mbps : A)
      (duration : Z) (data : json A) :
  no_measurement data ->
  test_throughput_iperf3 frame_size bandwidth_mbps duration 0 (Some data)
  = Some {| result_frame_size := frame_size;
            target_bandwidth_mbps := bandwidth_mbps;
            actual_bandwidth_mbps := (nofZ 0 / nofZ 1000000)%num;
            packets_sent := JNum (nofZ 0);
            packets_lost := JNum (nofZ 0);
            loss_percent := JNum (nofZ 0);
            jitter_ms := JNum (nofZ 0);
            result_duration := duration |}.
Proof.
  intros (members & -> & [Hend | (end_members & Hend & Hsum)]);
    unfold test_throughput_iperf3; cbn [Z.eqb negb mbind option_bind dict_get];
    rewrite Hend; cbn [mbind option_bind dict_get member]; [reflexivity|].
  rewrite Hsum. reflexivity.
Qed.

Lemma reads_no_measurement (p : probe) (frame_size : Z) (iperf3 : Z -> A -> iperf3_run A) :
  reads_reports p frame_size iperf3 ->
  (forall (i : Z) (rate : A),
      fst (iperf3 i rate) = 0
      /\ exists data : json A, snd (iperf3 i rate) = Some data /\ no_measurement data) ->
  forall (i : Z) (rate : A), p i rate = Some (nofZ 0).
Proof.
  intros Hp Hruns i rate. specialize (Hp i rate).
  destruct (Hruns i rate) as (Hrc & data & Hout & Hdata).
  rewrite Hrc, Hout, (test_throughput_iperf3_no_measurement _ _ _ _ Hdata) in Hp.
  destruct Hp as (loss & Hloss & Hpi). cbn in Hloss. congruence.
Qed.

End Iperf3Properties.

(** X21.  A report without measurement passes for zero loss:
    [test_throughput_iperf3] fills every number missing from the output of
    iperf3 with 0, so a run that exits with 0 and prints no ["end"] (or no
    ["sum"]) is a result with 0% loss, and a search that meets only such
    runs reports 992.1953125 Mbps (1000 - 999/128). *)
Theorem missing_measurement_passes_as_zero_loss :
  (forall (A : Type) (N : Num A) (frame_size : Z) (bandwidth_mbps : A) (duration : Z)
          (data : json A),
      no_measurement data ->
      exists result : iperf3_result A,
        test_throughput_iperf3 frame_size bandwidth_mbps duration 0 (Some data) = Some result
        /\ loss_percent result = JNum (nofZ 0)
        /\ packets_sent result = JNum (nofZ 0)
        /\ packets_lost result = JNum (nofZ 0))
  /\ (forall (p : probe (A:=Q)) (frame_size : Z) (iperf3 : Z -> Q -> iperf3_run Q),
         reads_reports p frame_size iperf3 ->
         (forall (i : Z) (rate : Q),
             fst (iperf3 i rate) = 0
             /\ exists data : json Q, snd (iperf3 i rate) = Some data /\ no_measurement data) ->
         (binary_search_throughput p == 1000 - (999 # 128))%Q)
  /\ (forall (p : probe (A:=float)) (frame_size : Z) (iperf3 : Z -> float -> iperf3_run float),
         reads_reports p frame_size iperf3 ->
         (forall (i : Z) (rate : float),
             fst (iperf3 i rate) = 0
             /\ exists data : json float,
                  snd (iperf3 i rate) = Some data /\ no_measurement data) ->
         binary_search_throughput p = 992.1953125%float).
Proof.
  split; [|split].
  - intros A N frame_size bandwidth_mbps duration data Hdata.
    eexists. split; [now apply test_throughput_iperf3_no_measurement|]. repeat split.
  - intros p frame_size iperf3 Hp Hruns.
    pose proof (reads_no_measurement p frame_size iperf3 Hp Hruns) as Hzero.
    unfold binary_search_throughput, search_final.
    rewrite (search_loop_ext _ p (fun _ _ => Some (nofZ 0)) _ Hzero).
    vm_compute. reflexivity.
  - intros p frame_size iperf3 Hp Hruns.
    pose proof (reads_no_measurement p frame_size iperf3 Hp Hruns) as Hzero.
    unfold binary_search_throughput, search_final.
    rewrite (search_loop_ext _ p (fun _ _ => Some (nofZ 0)) _ Hzero).
    vm_compute. reflexivity.
Qed.

Lemma missing_measurement_passes_as_zero_loss_witness :
  (binary_search_throughput (A:=Q) (fun _ _ => Some 0%Q) == 1000 - (999 # 128))%Q.
Proof.
  apply (proj1 (proj2 missing_measurement_passes_as_zero_loss)
           (fun _ _ => Some 0%Q) 64 (fun _ _ => example_empty_run)).
  - intros i rate. cbn. exists 0%Q. split; reflexivity.
  - intros i rate. split; [reflexivity|]. eexists. split; [reflexivity|].
    eexists. split; [reflexivity|]. left. reflexivity.
Defined.

(** ** The summary of the suite *)

Section SuiteReportProperties.

Context {A : Type} `{Num A} `{StatisticsLib A}.

Lemma int_keys_empty {V : Type} : int_keys (∅ : gmap key V).
Proof. intros name. apply lookup_empty. Qed.

Lemma int_keys_insert {V : Type} (d : gmap key V) (n : Z) (v : V) :
  int_keys d -> int_keys (<[inl n := v]> d).
Proof. intros Hd name. rewrite lookup_insert_ne by discriminate. apply Hd. Qed.

Lemma latency_tests_int_keys (env : environment) (sizes : list Z)
      (d d' : gmap key (stats A Z)) :
  latency_tests env sizes d = Some d' -> int_keys d -> int_keys d'.
Proof.
  revert d. induction sizes as [|frame_size sizes IH]; intros d Hrun Hd; cbn in Hrun.
  - now injection Hrun as <-.
  - destruct (test_latency_icmp _ _) as [[latency_stats|]|]; [| |discriminate].
    + apply (IH _ Hrun). now apply int_keys_insert.
    + now apply (IH _ Hrun).
Qed.

Lemma back_to_back_tests_int_keys (env : environment) (sizes : list Z)
      (d d' : gmap key back_to_back_result) :
  back_to_back_tests env sizes d = Some d' -> int_keys d -> int_keys d'.
Proof.
  revert d. induction sizes as [|frame_size sizes IH]; intros d Hrun Hd; cbn in Hrun.
  - now injection Hrun as <-.
  - destruct (test_back_to_back _ _) as [[result|]|]; cbn in Hrun; [| |discriminate].
    + apply (IH _ Hrun). now apply int_keys_insert.
    + now apply (IH _ Hrun).
Qed.

Lemma frame_loss_tests_int_keys (env : environment) (sizes loads : list Z)
      (d d' : gmap key (gmap key (iperf3_result A))) :
  frame_loss_tests env sizes loads d = Some d' ->
  (int_keys d -> int_keys d') /\ (d' = ∅ -> sizes = [] /\ d = ∅).
Proof.
  revert d. induction sizes as [|frame_size sizes IH]; intros d Hrun; cbn in Hrun.
  - injection Hrun as <-. split; [tauto | intros ->; split; reflexivity].
  - destruct (frame_loss_loads _ _ _ _) as [per_load|]; cbn in Hrun; [|discriminate].
    destruct (IH _ Hrun) as [Hkeys Hempty]. split.
    + intros Hd. apply Hkeys. now apply int_keys_insert.
    + intros Hd'. destruct (Hempty Hd') as [_ Hins].
      exfalso. apply (insert_non_empty _ _ _ Hins).
Qed.

Lemma throughput_lookup (search : Z -> A) (sizes : list Z) (d : gmap key A) (frame_size : Z) :
  In frame_size sizes ->
  fold_left (fun d frame_size => <[inl frame_size := search frame_size]> d) sizes d
    !! (inl frame_size : key) = Some (search frame_size).
Proof.
  induction sizes as [|size sizes IH] using rev_ind; [contradiction|].
  intros Hin. rewrite fold_left_app. cbn [fold_left].
  destruct (Z.eq_dec size frame_size) as [->|Hne]; [apply lookup_insert_eq|].
  rewrite lookup_insert_ne by congruence. apply IH.
  apply in_app_or in Hin as [Hin|[Heq|[]]]; [exact Hin | contradiction].
Qed.

End SuiteReportProperties.

(** X22.  The summary written at the end of [run_all_tests] loses three of
    its four tables: the results are stored under the frame size as an
    [int], and [generate_summary_report] looks the latency, frame-loss and
    back-to-back results up under [str(frame_size)].  Whatever was
    measured, the latency and back-to-back tables have no row and every
    cell of the frame-loss table is the default 0; only the throughput
    table, looked up under the [int], shows the measured rates. *)
Theorem summary_report_misses_measured_rows :
  forall (A : Type) (N : Num A) (L : StatisticsLib A) (env : environment)
         (frame_sizes load_percentages : list Z) (results : suite_results),
    check_connectivity env = true ->
    run_all_tests env frame_sizes load_percentages = Some results ->
    exists report : summary_report,
      generate_summary_report results = Some report
      /\ throughput_rows report
         = List.map (fun frame_size =>
                       (frame_size, binary_search_throughput (throughput_probe env frame_size)))
                    frame_sizes
      /\ latency_rows report = []
      /\ back_to_back_rows report = []
      /\ frame_loss_rows report
         = match frame_sizes with
           | [] => None
           | _ => Some (List.map (fun frame_size =>
                                    (frame_size,
                                     List.map (fun _ => JNum (nofZ 0)) load_percentages))
                                 frame_sizes)
           end.
Proof.
  intros A N L env frame_sizes load_percentages results Hconn Hrun.
  unfold run_all_tests in Hrun. rewrite Hconn in Hrun. cbn [negb] in Hrun.
  destruct (latency_tests env frame_sizes ∅) as [lat|] eqn:Hlat; [|discriminate].
  destruct (frame_loss_tests env frame_sizes load_percentages ∅) as [fl|] eqn:Hfl;
    [|discriminate].
  destruct (back_to_back_tests env frame_sizes ∅) as [b2b|] eqn:Hb2b; [|discriminate].
  cbn [mbind option_bind] in Hrun. injection Hrun as <-.
  pose proof (latency_tests_int_keys _ _ _ _ Hlat int_keys_empty) as Klat.
  pose proof (back_to_back_tests_int_keys _ _ _ _ Hb2b int_keys_empty) as Kb2b.
  destruct (frame_loss_tests_int_keys _ _ _ _ _ Hfl) as [Kfl Efl].
  specialize (Kfl int_keys_empty).
  eexists. split; [reflexivity|].
  cbn [throughput_rows latency_rows back_to_back_rows frame_loss_rows
       info_frame_sizes info_load_percentages throughput latency frame_loss back_to_back].
  split; [|split; [|split]].
  - apply map_ext_in. intros frame_size Hin. now rewrite throughput_lookup.
  - induction frame_sizes as [|frame_size sizes IH] in |- *; [reflexivity|].
    cbn [omap list_omap]. rewrite Klat. exact IH.
  - induction frame_sizes as [|frame_size sizes IH] in |- *; [reflexivity|].
    cbn [omap list_omap]. rewrite Kb2b. exact IH.
  - destruct (decide (fl = ∅)) as [Hempty|Hnonempty].
    + destruct (Efl Hempty) as [-> _]. reflexivity.
    + destruct frame_sizes as [|size0 sizes0].
      { cbn in Hfl. injection Hfl as <-. contradiction. }
      apply (f_equal Some). apply map_ext. intros frame_size.
      rewrite Kfl. cbn [default]. apply (f_equal (pair frame_size)).
      apply map_ext. intros load. now rewrite lookup_empty.
Qed.

Lemma summary_report_misses_measured_rows_witness :
  exists (results : suite_results) (report : summary_report),
    @run_all_tests Q QNum unused_lib_Q example_environment [64; 128] [50; 100] = Some results
    /\ latency results !! (inl 64 : key) <> None
    /\ back_to_back results !! (inl 64 : key) <> None
    /\ generate_summary_report results = Some report
    /\ List.length (throughput_rows report) = 2%nat
    /\ latency_rows report = []
    /\ back_to_back_rows report = []
    /\ frame_loss_rows report
       = Some [(64, [JNum 0%Q; JNum 0%Q]); (128, [JNum 0%Q; JNum 0%Q])].
Proof.
  destruct (@run_all_tests Q QNum unused_lib_Q example_environment [64; 128] [50; 100])
    as [results|] eqn:Hrun; [|vm_compute in Hrun; discriminate].
  destruct (summary_report_misses_measured_rows Q QNum unused_lib_Q example_environment
              [64; 128] [50; 100] results eq_refl Hrun)
    as (report & Hrep & Hthr & Hlat & Hb2b & Hfl).
  exists results, report.
  assert (Hres : latency results !! (inl 64 : key) <> None
                 /\ back_to_back results !! (inl 64 : key) <> None).
  { vm_compute in Hrun. injection Hrun as <-. split; vm_compute; discriminate. }
  destruct Hres as [H1 H2].
  repeat split; try assumption. now rewrite Hthr.
Defined.

(** ** The frame loss rate test *)

Section FrameLossRateProperties.

Context `{L : StatisticsLib Q}.

Lemma run_load_trials_length (iperf3 : Z -> iperf3_run Q) (range : list Z)
      (acc : list Extended.trial_result) :
  (List.length (Extended.run_load_trials iperf3 range acc)
   <= List.length acc + List.length range)%nat.
Proof.
  revert acc. induction range as [|t range IH]; intros acc; cbn [Extended.run_load_trials].
  - cbn. lia.
  - destruct (Extended.trial_of t (iperf3 t)) as [r|].
    + specialize (IH (acc ++ [r])). rewrite length_app in IH. cbn [List.length] in *. lia.
    + specialize (IH acc). cbn [List.length]. lia.
Qed.

Lemma numbers_of_spec (values : list (json Q)) (numbers : list Q) :
  Extended.numbers_of values = Some numbers ->
  Forall2 (fun value x => json_number value = Some x) values numbers.
Proof.
  revert numbers. induction values as [|v values IH]; intros numbers Hn; cbn in Hn.
  - injection Hn as <-. constructor.
  - destruct (json_number v) as [x|] eqn:Ex; [|discriminate]. cbn in Hn.
    destruct (Extended.numbers_of values) as [xs|]; [|discriminate]. cbn in Hn.
    injection Hn as <-. constructor; [exact Ex | now apply IH].
Qed.

Lemma numbers_bracket (ts : list Extended.trial_result) (numbers : list Q) (lo hi : Q) :
  Forall2 (fun value x => json_number value = Some x)
    (List.map Extended.loss_percent ts) numbers ->
  (forall x : Q, In x numbers -> (lo <= x)%Q /\ (x <= hi)%Q) ->
  List.Forall (fun t => exists x : Q,
                   json_number (Extended.loss_percent t) = Some x
                   /\ (lo <= x)%Q /\ (x <= hi)%Q) ts.
Proof.
  revert numbers. induction ts as [|t ts IH]; intros numbers Hall Hb; [constructor|].
  cbn [List.map] in Hall. inversion Hall as [|v x vs xs Hvx Hrest]; subst.
  constructor.
  - exists x. split; [exact Hvx|]. apply Hb. now left.
  - apply (IH xs Hrest). intros y Hy. apply Hb. now right.
Qed.

Lemma load_test_ok (num_trials : nat) (iperf3 : Z -> Z -> iperf3_run Q) (load_pct : Z)
      (r : Extended.load_result) :
  Extended.load_test num_trials iperf3 load_pct = Some r ->
  Extended.offered_load_pct r = load_pct /\ load_result_ok num_trials r.
Proof.
  unfold Extended.load_test.
  pose proof (run_load_trials_length (iperf3 load_pct)
                (List.map Z.of_nat (List.seq 0 num_trials)) []) as Hlen.
  rewrite length_map, length_seq in Hlen. cbn [List.length Nat.add] in Hlen.
  set (trials := Extended.run_load_trials _ _ _) in *.
  assert (Htarget : (inject_Z (1000 * load_pct) / inject_Z 100 == inject_Z (10 * load_pct))%Q).
  { rewrite !inject_Z_mult. change (inject_Z 1000) with 1000%Q.
    change (inject_Z 100) with 100%Q. change (inject_Z 10) with 10%Q. field. }
  destruct trials as [|t0 rest] eqn:Et.
  - intros Heq. injection Heq as <-. split; [reflexivity|].
    unfold load_result_ok. cbn. repeat split; [exact Htarget | lia].
  - destruct (Extended.numbers_of _) as [numbers|] eqn:En; [|discriminate].
    cbn [mbind option_bind]. apply numbers_of_spec in En.
    assert (Hne : numbers <> []) by (inversion En; discriminate).
    rewrite (statistics_mean_returns numbers Hne).
    destruct (py_max_spec numbers Hne) as (hi & -> & _ & Hhi).
    destruct (py_min_spec numbers Hne) as (lo & -> & _ & Hlo).
    intros Heq. injection Heq as <-. split; [reflexivity|].
    unfold load_result_ok. cbn [Extended.target_mbps Extended.offered_load_pct Extended.trials
      Extended.avg_loss_percent Extended.max_loss_percent Extended.min_loss_percent].
    split; [exact Htarget|]. split; [exact Hlen|].
    exists lo, hi. repeat split; try discriminate.
    apply (numbers_bracket _ numbers); [exact En|].
    intros x Hx. split; [now apply Hlo | now apply Hhi].
Qed.

Lemma load_tests_of_spec (num_trials : nat) (iperf3 : Z -> Z -> iperf3_run Q)
      (offered_loads : list Z) (acc load_tests : list Extended.load_result) :
  Extended.load_tests_of num_trials iperf3 offered_loads acc = Some load_tests ->
  exists new : list Extended.load_result,
    load_tests = acc ++ new
    /\ List.map Extended.offered_load_pct new = offered_loads
    /\ List.Forall (load_result_ok num_trials) new.
Proof.
  revert acc. induction offered_loads as [|load_pct loads IH]; intros acc Hrun; cbn in Hrun.
  - injection Hrun as <-. exists []. rewrite app_nil_r. repeat split. constructor.
  - destruct (Extended.load_test num_trials iperf3 load_pct) as [r|] eqn:Er; [|discriminate].
    cbn in Hrun. destruct (IH _ Hrun) as (new & -> & Hloads & Hall).
    apply load_test_ok in Er as [Hload Hok].
    exists (r :: new). rewrite <- app_assoc. cbn [app List.map].
    repeat split; [now rewrite Hload, Hloads | now constructor].
Qed.

End FrameLossRateProperties.

(** X23.  [frame_loss_rate_test] returns one entry per offered load, in
    order, with at most [num_trials] trials each; in exact arithmetic the
    recorded minimum and maximum bracket the loss of every trial that gave
    a result, and a load whose trials all failed has no statistics and no
    row in the summary, whose rows all have min <= max. *)
Theorem frame_loss_summary_brackets_trials :
  forall (L : StatisticsLib Q) (num_trials : nat) (iperf3 : Z -> Z -> iperf3_run Q)
         (frame_size : Z) (offered_loads : list Z)
         (results : Z * list Extended.load_result),
    Extended.frame_loss_rate_test num_trials iperf3 frame_size offered_loads = Some results ->
    fst results = frame_size
    /\ List.map Extended.offered_load_pct (snd results) = offered_loads
    /\ List.Forall (load_result_ok num_trials) (snd results)
    /\ List.Forall (fun row => match row with
                               | (_, _, _, v_min, v_max) => (v_min <= v_max)%Q
                               end)
         (Extended.frame_loss_rows (snd results))
    /\ (List.length (Extended.frame_loss_rows (snd results)) <= List.length offered_loads)%nat.
Proof.
  intros L num_trials iperf3 frame_size offered_loads results Hrun.
  unfold Extended.frame_loss_rate_test in Hrun.
  destruct (Extended.load_tests_of num_trials iperf3 offered_loads []) as [load_tests|] eqn:E;
    [|discriminate].
  cbn in Hrun. injection Hrun as <-. cbn [fst snd].
  destruct (load_tests_of_spec _ _ _ _ _ E) as (new & -> & Hloads & Hall). cbn [app].
  split; [reflexivity|]. split; [exact Hloads|]. split; [exact Hall|]. split.
  - clear - Hall. induction Hall as [|r new Hr Hall IH]; [constructor|].
    unfold Extended.frame_loss_rows. cbn [omap list_omap].
    destruct Hr as (_ & _ & Hstats).
    destruct (Extended.trials r) as [|t ts]; [exact IH|].
    destruct Hstats as (lo & hi & -> & -> & _ & Hbr).
    constructor; [|exact IH]. cbn [default].
    inversion Hbr as [|? ? (x & _ & H1 & H2) _]; subst.
    now apply Qle_trans with x.
  - rewrite <- Hloads, length_map. clear. induction new as [|r new IH]; [cbn; lia|].
    unfold Extended.frame_loss_rows in *. cbn [omap list_omap List.length].
    destruct (Extended.trials r); cbn [List.length]; lia.
Qed.

Lemma frame_loss_summary_brackets_trials_witness :
  exists results : Z * list Extended.load_result,
    @Extended.frame_loss_rate_test Q QNum unused_lib_Q 3 example_loss_run 64 [10; 100]
    = Some results
    /\ List.map Extended.offered_load_pct (snd results) = [10; 100]
    /\ List.Forall (load_result_ok 3) (snd results)
    /\ List.length (Extended.frame_loss_rows (snd results)) = 1%nat.
Proof.
  destruct (@Extended.frame_loss_rate_test Q QNum unused_lib_Q 3 example_loss_run 64 [10; 100])
    as [results|] eqn:Hrun; [|vm_compute in Hrun; discriminate].
  destruct (frame_loss_summary_brackets_trials unused_lib_Q 3 example_loss_run 64 [10; 100]
              results Hrun) as (_ & Hloads & Hall & _ & _).
  exists results. repeat split; try assumption.
  vm_compute in Hrun. injection Hrun as <-. reflexivity.
Defined.
